(** * The PNN configuration object and its schematic builder

    Shallow embedding of [simulation/python/Classes.py]: the class [PNN], a
    flat record of attributes with setter-style methods, and the two
    procedures [mount] and [update] that replay a fixed script of calls
    against an INTERCONNECT session handle ([process]).

    Python values are dynamically typed, so every attribute holds a [value].
    Floats are IEEE binary64 ([PrimFloat]); integers are unbounded ([Z]).
    The session handle is external: the embedding records the calls issued to
    it, in order, and takes every call to return normally. *)

From Stdlib Require Import ZArith String List PrimFloat SpecFloat FloatOps.
From stdpp Require Import base option list gmap strings pretty.

Set Warnings "-inexact-float".
Local Open Scope Z_scope.
Local Open Scope string_scope.
Local Open Scope list_scope.

(** ** Values and exceptions *)

(** The objects an attribute can hold.  [VOpaque] stands for an object of
    another type that takes no part in arithmetic and is equal to no string,
    such as a bound method.  Numbers of other types (complex numbers,
    fractions, the scalars of [numpy]), containers and objects with operators
    of their own are outside the embedding. *)
Inductive value : Type :=
| VNone
| VBool (b : bool)
| VInt (z : Z)
| VFloat (f : float)
| VStr (s : string)
| VOpaque (tag : string).

(** The exceptions the code can raise.  The message of [NameError] is not
    kept. *)
Inductive exn : Type :=
| NameError
| TypeError
| OverflowError
| AttributeError.

Definition result (A : Type) : Type := (exn + A)%type.

(** [x == 'literal'] for a string literal: only a string can be equal to it. *)
Definition py_eq_str (v : value) (s : string) : bool :=
  match v with
  | VStr s' => String.eqb s' s
  | _ => false
  end.

(** [x is None], [x is True], [x is False]. *)
Definition is_None (v : value) : bool :=
  match v with VNone => true | _ => false end.

Definition is_True (v : value) : bool :=
  match v with VBool true => true | _ => false end.

Definition is_False (v : value) : bool :=
  match v with VBool false => true | _ => false end.

(** [x in [None, s1, ..., sn]], the membership test of both validators. *)
Definition in_None_or (v : value) (l : list string) : bool :=
  is_None v || existsb (py_eq_str v) l.

(** ** Arithmetic

    [bool] is a subclass of [int]; an [int] meeting a [float] is converted,
    rounding to nearest even, and raises [OverflowError] when it is out of the
    range of a double. *)
Definition as_int (v : value) : option Z :=
  match v with
  | VBool b => Some (Z.b2z b)
  | VInt z => Some z
  | _ => None
  end.

Definition float_of_int (z : Z) : result float :=
  let f := SF2Prim (binary_normalize prec emax z 0 false) in
  if PrimFloat.is_infinity f then inl OverflowError else inr f.

Inductive number : Type :=
| NInt (z : Z)
| NFloat (f : float).

Definition as_number (v : value) : option number :=
  match v with
  | VBool b => Some (NInt (Z.b2z b))
  | VInt z => Some (NInt z)
  | VFloat f => Some (NFloat f)
  | _ => None
  end.

Definition num_op (fz : Z -> Z -> Z) (ff : float -> float -> float)
    (a b : number) : result value :=
  match a, b with
  | NInt x, NInt y => inr (VInt (fz x y))
  | NFloat x, NFloat y => inr (VFloat (ff x y))
  | NInt x, NFloat y =>
      match float_of_int x with
      | inl e => inl e
      | inr x' => inr (VFloat (ff x' y))
      end
  | NFloat x, NInt y =>
      match float_of_int y with
      | inl e => inl e
      | inr y' => inr (VFloat (ff x y'))
      end
  end.

(** [n * s] on a string: [n] copies, none when [n <= 0].  Strings are
    unbounded here: that the interpreter refuses a repetition longer than it
    can index is not modelled, and the properties that depend on it leave
    the repetition of a string out. *)
Definition str_repeat (n : Z) (s : string) : string :=
  String.concat "" (repeat s (Z.to_nat n)).

(** [a + b] *)
Definition py_add (a b : value) : result value :=
  match as_number a, as_number b with
  | Some x, Some y => num_op Z.add PrimFloat.add x y
  | _, _ =>
      match a, b with
      | VStr s, VStr t => inr (VStr (s +:+ t))
      | _, _ => inl TypeError
      end
  end.

(** [a * b] *)
Definition py_mul (a b : value) : result value :=
  match as_number a, as_number b with
  | Some x, Some y => num_op Z.mul PrimFloat.mul x y
  | _, _ =>
      match a, b with
      | VStr s, _ =>
          match as_int b with
          | Some n => inr (VStr (str_repeat n s))
          | None => inl TypeError
          end
      | _, VStr s =>
          match as_int a with
          | Some n => inr (VStr (str_repeat n s))
          | None => inl TypeError
          end
      | _, _ => inl TypeError
      end
  end.

(** [range(1, stop)]: [stop] has to be an integer. *)
Definition py_range1 (stop : value) : result (list Z) :=
  match as_int stop with
  | Some n => inr (seqZ 1 (n - 1))
  | None => inl TypeError
  end.

(** [str(i)] on an integer. *)
Definition py_str (i : Z) : string := pretty i.

(** ** The configuration record

    The attributes of an instance: five set by the constructor, twenty
    defaulted by the class body.  Each holds any [value]. *)
Record config : Type := Config {
  model : value;
  taps : value;
  DelayUnitLen : value;
  unitsNextTap : value;
  WvgLoss : value;
  FiberLen : value;
  PRBSType : value;
  PulseAmp : value;
  RiseTime : value;
  FallTime : value;
  MZMILoss : value;
  ToggleBitOp : value;
  bitrate : value;
  numofSamples : value;
  timeWindow : value;
  OutputType : value;
  ToggleAWGN : value;
  NoisePSD : value;
  ToggleOptFilter : value;
  OptFilterBand : value;
  PDResponsivity : value;
  PDDarkCurrent : value;
  PDTNoise : value;
  TogglePDTNoise : value;
  TogglePDSNoise : value
}.

(** Attribute names as data, for assignment by name. *)
Module F.
Inductive field : Type :=
| model
| taps
| DelayUnitLen
| unitsNextTap
| WvgLoss
| FiberLen
| PRBSType
| PulseAmp
| RiseTime
| FallTime
| MZMILoss
| ToggleBitOp
| bitrate
| numofSamples
| timeWindow
| OutputType
| ToggleAWGN
| NoisePSD
| ToggleOptFilter
| OptFilterBand
| PDResponsivity
| PDDarkCurrent
| PDTNoise
| TogglePDTNoise
| TogglePDSNoise.
End F.

#[global] Instance field_eq_dec : EqDecision F.field.
Proof. solve_decision. Defined.

Definition all_fields : list F.field :=
  [F.model; F.taps; F.DelayUnitLen; F.unitsNextTap; F.WvgLoss; F.FiberLen;
  F.PRBSType; F.PulseAmp; F.RiseTime; F.FallTime; F.MZMILoss; F.ToggleBitOp;
  F.bitrate; F.numofSamples; F.timeWindow; F.OutputType; F.ToggleAWGN;
  F.NoisePSD; F.ToggleOptFilter; F.OptFilterBand; F.PDResponsivity;
  F.PDDarkCurrent; F.PDTNoise; F.TogglePDTNoise; F.TogglePDSNoise].

Definition field_name (f : F.field) : string :=
  match f with
  | F.model => "model"
  | F.taps => "taps"
  | F.DelayUnitLen => "DelayUnitLen"
  | F.unitsNextTap => "unitsNextTap"
  | F.WvgLoss => "WvgLoss"
  | F.FiberLen => "FiberLen"
  | F.PRBSType => "PRBSType"
  | F.PulseAmp => "PulseAmp"
  | F.RiseTime => "RiseTime"
  | F.FallTime => "FallTime"
  | F.MZMILoss => "MZMILoss"
  | F.ToggleBitOp => "ToggleBitOp"
  | F.bitrate => "bitrate"
  | F.numofSamples => "numofSamples"
  | F.timeWindow => "timeWindow"
  | F.OutputType => "OutputType"
  | F.ToggleAWGN => "ToggleAWGN"
  | F.NoisePSD => "NoisePSD"
  | F.ToggleOptFilter => "ToggleOptFilter"
  | F.OptFilterBand => "OptFilterBand"
  | F.PDResponsivity => "PDResponsivity"
  | F.PDDarkCurrent => "PDDarkCurrent"
  | F.PDTNoise => "PDTNoise"
  | F.TogglePDTNoise => "TogglePDTNoise"
  | F.TogglePDSNoise => "TogglePDSNoise"
  end.

Definition get (f : F.field) (c : config) : value :=
  match f with
  | F.model => model c
  | F.taps => taps c
  | F.DelayUnitLen => DelayUnitLen c
  | F.unitsNextTap => unitsNextTap c
  | F.WvgLoss => WvgLoss c
  | F.FiberLen => FiberLen c
  | F.PRBSType => PRBSType c
  | F.PulseAmp => PulseAmp c
  | F.RiseTime => RiseTime c
  | F.FallTime => FallTime c
  | F.MZMILoss => MZMILoss c
  | F.ToggleBitOp => ToggleBitOp c
  | F.bitrate => bitrate c
  | F.numofSamples => numofSamples c
  | F.timeWindow => timeWindow c
  | F.OutputType => OutputType c
  | F.ToggleAWGN => ToggleAWGN c
  | F.NoisePSD => NoisePSD c
  | F.ToggleOptFilter => ToggleOptFilter c
  | F.OptFilterBand => OptFilterBand c
  | F.PDResponsivity => PDResponsivity c
  | F.PDDarkCurrent => PDDarkCurrent c
  | F.PDTNoise => PDTNoise c
  | F.TogglePDTNoise => TogglePDTNoise c
  | F.TogglePDSNoise => TogglePDSNoise c
  end.

Definition set_field (f : F.field) (v : value) (c : config) : config :=
  let at_ (g : F.field) : value := if decide (g = f) then v else get g c in
  {|
    model := at_ F.model;
    taps := at_ F.taps;
    DelayUnitLen := at_ F.DelayUnitLen;
    unitsNextTap := at_ F.unitsNextTap;
    WvgLoss := at_ F.WvgLoss;
    FiberLen := at_ F.FiberLen;
    PRBSType := at_ F.PRBSType;
    PulseAmp := at_ F.PulseAmp;
    RiseTime := at_ F.RiseTime;
    FallTime := at_ F.FallTime;
    MZMILoss := at_ F.MZMILoss;
    ToggleBitOp := at_ F.ToggleBitOp;
    bitrate := at_ F.bitrate;
    numofSamples := at_ F.numofSamples;
    timeWindow := at_ F.timeWindow;
    OutputType := at_ F.OutputType;
    ToggleAWGN := at_ F.ToggleAWGN;
    NoisePSD := at_ F.NoisePSD;
    ToggleOptFilter := at_ F.ToggleOptFilter;
    OptFilterBand := at_ F.OptFilterBand;
    PDResponsivity := at_ F.PDResponsivity;
    PDDarkCurrent := at_ F.PDDarkCurrent;
    PDTNoise := at_ F.PDTNoise;
    TogglePDTNoise := at_ F.TogglePDTNoise;
    TogglePDSNoise := at_ F.TogglePDSNoise
  |}.

Definition field_of_name (name : string) : option F.field :=
  find (fun f => String.eqb (field_name f) name) all_fields.

(** An instance: the declared attributes, and whatever further attributes
    [setattr] has put into its [__dict__]. *)
Record PNN : Type := Instance_ {
  fields :> config;
  others : gmap string value
}.

(** ** The session handle

    One constructor per method of the INTERCONNECT session that the code
    calls, with the arguments passed. *)
Inductive call : Type :=
| c_switchtolayout
| c_deleteall
| c_setnamed (element property : string) (v : value)
| c_addelement (type : string)
| c_set (property : string) (v : value)
| c_connect (a port_a b port_b : string)
| c_disconnect (a port_a b port_b : string)
| c_flipelement (element : string)
| c_select (element : string).

(** ** Running a method

    A method runs against the instance and the log of calls issued so far
    (most recent first).  An exception stops the method; what it did before
    stays done. *)
Record world : Type := World {
  self : PNN;
  log : list call
}.

Definition M (A : Type) : Type := world -> result A * world.

#[global] Instance M_ret : MRet M := fun A a w => (inr a, w).

#[global] Instance M_bind : MBind M := fun A B k m w =>
  match m w with
  | (inl e, w') => (inl e, w')
  | (inr a, w') => k a w'
  end.

Definition raise {A : Type} (e : exn) : M A := fun w => (inl e, w).

Definition lift {A : Type} (r : result A) : M A := fun w => (r, w).

(** A sequence of statements. *)
Fixpoint block (l : list (M unit)) : M unit :=
  match l with
  | [] => mret tt
  | s :: l' => s ≫= fun _ => block l'
  end.

Definition pass : M unit := mret tt.

(** [for i in l: body] *)
Definition for_ {A : Type} (l : list A) (body : A -> M unit) : M unit :=
  block (map body l).

(** [self.f] read, [self.f = v] assigned. *)
Definition self_ (f : config -> value) : M value :=
  fun w => (inr (f (self w)), w).

Definition assign (f : F.field) (v : value) : M unit :=
  fun w =>
    (inr tt,
     World (Instance_ (set_field f v (self w)) (others (self w))) (log w)).

Definition emit (c : call) : M unit :=
  fun w => (inr tt, World (self w) (c :: log w)).

(** The calls issued, oldest first. *)
Definition trace (w : world) : list call := rev (log w).

(** Expressions. *)
Definition int (z : Z) : M value := mret (VInt z).
Definition flt (f : float) : M value := mret (VFloat f).
Definition str (s : string) : M value := mret (VStr s).
Definition boolean (b : bool) : M value := mret (VBool b).

Definition binop (op : value -> value -> result value)
    (e1 e2 : M value) : M value :=
  a ← e1; b ← e2; lift (op a b).

Definition add : M value -> M value -> M value := binop py_add.
Definition mul : M value -> M value -> M value := binop py_mul.

(** Tests on attributes. *)
Definition eq_str (e : M value) (s : string) : M bool :=
  a ← e; mret (py_eq_str a s).
Definition is_ (e : M value) (b : bool) : M bool :=
  a ← e; mret (if b then is_True a else is_False a).

Definition if_ (c : M bool) (t e : M unit) : M unit :=
  b ← c; if b : bool then t else e.

(** The methods of the handle, as statements. *)
Module process.
Definition switchtolayout : M unit := emit c_switchtolayout.
Definition deleteall : M unit := emit c_deleteall.
Definition setnamed (element property : string) (e : M value) : M unit :=
  v ← e; emit (c_setnamed element property v).
Definition addelement (type : string) : M unit := emit (c_addelement type).
Definition set (property : string) (e : M value) : M unit :=
  v ← e; emit (c_set property v).
Definition connect (a pa b pb : string) : M unit := emit (c_connect a pa b pb).
Definition disconnect (a pa b pb : string) : M unit :=
  emit (c_disconnect a pa b pb).
Definition flipelement (element : string) : M unit :=
  emit (c_flipelement element).
Definition select (element : string) : M unit := emit (c_select element).
End process.

(** ** The C library

    [x ** 2] on a float ends in the C library's [pow], whose result is not
    the same double on every platform.  It is a parameter of the embedding:
    [libm_pow x y] is the double that [pow(x, y)] returns, with whether the
    call reports a range error ([errno] set to [ERANGE]).

    [product_pow] is one such library, for the examples: its [pow(x, 2.0)] is
    the rounded product, and it reports nothing. *)
Definition product_pow (x y : float) : float * bool :=
  (PrimFloat.mul x x, false).

Section Platform.

Variable libm_pow : float -> float -> float * bool.

(** [a ** 2].  On integers the square is exact.  On a float the interpreter
    answers the special cases itself (a NaN, an infinity, a zero, and one or
    minus one) and hands every other operand, made positive, to [pow]; it
    raises [OverflowError] when [pow] returns an infinity without reporting
    an error, or reports a range error with a result other than zero. *)
Definition py_pow2 (a : value) : result value :=
  match as_number a with
  | Some (NInt x) => inr (VInt (x * x))
  | Some (NFloat x) =>
      if PrimFloat.is_nan x then inr (VFloat x)
      else if PrimFloat.is_infinity x then inr (VFloat PrimFloat.infinity)
      else if PrimFloat.eqb x 0 then inr (VFloat 0)
      else if PrimFloat.eqb (PrimFloat.abs x) 1 then inr (VFloat 1)
      else
        let (r, erange) := libm_pow (PrimFloat.abs x) 2 in
        if (if erange : bool then negb (PrimFloat.eqb r 0)
            else PrimFloat.is_infinity r)
        then inl OverflowError
        else inr (VFloat r)
  | None => inl TypeError
  end.

Definition pow2 (e : M value) : M value := a ← e; lift (py_pow2 a).

(** ** Construction and the setter-style methods

    An argument left out takes its default: [None] for the setters, the
    declared default for the constructor, where leaving out is [None : option]
    and an explicit Python [None] is [Some VNone]. *)

(** The instance [__init__] leaves behind: its five assignments on top of the
    class body's defaults. *)
Definition initialised (model taps DelayUnitLen unitsNextTap WvgLoss : value)
    : PNN :=
  Instance_
    {| model := model;
       taps := taps;
       DelayUnitLen := DelayUnitLen;
       unitsNextTap := unitsNextTap;
       WvgLoss := WvgLoss;
       (* Transmission local parameters *)
       FiberLen := VFloat 1e3;
       PRBSType := VStr "PRBS";
       PulseAmp := VInt 1;
       RiseTime := VFloat 0.05;
       FallTime := VFloat 0.05;
       MZMILoss := VInt 0;
       ToggleBitOp := VBool true;
       (* Simulation local parameters *)
       bitrate := VFloat 10e9;
       numofSamples := VInt 8192;
       timeWindow := VFloat 5.12e-9;
       (* Output local parameters *)
       OutputType := VStr "connected";
       ToggleAWGN := VBool false;
       NoisePSD := VFloat 2e-20;
       ToggleOptFilter := VBool false;
       OptFilterBand := VFloat 25e9;
       (* Photoreceptor local parameters *)
       PDResponsivity := VInt 1;
       PDDarkCurrent := VInt 0;
       PDTNoise := VFloat 1e-22;
       TogglePDTNoise := VBool false;
       TogglePDSNoise := VBool false |}
    ∅.

(** [PNN(model, taps, DelayUnitLen, unitsNextTap, WvgLoss)] *)
Definition __init__ (model taps DelayUnitLen unitsNextTap WvgLoss : option value)
    : result PNN :=
  let model := default (VStr "parallel") model in
  let taps := default (VInt 4) taps in
  let DelayUnitLen := default (VFloat 100e-6) DelayUnitLen in
  let unitsNextTap := default (VInt 1) unitsNextTap in
  let WvgLoss := default (VInt 0) WvgLoss in
  if negb (in_None_or model ["parallel"; "series"]) then inl NameError
  else inr (initialised model taps DelayUnitLen unitsNextTap WvgLoss).

(** [if x is not None: self.f = x] *)
Definition assign_given (f : F.field) (x : value) : M unit :=
  if negb (is_None x) then assign f x else pass.

Definition general (model taps DelayUnitLen unitsNextTap WvgLoss : value)
    : M unit :=
  block [
    (if negb (in_None_or model ["parallel"; "series"]) then raise NameError
     else if negb (is_None model) then assign F.model model
     else pass);
    assign_given F.taps taps;
    assign_given F.DelayUnitLen DelayUnitLen;
    assign_given F.unitsNextTap unitsNextTap;
    assign_given F.WvgLoss WvgLoss
  ].

Definition transmission
    (FiberLen PRBSType PulseAmp RiseTime FallTime MZMILoss ToggleBitOp : value)
    : M unit :=
  block [
    assign_given F.FiberLen FiberLen;
    assign_given F.PRBSType PRBSType;
    assign_given F.PulseAmp PulseAmp;
    assign_given F.RiseTime RiseTime;
    assign_given F.FallTime FallTime;
    assign_given F.MZMILoss MZMILoss;
    assign_given F.ToggleBitOp ToggleBitOp
  ].

Definition simulation (bitrate numofSamples timeWindow : value) : M unit :=
  block [
    assign_given F.bitrate bitrate;
    assign_given F.numofSamples numofSamples;
    assign_given F.timeWindow timeWindow
  ].

Definition output
    (OutputType ToggleAWGN NoisePSD ToggleOptFilter OptFilterBand : value)
    : M unit :=
  block [
    (if negb (in_None_or OutputType ["connected"; "disconnected"; "mixed"])
     then raise NameError
     else if negb (is_None OutputType) then assign F.OutputType OutputType
     else pass);
    assign_given F.ToggleAWGN ToggleAWGN;
    assign_given F.NoisePSD NoisePSD;
    assign_given F.ToggleOptFilter ToggleOptFilter;
    assign_given F.OptFilterBand OptFilterBand
  ].

Definition photoreceptor
    (PDResponsivity PDDarkCurrent PDTNoise TogglePDTNoise TogglePDSNoise : value)
    : M unit :=
  block [
    assign_given F.PDResponsivity PDResponsivity;
    assign_given F.PDDarkCurrent PDDarkCurrent;
    assign_given F.PDTNoise PDTNoise;
    assign_given F.TogglePDTNoise TogglePDTNoise;
    assign_given F.TogglePDSNoise TogglePDSNoise
  ].

(** ** Attributes by name *)

(** The names that descriptors of the type handle before the instance is
    consulted.  [__weakref__] cannot be written; [__class__] takes a class
    and [__dict__] a dictionary, which no number, string or [None] is. *)
Definition type_descriptors : list string :=
  ["__class__"; "__dict__"; "__weakref__"].

(** [setattr(self, name, v)] *)
Definition setattr (name : string) (v : value) : M unit :=
  if bool_decide (name ∈ type_descriptors) then
    raise (if String.eqb name "__weakref__" then AttributeError else TypeError)
  else
    match field_of_name name with
    | Some f => assign f v
    | None =>
        fun w =>
          (inr tt,
           World (Instance_ (fields (self w)) (<[name := v]> (others (self w))))
                 (log w))
    end.

(** [kwargs] is the keyword arguments of the call, in the order given.  A
    keyword [self] collides with the first parameter of the method: the call
    is refused with [TypeError] when the arguments are bound, before the
    body runs. *)
Definition setAttributes (kwargs : list (string * value)) : M unit :=
  if bool_decide ("self" ∈ kwargs.*1) then raise TypeError
  else for_ kwargs (fun '(key, value) => setattr key value).

(** The functions of the class body, reached through the instance as bound
    methods. *)
Definition methods : list string :=
  ["__init__"; "general"; "transmission"; "simulation"; "output";
   "photoreceptor"; "showParameters"; "setAttributes"; "getAttributes";
   "update"; "mount"].

Section Lookup.

(** What the interpreter resolves beyond the class body's attributes and
    functions: the names inherited from [object] and the type's own
    ([__class__], [__doc__], ...). *)
Variable inherited : string -> option value.

(** [getattr(self, name)]; [None] is [AttributeError]. *)
Definition getattr (o : PNN) (name : string) : option value :=
  if bool_decide (name ∈ type_descriptors) then inherited name
  else
    match field_of_name name with
    | Some f => Some (get f o)
    | None =>
        match others o !! name with
        | Some v => Some v
        | None =>
            if bool_decide (name ∈ methods) then Some (VOpaque name)
            else inherited name
        end
    end.

(** [getattr(self, attr, None)], where [attr] is whatever object the caller
    passed: a name that is not a string is a [TypeError]; a name that
    resolves to nothing gives the default. *)
Definition getattr_or_None (attr : value) : M value :=
  match attr with
  | VStr name => fun w => (inr (default VNone (getattr (self w) name)), w)
  | _ => raise TypeError
  end.

(** [tuple(e for attr in kwargs)]: the elements are evaluated in order. *)
Fixpoint tuple_of (l : list (M value)) : M (list value) :=
  match l with
  | [] => mret []
  | e :: l' => v ← e; t ← tuple_of l'; mret (v :: t)
  end.

(** [tuple(getattr(self, attr, None) for attr in kwargs)] *)
Definition getAttributes (kwargs : list value) : M (list value) :=
  tuple_of (map getattr_or_None kwargs).

End Lookup.

(** ** The two procedures *)

(** [numpy.pi] *)
Definition np_pi : float := 3.141592653589793.

(** [for i in range(1, stop): body] *)
Definition for_range1 (stop : M value) (body : Z -> M unit) : M unit :=
  n ← stop; l ← lift (py_range1 n); for_ l body.

(** [PNN.update], lines 306-343. *)
Definition update : M unit :=
  block [
    process.switchtolayout;
    process.setnamed "::Root Element" "bitrate" (self_ bitrate);
    process.setnamed "::Root Element" "time window" (self_ timeWindow);
    process.setnamed "::Root Element" "number of samples" (self_ numofSamples);
    if_ (eq_str (self_ model) "parallel")
      (block [
        process.setnamed "DelayLine_1" "length" (self_ DelayUnitLen);
        process.setnamed "DelayLine_2" "length" (mul (add (int 1) (self_ unitsNextTap)) (self_ DelayUnitLen));
        process.setnamed "DelayLine_3" "length" (mul (add (int 1) (mul (int 2) (self_ unitsNextTap))) (self_ DelayUnitLen));
        process.setnamed "DelayLine_4" "length" (mul (add (int 1) (mul (int 3) (self_ unitsNextTap))) (self_ DelayUnitLen))
      ])
      pass;
    process.setnamed "fiber_AMP" "gain" (mul (self_ FiberLen) (flt 0.17e-3));
    process.setnamed "Fiber" "length" (self_ FiberLen);
    process.setnamed "Pulse Generator" "amplitude" (self_ PulseAmp);
    process.setnamed "PRBS" "output" (self_ PRBSType);
    process.setnamed "Pulse Generator" "rise period" (self_ RiseTime);
    process.setnamed "Pulse Generator" "fall period" (self_ FallTime);
    process.setnamed "MZM" "insertion loss" (self_ MZMILoss);
    if_ (eq_str (self_ OutputType) "disconnected")
      (for_range1 (add (self_ taps) (int 1)) (fun i =>
          (block [
            process.setnamed ("OutPIN_" +:+ py_str i) "enable thermal noise" (self_ TogglePDTNoise);
            process.setnamed ("OutPIN_" +:+ py_str i) "enable shot noise" (self_ TogglePDSNoise);
            process.setnamed ("OutPIN_" +:+ py_str i) "responsivity" (self_ PDResponsivity);
            process.setnamed ("OutPIN_" +:+ py_str i) "dark current" (self_ PDDarkCurrent);
            if_ (is_ (self_ TogglePDTNoise) true)
              (process.setnamed ("OutPIN_" +:+ py_str i) "thermal noise" (pow2 (self_ PDTNoise)))
              pass
          ])))
      (block [
        process.setnamed "OutPIN" "enable thermal noise" (self_ TogglePDTNoise);
        process.setnamed "OutPIN" "enable shot noise" (self_ TogglePDSNoise);
        process.setnamed "OutPIN" "responsivity" (self_ PDResponsivity);
        process.setnamed "OutPIN" "dark current" (self_ PDDarkCurrent);
        if_ (is_ (self_ TogglePDTNoise) true)
          (process.setnamed "OutPIN" "thermal noise" (pow2 (self_ PDTNoise)))
          pass
      ]);
    if_ (is_ (self_ ToggleAWGN) true)
      (process.setnamed "AWGN_source" "power spectral density" (self_ NoisePSD))
      pass;
    if_ (is_ (self_ ToggleOptFilter) true)
      (process.setnamed "Optical Filter" "bandwidth" (self_ OptFilterBand))
      pass
  ].

(** [PNN.mount], lines 348-1001. *)
Definition mount : M unit :=
  block [
    process.switchtolayout;
    process.deleteall
  ];;
  let spacement_A := 0 in
  spacement_A ←
    (mixed ← eq_str (self_ OutputType) "mixed";
     mret (if mixed : bool then spacement_A + 300 else spacement_A));
  block [
    process.setnamed "::Root Element" "bitrate" (self_ bitrate);
    process.setnamed "::Root Element" "time window" (self_ timeWindow);
    process.setnamed "::Root Element" "number of samples" (self_ numofSamples);
    process.addelement "Optical Linear Fiber";
    process.set "x position" (int (-600));
    process.set "y position" (int (-200));
    process.set "length" (self_ FiberLen);
    process.set "attenuation" (flt 0.17e-3);
    process.set "name" (str "Fiber");
    process.addelement "Optical Amplifier";
    process.set "enable noise" (boolean false);
    process.set "x position" (int (-450));
    process.set "y position" (int (-200));
    process.set "gain" (mul (self_ FiberLen) (flt 0.17e-3));
    process.set "name" (str "fiber_AMP");
    process.addelement "Optical Attenuator";
    process.set "x position" (int (-300));
    process.set "y position" (int (-200));
    process.set "name" (str "VOA");
    process.addelement "Mach-Zehnder Modulator";
    process.set "x position" (int (-750));
    process.set "y position" (int (-200));
    process.set "modulator type" (str "balanced single drive");
    process.set "insertion loss" (self_ MZMILoss);
    process.set "name" (str "MZM");
    process.addelement "CW Laser";
    process.set "x position" (int (-1000));
    process.set "y position" (int (-200));
    process.set "name" (str "CWL");
    process.addelement "NRZ Pulse Generator";
    process.set "x position" (int (-900));
    process.set "y position" (int (-400));
    process.set "amplitude" (self_ PulseAmp);
    process.set "rise period" (self_ RiseTime);
    process.set "fall period" (self_ FallTime);
    process.set "name" (str "Pulse Generator");
    process.addelement "PRBS Generator";
    process.set "x position" (int (-1250));
    process.set "y position" (int (-400));
    process.set "output" (self_ PRBSType);
    process.set "name" (str "PRBS");
    process.addelement "Optical Oscilloscope";
    process.set "x position" (int (-400));
    process.set "y position" (int (-300));
    process.addelement "Optical Oscilloscope";
    process.set "x position" (int (-600));
    process.set "y position" (int (-300));
    process.addelement "Optical Oscilloscope";
    process.set "x position" (int (-225));
    process.set "y position" (int (-300));
    process.set "name" (str "VOA_OOSC");
    process.addelement "Oscilloscope";
    process.set "x position" (int (-750));
    process.set "y position" (int (-500));
    process.addelement "Logic Analyzer";
    process.set "x position" (int (-1100));
    process.set "y position" (int (-500));
    process.connect "CWL" "output" "MZM" "input";
    process.connect "MZM" "output" "Fiber" "port 1";
    process.connect "Fiber" "port 2" "fiber_AMP" "input";
    process.connect "fiber_AMP" "output" "VOA" "port 1";
    process.connect "Pulse Generator" "output" "MZM" "modulation 1";
    process.connect "PRBS" "output" "LGCA_1" "input";
    process.connect "Pulse Generator" "output" "OSC_1" "input";
    process.connect "MZM" "output" "OOSC_2" "input";
    process.connect "Fiber" "port 2" "OOSC_1" "input";
    process.connect "VOA" "port 2" "VOA_OOSC" "input";
    if_ (is_ (self_ ToggleBitOp) true)
      (block [
        process.addelement "Fork 1xN";
        process.set "x position" (int (-1050));
        process.set "y position" (int (-415));
        process.set "number of ports" (int 3);
        process.addelement "Data Delay";
        process.set "x position" (int (-925));
        process.set "y position" (int (-575));
        process.set "delay" (int 1);
        process.addelement "Digital Logic";
        process.set "x position" (int (-800));
        process.set "y position" (int (-625));
        process.set "logic operator" (str "XOR");
        process.addelement "Logic Analyzer";
        process.set "x position" (int (-1000));
        process.set "y position" (int (-750));
        process.addelement "Logic Analyzer";
        process.set "x position" (int (-800));
        process.set "y position" (int (-750));
        process.addelement "Logic Analyzer";
        process.set "x position" (int (-650));
        process.set "y position" (int (-750));
        process.connect "PRBS" "output" "FORK_1" "input";
        process.connect "FORK_1" "output 1" "LOGIC_1" "input 1";
        process.connect "FORK_1" "output 2" "DLY_1" "input";
        process.connect "FORK_1" "output 3" "Pulse Generator" "modulation";
        process.connect "DLY_1" "output" "LOGIC_1" "input 2";
        process.connect "FORK_1" "output 1" "LGCA_2" "input";
        process.connect "DLY_1" "output" "LGCA_3" "input";
        process.connect "LOGIC_1" "output" "LGCA_4" "input"
      ])
      (process.connect "PRBS" "output" "Pulse Generator" "modulation");
    process.addelement "Optical Oscilloscope";
    process.set "x position" (int 350);
    process.set "y position" (int (-500));
    process.addelement "Optical Oscilloscope";
    process.set "x position" (int 350);
    process.set "y position" (int (-400));
    process.addelement "Optical Oscilloscope";
    process.set "x position" (int 350);
    process.set "y position" (int (-200));
    process.addelement "Optical Oscilloscope";
    process.set "x position" (int 350);
    process.set "y position" (int (-100));
    if_ (eq_str (self_ model) "parallel")
      (block [
        process.addelement "MZI Ideal Cell";
        process.set "x position" (int (-100));
        process.set "y position" (int (-300));
        process.set "Waveguide neff" (flt 2.445);
        process.set "Waveguide ng" (flt 4.19);
        process.set "WvgLoss" (self_ WvgLoss);
        process.addelement "MZI Ideal Cell";
        process.set "x position" (int 200);
        process.set "y position" (int (-400));
        process.set "Waveguide neff" (flt 2.445);
        process.set "Waveguide ng" (flt 4.19);
        process.set "WvgLoss" (self_ WvgLoss);
        process.addelement "MZI Ideal Cell";
        process.set "x position" (int 200);
        process.set "y position" (int (-200));
        process.set "Waveguide neff" (flt 2.445);
        process.set "Waveguide ng" (flt 4.19);
        process.set "WvgLoss" (self_ WvgLoss);
        process.addelement "Termination Mirror";
        process.set "x position" (int (-200));
        process.set "y position" (int (-100));
        process.flipelement "TERM_1";
        process.addelement "Termination Mirror";
        process.set "x position" (int 0);
        process.set "y position" (int (-100));
        process.flipelement "TERM_2";
        process.addelement "Termination Mirror";
        process.set "x position" (int 0);
        process.set "y position" (int (-500));
        process.flipelement "TERM_3";
        process.connect "IDEAL_CELL_1" "port 3" "IDEAL_CELL_2" "port 2";
        process.connect "IDEAL_CELL_1" "port 4" "IDEAL_CELL_3" "port 1";
        process.connect "TERM_1" "port" "IDEAL_CELL_1" "port 2";
        process.connect "TERM_2" "port" "IDEAL_CELL_3" "port 2";
        process.connect "TERM_3" "port" "IDEAL_CELL_2" "port 1";
        process.setnamed "IDEAL_CELL_1" "Theta 1" (flt (np_pi / 2));
        process.setnamed "IDEAL_CELL_2" "Theta 1" (flt (np_pi / 2));
        process.setnamed "IDEAL_CELL_3" "Theta 1" (flt (np_pi / 2));
        process.connect "VOA" "port 2" "IDEAL_CELL_1" "port 1";
        process.addelement "Straight Waveguide";
        process.set "x position" (int 500);
        process.set "y position" (int (-450));
        process.set "length" (self_ DelayUnitLen);
        process.set "effective index 1" (flt 2.445);
        process.set "group index 1" (flt 4.19);
        process.set "name" (str "DelayLine_1");
        process.set "loss 1" (self_ WvgLoss);
        process.addelement "Straight Waveguide";
        process.set "x position" (int 500);
        process.set "y position" (int (-350));
        process.set "length" (mul (add (int 1) (self_ unitsNextTap)) (self_ DelayUnitLen));
        process.set "effective index 1" (flt 2.445);
        process.set "group index 1" (flt 4.19);
        process.set "name" (str "DelayLine_2");
        process.set "loss 1" (self_ WvgLoss);
        process.addelement "Straight Waveguide";
        process.set "x position" (int 500);
        process.set "y position" (int (-250));
        process.set "length" (mul (add (int 1) (mul (int 2) (self_ unitsNextTap))) (self_ DelayUnitLen));
        process.set "effective index 1" (flt 2.445);
        process.set "group index 1" (flt 4.19);
        process.set "name" (str "DelayLine_3");
        process.set "loss 1" (self_ WvgLoss);
        process.addelement "Straight Waveguide";
        process.set "x position" (int 500);
        process.set "y position" (int (-150));
        process.set "length" (mul (add (int 1) (mul (int 3) (self_ unitsNextTap))) (self_ DelayUnitLen));
        process.set "effective index 1" (flt 2.445);
        process.set "group index 1" (flt 4.19);
        process.set "name" (str "DelayLine_4");
        process.set "loss 1" (self_ WvgLoss);
        process.connect "IDEAL_CELL_2" "port 3" "DelayLine_1" "port 1";
        process.connect "IDEAL_CELL_2" "port 4" "DelayLine_2" "port 1";
        process.connect "IDEAL_CELL_3" "port 3" "DelayLine_3" "port 1";
        process.connect "IDEAL_CELL_3" "port 4" "DelayLine_4" "port 1";
        process.addelement "MZI Ideal Cell";
        process.set "x position" (int 675);
        process.set "y position" (int (-600));
        process.set "Waveguide neff" (flt 2.445);
        process.set "Waveguide ng" (flt 4.19);
        process.set "WvgLoss" (self_ WvgLoss);
        process.addelement "MZI Ideal Cell";
        process.set "x position" (int 675);
        process.set "y position" (int (-400));
        process.set "Waveguide neff" (flt 2.445);
        process.set "Waveguide ng" (flt 4.19);
        process.set "WvgLoss" (self_ WvgLoss);
        process.addelement "MZI Ideal Cell";
        process.set "x position" (int 675);
        process.set "y position" (int (-200));
        process.set "Waveguide neff" (flt 2.445);
        process.set "Waveguide ng" (flt 4.19);
        process.set "WvgLoss" (self_ WvgLoss);
        process.addelement "MZI Ideal Cell";
        process.set "x position" (int 675);
        process.set "y position" (int 0);
        process.set "Waveguide neff" (flt 2.445);
        process.set "Waveguide ng" (flt 4.19);
        process.set "WvgLoss" (self_ WvgLoss);
        process.select "OOSC_3";
        process.set "x position" (int 925);
        process.set "y position" (int (-600));
        process.select "OOSC_4";
        process.set "x position" (int 925);
        process.set "y position" (int (-400));
        process.select "OOSC_5";
        process.set "x position" (int 925);
        process.set "y position" (int (-200));
        process.select "OOSC_6";
        process.set "x position" (int 925);
        process.set "y position" (int 0);
        process.connect "DelayLine_1" "port 2" "IDEAL_CELL_4" "port 2";
        process.connect "DelayLine_2" "port 2" "IDEAL_CELL_5" "port 2";
        process.connect "DelayLine_3" "port 2" "IDEAL_CELL_6" "port 2";
        process.connect "DelayLine_4" "port 2" "IDEAL_CELL_7" "port 2";
        process.connect "IDEAL_CELL_4" "port 3" "OOSC_3" "input";
        process.connect "IDEAL_CELL_5" "port 3" "OOSC_4" "input";
        process.connect "IDEAL_CELL_6" "port 3" "OOSC_5" "input";
        process.connect "IDEAL_CELL_7" "port 3" "OOSC_6" "input";
        process.addelement "Termination Mirror";
        process.set "x position" (int 900);
        process.set "y position" (int (-525));
        process.addelement "Termination Mirror";
        process.set "x position" (int 900);
        process.set "y position" (int (-325));
        process.addelement "Termination Mirror";
        process.set "x position" (int 900);
        process.set "y position" (int (-125));
        process.addelement "Termination Mirror";
        process.set "x position" (int 900);
        process.set "y position" (int 75);
        process.connect "IDEAL_CELL_4" "port 4" "TERM_4" "port";
        process.connect "IDEAL_CELL_5" "port 4" "TERM_5" "port";
        process.connect "IDEAL_CELL_6" "port 4" "TERM_6" "port";
        process.connect "IDEAL_CELL_7" "port 4" "TERM_7" "port";
        if_ (eq_str (self_ OutputType) "disconnected")
          (block [
            for_range1 (add (self_ taps) (int 1)) (fun i =>
              (block [
                process.addelement "PIN Photodetector";
                process.set "x position" (int 1000);
                process.set "y position" (int ((-800) + 200 * i));
                process.set "name" (str ("OutPIN_" +:+ py_str i));
                process.set "enable thermal noise" (self_ TogglePDTNoise);
                process.set "enable shot noise" (self_ TogglePDSNoise);
                process.set "responsivity" (self_ PDResponsivity);
                process.set "dark current" (self_ PDDarkCurrent);
                if_ (is_ (self_ TogglePDTNoise) true)
                  (process.set "thermal noise" (pow2 (self_ PDTNoise)))
                  pass
              ]));
            process.connect "IDEAL_CELL_4" "port 3" "OutPIN_1" "input";
            process.connect "IDEAL_CELL_5" "port 3" "OutPIN_2" "input";
            process.connect "IDEAL_CELL_6" "port 3" "OutPIN_3" "input";
            process.connect "IDEAL_CELL_7" "port 3" "OutPIN_4" "input";
            process.addelement "Oscilloscope";
            process.set "x position" (int 1125);
            process.set "y position" (int (-600));
            process.addelement "Oscilloscope";
            process.set "x position" (int 1125);
            process.set "y position" (int (-400));
            process.addelement "Oscilloscope";
            process.set "x position" (int 1125);
            process.set "y position" (int (-200));
            process.addelement "Oscilloscope";
            process.set "x position" (int 1125);
            process.set "y position" (int 0);
            process.connect "OutPIN_1" "output" "OSC_2" "input";
            process.connect "OutPIN_2" "output" "OSC_3" "input";
            process.connect "OutPIN_3" "output" "OSC_4" "input";
            process.connect "OutPIN_4" "output" "OSC_5" "input"
          ])
          (block [
            process.addelement "PIN Photodetector";
            process.set "x position" (int (1250 + spacement_A));
            process.set "y position" (int (-300));
            process.set "name" (str "OutPIN");
            process.set "enable thermal noise" (self_ TogglePDTNoise);
            process.set "enable shot noise" (self_ TogglePDSNoise);
            process.set "responsivity" (self_ PDResponsivity);
            process.set "dark current" (self_ PDDarkCurrent);
            if_ (is_ (self_ TogglePDTNoise) true)
              (process.set "thermal noise" (pow2 (self_ PDTNoise)))
              pass;
            process.addelement "Oscilloscope";
            process.set "x position" (int (1400 + spacement_A));
            process.set "y position" (int (-300));
            process.addelement "Vector Signal Analyzer";
            process.set "x position" (int (1400 + spacement_A));
            process.set "y position" (int 200);
            process.set "name" (str "Output_VSA");
            process.set "icon type" (str "medium");
            process.set "configuration" (str "single input");
            process.set "signal reference input" (boolean true);
            process.set "symbol map" (boolean true);
            process.set "calculate statistics" (boolean true);
            process.set "calculate measurements" (boolean true);
            process.connect "OutPIN" "output" "OSC_2" "input";
            process.connect "OutPIN" "output" "Output_VSA" "input I";
            process.connect "Pulse Generator" "output" "Output_VSA" "reference I";
            process.addelement "Optical Splitter";
            process.set "x position" (int (1100 + spacement_A));
            process.set "y position" (int (-300));
            process.set "configuration" (str "combiner");
            process.set "number of ports" (int 4);
            process.set "split ratio" (str "none");
            process.flipelement "SPLT_1";
            process.connect "IDEAL_CELL_4" "port 3" "SPLT_1" "input 1";
            process.connect "IDEAL_CELL_5" "port 3" "SPLT_1" "input 2";
            process.connect "IDEAL_CELL_6" "port 3" "SPLT_1" "input 3";
            process.connect "IDEAL_CELL_7" "port 3" "SPLT_1" "input 4";
            if_ (is_ (self_ ToggleOptFilter) false)
              (process.connect "SPLT_1" "output" "OutPIN" "input")
              (block [
                process.addelement "Gaussian Optical Filter";
                process.set "x position" (int (1200 + spacement_A));
                process.set "y position" (int (-600));
                process.set "name" (str "Optical Filter");
                process.set "bandwidth" (self_ OptFilterBand);
                process.connect "SPLT_1" "output" "Optical Filter" "input";
                process.connect "Optical Filter" "output" "OutPIN" "input"
              ]);
            if_ (is_ (self_ ToggleAWGN) true)
              (block [
                process.addelement "Noise Source";
                process.set "x position" (int (1100 + spacement_A));
                process.set "y position" (int (-100));
                process.set "name" (str "AWGN_source");
                process.set "power spectral density" (self_ NoisePSD);
                process.addelement "LP Gaussian Filter";
                process.set "x position" (int (1300 + spacement_A));
                process.set "y position" (int (-100));
                process.set "name" (str "AWGN_filter");
                process.addelement "Electrical Adder";
                process.set "x position" (int (1500 + spacement_A));
                process.set "y position" (int (-200));
                process.set "name" (str "Output_sum");
                process.addelement "Oscilloscope";
                process.set "x position" (int (1600 + spacement_A));
                process.set "y position" (int (-250));
                process.addelement "Power Meter";
                process.set "x position" (int (1600 + spacement_A));
                process.set "y position" (int (-350));
                process.set "name" (str "Signal_Power");
                process.addelement "Power Meter";
                process.set "x position" (int (1600 + spacement_A));
                process.set "y position" (int (-100));
                process.set "name" (str "Noise_Power");
                process.connect "AWGN_source" "output" "AWGN_filter" "input";
                process.connect "OutPIN" "output" "Output_sum" "input 1";
                process.connect "OutPIN" "output" "Signal_Power" "input";
                process.connect "AWGN_filter" "output" "Output_sum" "input 2";
                process.connect "AWGN_filter" "output" "Noise_Power" "input";
                process.connect "Output_sum" "output" "OSC_3" "input"
              ])
              pass;
            if_ (eq_str (self_ OutputType) "mixed")
              (block [
                process.disconnect "IDEAL_CELL_4" "port 3" "SPLT_1" "input 1";
                process.disconnect "IDEAL_CELL_5" "port 3" "SPLT_1" "input 2";
                process.disconnect "IDEAL_CELL_6" "port 3" "SPLT_1" "input 3";
                process.disconnect "IDEAL_CELL_7" "port 3" "SPLT_1" "input 4";
                process.addelement "Optical Splitter";
                process.set "x position" (int 1025);
                process.set "y position" (int (-600));
                process.set "configuration" (str "splitter");
                process.set "number of ports" (int 2);
                process.set "split ratio" (str "none");
                process.set "name" (str "arm1_splt");
                process.addelement "Optical Splitter";
                process.set "x position" (int 1025);
                process.set "y position" (int (-400));
                process.set "configuration" (str "splitter");
                process.set "number of ports" (int 2);
                process.set "split ratio" (str "none");
                process.set "name" (str "arm2_splt");
                process.addelement "Optical Splitter";
                process.set "x position" (int 1025);
                process.set "y position" (int (-200));
                process.set "configuration" (str "splitter");
                process.set "number of ports" (int 2);
                process.set "split ratio" (str "none");
                process.set "name" (str "arm3_splt");
                process.addelement "Optical Splitter";
                process.set "x position" (int 1025);
                process.set "y position" (int 0);
                process.set "configuration" (str "splitter");
                process.set "number of ports" (int 2);
                process.set "split ratio" (str "none");
                process.set "name" (str "arm4_splt");
                process.connect "IDEAL_CELL_4" "port 3" "arm1_splt" "input";
                process.connect "IDEAL_CELL_5" "port 3" "arm2_splt" "input";
                process.connect "IDEAL_CELL_6" "port 3" "arm3_splt" "input";
                process.connect "IDEAL_CELL_7" "port 3" "arm4_splt" "input";
                process.connect "arm1_splt" "output 2" "SPLT_1" "input 1";
                process.connect "arm2_splt" "output 2" "SPLT_1" "input 2";
                process.connect "arm3_splt" "output 2" "SPLT_1" "input 3";
                process.connect "arm4_splt" "output 2" "SPLT_1" "input 4";
                process.addelement "PIN Photodetector";
                process.set "x position" (int 1175);
                process.set "y position" (int (-600));
                process.set "enable thermal noise" (int 0);
                process.set "enable shot noise" (int 0);
                process.set "name" (str "arm1_pin");
                process.addelement "PIN Photodetector";
                process.set "x position" (int 1175);
                process.set "y position" (int (-400));
                process.set "enable thermal noise" (int 0);
                process.set "enable shot noise" (int 0);
                process.set "name" (str "arm2_pin");
                process.addelement "PIN Photodetector";
                process.set "x position" (int 1175);
                process.set "y position" (int (-200));
                process.set "enable thermal noise" (int 0);
                process.set "enable shot noise" (int 0);
                process.set "name" (str "arm3_pin");
                process.addelement "PIN Photodetector";
                process.set "x position" (int 1175);
                process.set "y position" (int 0);
                process.set "enable thermal noise" (int 0);
                process.set "enable shot noise" (int 0);
                process.set "name" (str "arm4_pin");
                process.addelement "Oscilloscope";
                process.set "x position" (int 1300);
                process.set "y position" (int (-650));
                process.set "name" (str "arm1_osc");
                process.addelement "Oscilloscope";
                process.set "x position" (int 1300);
                process.set "y position" (int (-450));
                process.set "name" (str "arm2_osc");
                process.addelement "Oscilloscope";
                process.set "x position" (int 1300);
                process.set "y position" (int (-250));
                process.set "name" (str "arm3_osc");
                process.addelement "Oscilloscope";
                process.set "x position" (int 1300);
                process.set "y position" (int (-50));
                process.set "name" (str "arm4_osc");
                process.connect "arm1_splt" "output 1" "arm1_pin" "input";
                process.connect "arm2_splt" "output 1" "arm2_pin" "input";
                process.connect "arm3_splt" "output 1" "arm3_pin" "input";
                process.connect "arm4_splt" "output 1" "arm4_pin" "input";
                process.connect "arm1_pin" "output" "arm1_osc" "input";
                process.connect "arm2_pin" "output" "arm2_osc" "input";
                process.connect "arm3_pin" "output" "arm3_osc" "input";
                process.connect "arm4_pin" "output" "arm4_osc" "input"
              ])
              pass
          ])
      ])
      (if_ (eq_str (self_ model) "series")
          (block [
            process.addelement "Straight Waveguide";
            process.set "x position" (int (-125));
            process.set "y position" (int (-500));
            process.set "length" (self_ DelayUnitLen);
            process.set "effective index 1" (flt 2.445);
            process.set "group index 1" (flt 4.19);
            process.addelement "Straight Waveguide";
            process.set "x position" (int (-50));
            process.set "y position" (int (-300));
            process.set "length" (self_ DelayUnitLen);
            process.set "effective index 1" (flt 2.445);
            process.set "group index 1" (flt 4.19);
            process.addelement "Straight Waveguide";
            process.set "x position" (int 25);
            process.set "y position" (int (-100));
            process.set "length" (mul (int 2) (self_ DelayUnitLen));
            process.set "effective index 1" (flt 2.445);
            process.set "group index 1" (flt 4.19);
            process.addelement "MZI Ideal Cell";
            process.set "x position" (int 175);
            process.set "y position" (int (-600));
            process.set "Waveguide neff" (flt 2.445);
            process.set "Waveguide ng" (flt 4.19);
            process.addelement "MZI Ideal Cell";
            process.set "x position" (int 175);
            process.set "y position" (int (-400));
            process.set "Waveguide neff" (flt 2.445);
            process.set "Waveguide ng" (flt 4.19);
            process.addelement "MZI Ideal Cell";
            process.set "x position" (int 175);
            process.set "y position" (int (-200));
            process.set "Waveguide neff" (flt 2.445);
            process.set "Waveguide ng" (flt 4.19);
            process.addelement "MZI Ideal Cell";
            process.set "x position" (int 175);
            process.set "y position" (int 0);
            process.set "Waveguide neff" (flt 2.445);
            process.set "Waveguide ng" (flt 4.19);
            process.select "OOSC_3";
            process.set "x position" (int 450);
            process.set "y position" (int (-600));
            process.select "OOSC_4";
            process.set "x position" (int 450);
            process.set "y position" (int (-400));
            process.select "OOSC_5";
            process.set "x position" (int 450);
            process.set "y position" (int (-200));
            process.select "OOSC_6";
            process.set "x position" (int 450);
            process.set "y position" (int 0);
            process.connect "IDEAL_CELL_1" "port 3" "OOSC_3" "input";
            process.connect "IDEAL_CELL_2" "port 3" "OOSC_4" "input";
            process.connect "IDEAL_CELL_3" "port 3" "OOSC_5" "input";
            process.connect "IDEAL_CELL_4" "port 3" "OOSC_6" "input";
            process.addelement "MZI Ideal Cell";
            process.set "x position" (int (-375));
            process.set "y position" (int (-600));
            process.set "Waveguide neff" (flt 2.445);
            process.set "Waveguide ng" (flt 4.19);
            process.addelement "MZI Ideal Cell";
            process.set "x position" (int (-300));
            process.set "y position" (int (-400));
            process.set "Waveguide neff" (flt 2.445);
            process.set "Waveguide ng" (flt 4.19);
            process.addelement "MZI Ideal Cell";
            process.set "x position" (int (-225));
            process.set "y position" (int (-200));
            process.set "Waveguide neff" (flt 2.445);
            process.set "Waveguide ng" (flt 4.19);
            process.setnamed "IDEAL_CELL_5" "Theta 1" (flt (1.335 * np_pi / 4));
            process.setnamed "IDEAL_CELL_6" "Theta 1" (flt (1.57 * np_pi / 4));
            process.setnamed "IDEAL_CELL_7" "Theta 1" (flt (np_pi / 2));
            process.connect "VOA" "port 2" "IDEAL_CELL_5" "port 1";
            process.connect "IDEAL_CELL_5" "port 4" "WGD_1" "port 1";
            process.connect "IDEAL_CELL_6" "port 4" "WGD_2" "port 1";
            process.connect "IDEAL_CELL_7" "port 4" "WGD_3" "port 1";
            process.connect "IDEAL_CELL_5" "port 3" "IDEAL_CELL_1" "port 2";
            process.connect "IDEAL_CELL_6" "port 3" "IDEAL_CELL_2" "port 2";
            process.connect "IDEAL_CELL_7" "port 3" "IDEAL_CELL_3" "port 2";
            process.connect "WGD_1" "port 2" "IDEAL_CELL_6" "port 1";
            process.connect "WGD_2" "port 2" "IDEAL_CELL_7" "port 1";
            process.connect "WGD_3" "port 2" "IDEAL_CELL_4" "port 2";
            process.addelement "PIN Photodetector";
            process.set "x position" (int 600);
            process.set "y position" (int (-600));
            process.set "enable thermal noise" (int 0);
            process.set "enable shot noise" (int 0);
            process.addelement "PIN Photodetector";
            process.set "x position" (int 600);
            process.set "y position" (int (-400));
            process.set "enable thermal noise" (int 0);
            process.set "enable shot noise" (int 0);
            process.addelement "PIN Photodetector";
            process.set "x position" (int 600);
            process.set "y position" (int (-200));
            process.set "enable thermal noise" (int 0);
            process.set "enable shot noise" (int 0);
            process.addelement "PIN Photodetector";
            process.set "x position" (int 600);
            process.set "y position" (int 0);
            process.set "enable thermal noise" (int 0);
            process.set "enable shot noise" (int 0);
            process.connect "IDEAL_CELL_1" "port 3" "PIN_1" "input";
            process.connect "IDEAL_CELL_2" "port 3" "PIN_2" "input";
            process.connect "IDEAL_CELL_3" "port 3" "PIN_3" "input";
            process.connect "IDEAL_CELL_4" "port 3" "PIN_4" "input";
            process.addelement "Oscilloscope";
            process.set "x position" (int 725);
            process.set "y position" (int (-600));
            process.addelement "Oscilloscope";
            process.set "x position" (int 725);
            process.set "y position" (int (-400));
            process.addelement "Oscilloscope";
            process.set "x position" (int 725);
            process.set "y position" (int (-200));
            process.addelement "Oscilloscope";
            process.set "x position" (int 725);
            process.set "y position" (int 0);
            process.connect "PIN_1" "output" "OSC_2" "input";
            process.connect "PIN_2" "output" "OSC_3" "input";
            process.connect "PIN_3" "output" "OSC_4" "input";
            process.connect "PIN_4" "output" "OSC_5" "input"
          ])
          pass)
  ].

(** ** Observing a run *)

(** A method run on an instance against a fresh session. *)
Definition run {A : Type} (m : M A) (o : PNN) : result A * world :=
  m (World o []).

Definition completes (m : M unit) (o : PNN) : Prop :=
  (run m o).1 = inr tt.

Definition calls (m : M unit) (o : PNN) : list call :=
  trace (run m o).2.

(** The calls a run adds to a session that has a history. *)
Definition issued {A : Type} (m : M A) (w : world) : list call :=
  let after := log (m w).2 in
  rev (take (length after - length (log w)) after).

(** An element of the schematic as the script makes it: [addelement], then
    the properties [set] on it while it is the selected element. *)
Record element : Type := Element {
  el_type : string;
  el_sets : list (string * value)
}.

Fixpoint leading_sets (tr : list call) : list (string * value) :=
  match tr with
  | c_set p v :: tr' => (p, v) :: leading_sets tr'
  | _ => []
  end.

Fixpoint elements_of (tr : list call) : list element :=
  match tr with
  | [] => []
  | c_addelement ty :: tr' => Element ty (leading_sets tr') :: elements_of tr'
  | _ :: tr' => elements_of tr'
  end.

(** The value a property ends up with: the last one set. *)
Definition el_prop (p : string) (e : element) : option value :=
  last (omap (fun '(q, v) => if String.eqb q p then Some v else None)
             (el_sets e)).

Definition el_name (e : element) : option value := el_prop "name" e.

Definition named (n : string) (e : element) : bool :=
  match el_name e with
  | Some v => py_eq_str v n
  | None => false
  end.

(** The elements a trace creates under the name [n]. *)
Definition created (n : string) (tr : list call) : list element :=
  List.filter (named n) (elements_of tr).

(** The names given to the elements of one type, in order of creation. *)
Definition names_of_type (ty : string) (tr : list call) : list (option value) :=
  map el_name (List.filter (fun e => String.eqb (el_type e) ty) (elements_of tr)).

(** The targets of [setnamed] in a trace. *)
Definition setnamed_targets (tr : list call) : list (string * string * value) :=
  omap (fun c => match c with
                 | c_setnamed n p v => Some (n, p, v)
                 | _ => None
                 end) tr.

(** Whether a trace creates an element under the name [n], and what it
    gives the property [p] of the elements of that name. *)
Definition creates (n : string) (tr : list call) : bool :=
  existsb (named n) (elements_of tr).

Definition property_of (n p : string) (tr : list call) : list (option value) :=
  map (el_prop p) (created n tr).

(** The values [setnamed] gives the property [p] of the element [n], and
    whether any [setnamed] addresses a delay line. *)
Definition setnamed_values (n p : string) (tr : list call) : list value :=
  omap (fun c => match c with
                 | c_setnamed n' p' v =>
                     if String.eqb n' n && String.eqb p' p then Some v else None
                 | _ => None
                 end) tr.

Definition addresses_delay_line (tr : list call) : bool :=
  existsb (fun c => match c with
                    | c_setnamed n _ _ => String.prefix "DelayLine" n
                    | _ => false
                    end) tr.

(** The values given to ['thermal noise'] on photodetectors. *)
Definition thermal_noise_set (tr : list call) : list value :=
  omap (el_prop "thermal noise")
       (List.filter (fun e => String.eqb (el_type e) "PIN Photodetector")
                    (elements_of tr)).

(** Whether a trace opens with a [set], which would still belong to the
    element before it, or with some other call. *)
Definition starts_with_set (tr : list call) : bool :=
  match tr with
  | c_set _ _ :: _ => true
  | _ => false
  end.

Definition starts_with_other (tr : list call) : bool :=
  match tr with
  | [] => false
  | c_set _ _ :: _ => false
  | _ :: _ => true
  end.

(** A list in three parts: before a loop, from the loop, after it. *)
Definition cat3 {A : Type} (before during after : list A) : list A :=
  before ++ during ++ after.

(** ** The delay-line lengths of the spec

    Tap [i] is (1 + (i-1) * unitsNextTap) * DelayUnitLen, evaluated as
    Python evaluates it, with a coefficient of one left out as the source
    leaves it out: the first tap is the unit length itself, the second has
    factor 1 + unitsNextTap. *)
Definition tap_factor (i : Z) (c : config) : result value :=
  if (i =? 2)%Z then py_add (VInt 1) (unitsNextTap c)
  else
    match py_mul (VInt (i - 1)) (unitsNextTap c) with
    | inl e => inl e
    | inr k => py_add (VInt 1) k
    end.

Definition tap_length (i : Z) (c : config) : result value :=
  if (i =? 1)%Z then inr (DelayUnitLen c)
  else
    match tap_factor i c with
    | inl e => inl e
    | inr f => py_mul f (DelayUnitLen c)
    end.

(** The trace makes exactly one element named [DelayLine_i], and the length
    it sets on it is the length of tap [i]. *)
Definition delay_line_set (tr : list call) (c : config) (i : Z) : Prop :=
  exists v,
    property_of ("DelayLine_" +:+ py_str i) "length" tr = [Some v] /\
    tap_length i c = inr v.

(** The trace gives [DelayLine_i] one length by [setnamed], the length of
    tap [i]. *)
Definition delay_line_updated (tr : list call) (c : config) (i : Z) : Prop :=
  exists v,
    setnamed_values ("DelayLine_" +:+ py_str i) "length" tr = [v] /\
    tap_length i c = inr v.

(** ** The enumerated values *)

Definition model_variant (v : value) : Prop :=
  v = VStr "parallel" \/ v = VStr "series".

Definition OutputType_variant (v : value) : Prop :=
  v = VStr "connected" \/ v = VStr "disconnected" \/ v = VStr "mixed".

(** [PNN()] *)
Definition PNN_default : PNN :=
  initialised (VStr "parallel") (VInt 4) (VFloat 100e-6) (VInt 1) (VInt 0).


(** ** Methods that only read the instance

    [reader m]: a run of [m] leaves the instance as it is, adds its calls in
    front of the log, and neither its outcome nor the calls it adds depend on
    the log it started from. *)
Definition reader {A : Type} (m : M A) : Prop :=
  forall w,
    m w = ((m (World (self w) [])).1,
           World (self w) (log (m (World (self w) [])).2 ++ log w)).

(** ** Instances the properties are read on *)

(** [PNN(model='series')] *)
Definition series_instance : PNN :=
  initialised (VStr "series") (VInt 4) (VFloat 100e-6) (VInt 1) (VInt 0).

(** [PNN()] after [output(OutputType='disconnected', ToggleAWGN=True)] *)
Definition disconnected_awgn_instance : PNN :=
  self (run (output (VStr "disconnected") (VBool true) VNone VNone VNone)
            PNN_default).2.

(** [PNN(taps=2)] after [output(OutputType='disconnected')] *)
Definition two_tap_instance : PNN :=
  self (run (output (VStr "disconnected") VNone VNone VNone VNone)
            (initialised (VStr "parallel") (VInt 2) (VFloat 100e-6) (VInt 1)
                         (VInt 0))).2.

(** [PNN()] after [output(ToggleAWGN=True, ToggleOptFilter=True)] and
    [photoreceptor(TogglePDTNoise=True)] *)
Definition noisy_instance : PNN :=
  self (run (block [output VNone (VBool true) VNone (VBool true) VNone;
                    photoreceptor VNone VNone VNone (VBool true) VNone])
            PNN_default).2.



(** ** Calls to the setter-style methods

    One call of a setter-style method, with its arguments in the order of
    the signature, and a client that makes such calls one after another and
    goes on when one of them raises. *)
Inductive setter_call : Type :=
| call_general (model taps DelayUnitLen unitsNextTap WvgLoss : value)
| call_transmission
    (FiberLen PRBSType PulseAmp RiseTime FallTime MZMILoss ToggleBitOp : value)
| call_simulation (bitrate numofSamples timeWindow : value)
| call_output
    (OutputType ToggleAWGN NoisePSD ToggleOptFilter OptFilterBand : value)
| call_photoreceptor
    (PDResponsivity PDDarkCurrent PDTNoise TogglePDTNoise TogglePDSNoise : value).

Definition invoke (c : setter_call) : M unit :=
  match c with
  | call_general a b c d e => general a b c d e
  | call_transmission a b c d e f g => transmission a b c d e f g
  | call_simulation a b c => simulation a b c
  | call_output a b c d e => output a b c d e
  | call_photoreceptor a b c d e => photoreceptor a b c d e
  end.

(** The attribute each argument of a call is for. *)
Definition arguments (c : setter_call) : list (F.field * value) :=
  match c with
  | call_general a b c d e =>
      [(F.model, a); (F.taps, b); (F.DelayUnitLen, c); (F.unitsNextTap, d);
       (F.WvgLoss, e)]
  | call_transmission a b c d e f g =>
      [(F.FiberLen, a); (F.PRBSType, b); (F.PulseAmp, c); (F.RiseTime, d);
       (F.FallTime, e); (F.MZMILoss, f); (F.ToggleBitOp, g)]
  | call_simulation a b c =>
      [(F.bitrate, a); (F.numofSamples, b); (F.timeWindow, c)]
  | call_output a b c d e =>
      [(F.OutputType, a); (F.ToggleAWGN, b); (F.NoisePSD, c);
       (F.ToggleOptFilter, d); (F.OptFilterBand, e)]
  | call_photoreceptor a b c d e =>
      [(F.PDResponsivity, a); (F.PDDarkCurrent, b); (F.PDTNoise, c);
       (F.TogglePDTNoise, d); (F.TogglePDSNoise, e)]
  end.

(** The calls whose first argument is checked and found to be neither [None]
    nor one of the variants. *)
Definition rejected (c : setter_call) : bool :=
  match c with
  | call_general a _ _ _ _ => negb (in_None_or a ["parallel"; "series"])
  | call_output a _ _ _ _ =>
      negb (in_None_or a ["connected"; "disconnected"; "mixed"])
  | _ => false
  end.

Fixpoint session (cs : list setter_call) (w : world) : world :=
  match cs with
  | [] => w
  | c :: cs' => session cs' (invoke c w).2
  end.

(** What a run of [if x is not None: self.f = x] statements leaves. *)
Fixpoint store_given (args : list (F.field * value)) (c : config) : config :=
  match args with
  | [] => c
  | (f, x) :: args' =>
      store_given args' (if is_None x then c else set_field f x c)
  end.

(** The attributes a call gives a value: those whose argument is not
    [None]. *)
Definition given (c : setter_call) : list F.field :=
  (List.filter (fun a => negb (is_None a.2)) (arguments c)).*1.

(** ** What a script sends to the session

    [emits P m]: whatever the instance and the session's history, every call
    a run of [m] issues satisfies [P], whether the run returns or raises. *)
Definition emits {A : Type} (P : call -> Prop) (m : M A) : Prop :=
  forall w, exists l, log (m w).2 = l ++ log w /\ Forall P l.

(** The calls that set a property of an element that exists. *)
Definition is_setnamed (c : call) : Prop :=
  match c with
  | c_setnamed _ _ _ => True
  | _ => False
  end.

(** The calls other than those that open the layout and clear it. *)
Definition keeps_schematic (c : call) : Prop :=
  match c with
  | c_switchtolayout | c_deleteall => False
  | _ => True
  end.

(** ** Runs on two instances

    [agree o1 o2 m1 m2]: started on the same session, [m1] on the instance
    [o1] and [m2] on the instance [o2] end the same way, having issued the
    same calls and left their instances as they were. *)
Definition agree {A : Type} (o1 o2 : PNN) (m1 m2 : M A) : Prop :=
  forall l, exists r l',
    m1 (World o1 l) = (r, World o1 l') /\ m2 (World o2 l) = (r, World o2 l').

(** Two runs of one method that cannot be told apart from the session. *)
Definition same_run (m : M unit) (o1 o2 : PNN) : Prop :=
  calls m o1 = calls m o2 /\ (run m o1).1 = (run m o2).1.

(** ** When a script runs to its end *)

Definition returns {A : Type} (r : result A) : Prop := exists a, r = inr a.

(** [requires m o C]: [m] only reads the instance, and on the instance [o]
    it runs to its end exactly when [C] holds. *)
Definition requires (m : M unit) (o : PNN) (C : Prop) : Prop :=
  reader m /\ (completes m o <-> C).

(** The values on which the arithmetic and the tests of the two procedures
    are those of the embedding: the attributes they compute with or compare
    hold [None], a Boolean, an integer, a float or a string, and the
    delay-unit length, which is multiplied by an integer, is no string. *)
Definition is_str (v : value) : bool :=
  match v with VStr _ => true | _ => false end.

Definition opaque (v : value) : bool :=
  match v with VOpaque _ => true | _ => false end.

Definition plain_arithmetic (c : config) : Prop :=
  Forall (fun v => opaque v = false)
         [model c; OutputType c; taps c; DelayUnitLen c; unitsNextTap c;
          FiberLen c; PDTNoise c] /\
  is_str (DelayUnitLen c) = false.

(** The arithmetic of the two procedures, each with what it needs to return
    a value: the gain of the fiber amplifier, [FiberLen * 0.17e-3]; the
    thermal noise [PDTNoise ** 2], computed when [TogglePDTNoise] is [True];
    the photodetector settings, one set for each of [range(1, taps + 1)] when
    the output type is ['disconnected'] and one set otherwise; the lengths
    of the second, third and fourth delay line. *)
Definition fiber_gain_ok (c : config) : Prop :=
  returns (py_mul (FiberLen c) (VFloat 0.17e-3)).

Definition thermal_noise_ok (c : config) : Prop :=
  TogglePDTNoise c = VBool true -> returns (py_pow2 (PDTNoise c)).

Definition photodetectors_ok (c : config) : Prop :=
  (OutputType c = VStr "disconnected" ->
   exists n, as_int (taps c) = Some n /\ (1 <= n -> thermal_noise_ok c)) /\
  (OutputType c <> VStr "disconnected" -> thermal_noise_ok c).

Definition delay_lines_ok (c : config) : Prop :=
  returns (tap_length 2 c) /\ returns (tap_length 3 c) /\
  returns (tap_length 4 c).

(** ** The report of [showParameters]

    [showParameters] prints twelve lines, each an f-string.  Printing is
    modelled by the list of the lines printed, in order, next to the outcome:
    a line whose f-string raises is not printed, and neither are the lines
    after it.  The text Python gives a float, the float that [numpy.round]
    returns, and an object of another type is a parameter; the text of
    [None], of a Boolean, of an integer and of a string is fixed.  The Greek
    letter of the first line stands as its UTF-8 encoding. *)

(** The values whose text the report can give: [None], a Boolean, a float, a
    string, and an integer of at most 4300 digits, beyond which the
    interpreter refuses the conversion ([ValueError]). *)
Definition printable (v : value) : Prop :=
  match v with
  | VInt z => Z.abs z < 10 ^ 4300
  | VOpaque _ => False
  | _ => True
  end.

(** [x == True]: [True] itself, and the numbers equal to one.  No string is,
    nor [None], nor an object of another type such as a bound method. *)
Definition py_eq_True (v : value) : bool :=
  match v with
  | VBool b => b
  | VInt z => (z =? 1)%Z
  | VFloat f => PrimFloat.eqb f 1%float
  | _ => false
  end.

(** The parts of an f-string: text, a replacement field, and a replacement
    field passed through [np.round(_, 2)]. *)
Inductive part : Type :=
| Lit (s : string)
| Field (e : config -> result value)
| Rounded (e : config -> result value).

Section Report.

Variables (str_float str_round : float -> string)
          (str_opaque : string -> string).

(** [format(v, '')], which is [str(v)] for the values at hand; the text of
    an integer is given whatever its size. *)
Definition py_format (v : value) : string :=
  match v with
  | VNone => "None"
  | VBool true => "True"
  | VBool false => "False"
  | VInt z => py_str z
  | VFloat f => str_float f
  | VStr s => s
  | VOpaque tag => str_opaque tag
  end.

Definition piece (p : part) (c : config) : result string :=
  match p with
  | Lit s => inr s
  | Field e =>
      match e c with
      | inl x => inl x
      | inr v => inr (py_format v)
      end
  | Rounded e =>
      match e c with
      | inl x => inl x
      | inr (VFloat f) => inr (str_round f)
      | inr v => inr (py_format v)
      end
  end.

(** The fields of an f-string are evaluated from left to right. *)
Fixpoint fstring (parts : list part) (c : config) : result string :=
  match parts with
  | [] => inr EmptyString
  | p :: parts' =>
      match piece p c with
      | inl x => inl x
      | inr s =>
          match fstring parts' c with
          | inl x => inl x
          | inr t => inr (s +:+ t)
          end
      end
  end.

(** [print] after [print]. *)
Fixpoint print_all (lines : list (list part)) (c : config)
    : list string * result unit :=
  match lines with
  | [] => ([], inr tt)
  | l :: lines' =>
      match fstring l c with
      | inl x => ([], inl x)
      | inr s =>
          let (out, r) := print_all lines' c in (s :: out, r)
      end
  end.

(** [self.f] in a replacement field. *)
Definition attr (f : config -> value) : part := Field (fun c => inr (f c)).

(** ["enabled" if self.f == True else "disabled"] *)
Definition enabled (f : config -> value) : part :=
  Field (fun c => inr (VStr (if py_eq_True (f c) then "enabled" else "disabled"))).

Definition report : list (list part) :=
  [ [Lit "general :: Model: "; attr model; Lit " | Taps: "; attr taps;
     Lit " | Delay Unit Length: ";
     Field (fun c => py_mul (DelayUnitLen c) (VFloat 1e-6));
     Lit " μm | Units for next tap: "; attr unitsNextTap;
     Lit " | Wvg Loss: "; attr WvgLoss; Lit " dB/m"];
    [Lit "transmission :: Fiber length: ";
     Field (fun c => py_mul (FiberLen c) (VFloat 1e-3));
     Lit " km | PRBS Type: "; attr PRBSType;
     Lit " | Pulse Amplitude: "; attr PulseAmp;
     Lit " | Rise/Fall Period: "; attr RiseTime; Lit "/"; attr FallTime;
     Lit " | MZM Insetion Loss: "; attr MZMILoss; Lit " dB"];
    [Lit "simulation :: Bit Rate: ";
     Rounded (fun c => py_mul (VFloat 1e-9) (bitrate c));
     Lit " Gbits/s | Number of Samples: "; attr numofSamples;
     Lit " | Time Window: "; attr timeWindow; Lit " s"];
    [Lit "photoreceptor :: PD Responsivity: "; attr PDResponsivity;
     Lit " A/W | PD Dark Current: "; attr PDDarkCurrent;
     Lit " A | PD Thermal Noise: "; attr PDTNoise; Lit " A/Hz^.5"];
    [Lit "output :: AWGN PSD: "; attr NoisePSD;
     Lit " W/Hz | Optical Filter bandwidth: ";
     Field (fun c => py_mul (OptFilterBand c) (VFloat 1e-9)); Lit " GHz"];
    [Lit "-----------------------------------------------------------------------------------"];
    [Lit "XOR Operator: "; enabled ToggleBitOp];
    [Lit "PD Thermal Noise: "; enabled TogglePDTNoise];
    [Lit "PD Shot Noise: "; enabled TogglePDSNoise];
    [Lit "AWGN post PD: "; enabled ToggleAWGN];
    [Lit "Optical Filter: "; enabled ToggleOptFilter];
    [Lit "Output Type: "; attr OutputType] ].

(** [PNN.showParameters], lines 251-266. *)
Definition showParameters (o : PNN) : list string * result unit :=
  print_all report o.

End Report.

(** ** The methods of an instance

    One call of a method on a constructed instance, and the state it leaves,
    whether it returns or raises.  [showParameters] computes the lines it
    prints from the instance and has no assignment. *)
Inductive method_call : Type :=
| call_setter (c : setter_call)
| call_setAttributes (kwargs : list (string * value))
| call_getAttributes (kwargs : list value)
| call_showParameters
| call_update
| call_mount.

Definition after_call (inherited : string -> option value) (c : method_call)
    (w : world) : world :=
  match c with
  | call_setter c => (invoke c w).2
  | call_setAttributes kwargs => (setAttributes kwargs w).2
  | call_getAttributes kwargs => (getAttributes inherited kwargs w).2
  | call_showParameters => w
  | call_update => (update w).2
  | call_mount => (mount w).2
  end.

Definition setter_style (c : method_call) : Prop :=
  match c with
  | call_setter _ | call_setAttributes _ => True
  | _ => False
  end.

(** [PNN()] after [output(ToggleAWGN=1, ToggleOptFilter=0)] *)
Definition numeric_toggles_instance : PNN :=
  self (run (output VNone (VInt 1) VNone (VInt 0) VNone) PNN_default).2.

(** * Properties *)

(** ** The reader discipline *)

Lemma reader_ret {A : Type} (a : A) : reader (mret a : M A).
Proof. intros [o l]. reflexivity. Qed.

Lemma reader_raise {A : Type} (e : exn) : reader (raise e : M A).
Proof. intros [o l]. reflexivity. Qed.

Lemma reader_lift {A : Type} (r : result A) : reader (lift r).
Proof. intros [o l]. reflexivity. Qed.

Lemma reader_self_ (f : config -> value) : reader (self_ f).
Proof. intros [o l]. reflexivity. Qed.

Lemma reader_emit (c : call) : reader (emit c).
Proof. intros [o l]. reflexivity. Qed.

Lemma reader_bind {A B : Type} (m : M A) (k : A -> M B) :
  reader m -> (forall a, reader (k a)) -> reader (m ≫= k).
Proof.
  intros Hm Hk [o l]. unfold mbind, M_bind. simpl.
  rewrite (Hm (World o l)). simpl.
  pose proof (Hm (World o [])) as H0. simpl in H0.
  destruct (m (World o [])) as [[e | a] [o1 l1]]; simpl in *.
  - reflexivity.
  - injection H0 as -> _.
    rewrite (Hk a (World o (l1 ++ l))), (Hk a (World o l1)). simpl.
    rewrite app_assoc. reflexivity.
Qed.

Lemma reader_if {A : Type} (b : bool) (t e : M A) :
  reader t -> reader e -> reader (if b then t else e).
Proof. destruct b; auto. Qed.

Lemma reader_block (l : list (M unit)) : Forall reader l -> reader (block l).
Proof.
  induction 1 as [| s l Hs _ IH]; simpl.
  - apply reader_ret.
  - apply reader_bind; auto.
Qed.

Lemma reader_for_ {A : Type} (l : list A) (body : A -> M unit) :
  (forall i, reader (body i)) -> reader (for_ l body).
Proof.
  intros H. apply reader_block. apply Forall_map, Forall_forall. auto.
Qed.

Lemma reader_binop (op : value -> value -> result value) (e1 e2 : M value) :
  reader e1 -> reader e2 -> reader (binop op e1 e2).
Proof.
  intros H1 H2. unfold binop.
  apply reader_bind; [exact H1 | intros a].
  apply reader_bind; [exact H2 | intros b]. apply reader_lift.
Qed.

Lemma reader_pow2 (e : M value) : reader e -> reader (pow2 e).
Proof.
  intros H. unfold pow2. apply reader_bind; [exact H | intros a].
  apply reader_lift.
Qed.

Lemma reader_eq_str (e : M value) (s : string) : reader e -> reader (eq_str e s).
Proof.
  intros H. unfold eq_str. apply reader_bind; [exact H | intros a].
  apply reader_ret.
Qed.

Lemma reader_is_ (e : M value) (b : bool) : reader e -> reader (is_ e b).
Proof.
  intros H. unfold is_. apply reader_bind; [exact H | intros a].
  apply reader_ret.
Qed.

Lemma reader_if_ (c : M bool) (t e : M unit) :
  reader c -> reader t -> reader e -> reader (if_ c t e).
Proof.
  intros Hc Ht He. unfold if_. apply reader_bind; [exact Hc | intros b].
  apply reader_if; assumption.
Qed.

Lemma reader_for_range1 (stop : M value) (body : Z -> M unit) :
  reader stop -> (forall i, reader (body i)) -> reader (for_range1 stop body).
Proof.
  intros Hs Hb. unfold for_range1. apply reader_bind; [exact Hs | intros n].
  apply reader_bind; [apply reader_lift | intros l].
  apply reader_for_; exact Hb.
Qed.

Lemma reader_set (p : string) (e : M value) : reader e -> reader (process.set p e).
Proof.
  intros H. unfold process.set. apply reader_bind; [exact H | intros v].
  apply reader_emit.
Qed.

Lemma reader_setnamed (n p : string) (e : M value) :
  reader e -> reader (process.setnamed n p e).
Proof.
  intros H. unfold process.setnamed. apply reader_bind; [exact H | intros v].
  apply reader_emit.
Qed.

(** One step of the syntax-directed proof that a script is a reader. *)
Ltac reader_step :=
  lazymatch goal with
  | |- Forall _ [] => constructor
  | |- Forall _ (_ :: _) => constructor
  | |- forall _, _ => intro
  | |- reader (block _) => apply reader_block
  | |- reader (process.set _ _) => apply reader_set
  | |- reader (process.setnamed _ _ _) => apply reader_setnamed
  | |- reader process.switchtolayout => apply reader_emit
  | |- reader process.deleteall => apply reader_emit
  | |- reader (process.addelement _) => apply reader_emit
  | |- reader (process.connect _ _ _ _) => apply reader_emit
  | |- reader (process.disconnect _ _ _ _) => apply reader_emit
  | |- reader (process.flipelement _) => apply reader_emit
  | |- reader (process.select _) => apply reader_emit
  | |- reader (if_ _ _ _) => apply reader_if_
  | |- reader (for_range1 _ _) => apply reader_for_range1
  | |- reader (eq_str _ _) => apply reader_eq_str
  | |- reader (is_ _ _) => apply reader_is_
  | |- reader (add _ _) => apply reader_binop
  | |- reader (mul _ _) => apply reader_binop
  | |- reader (pow2 _) => apply reader_pow2
  | |- reader (self_ _) => apply reader_self_
  | |- reader (int _) => apply reader_ret
  | |- reader (flt _) => apply reader_ret
  | |- reader (str _) => apply reader_ret
  | |- reader (boolean _) => apply reader_ret
  | |- reader pass => apply reader_ret
  | |- reader (mret _) => apply reader_ret
  | |- reader (if _ then _ else _) => apply reader_if
  | |- reader (_ ≫= _) => apply reader_bind
  end.

Ltac solve_reader := repeat reader_step.

Lemma reader_update : reader update.
Proof. unfold update. solve_reader. Qed.

Lemma reader_mount : reader mount.
Proof. unfold mount. solve_reader. Qed.

(** ** Loops and traces *)

(** What a loop over reader bodies that ran to its end did: every iteration
    returned normally, and the log grew by the iterations' calls. *)
Lemma for_completes {A : Type} (l : list A) (body : A -> M unit) (w w' : world) :
  (forall i, reader (body i)) ->
  for_ l body w = (inr tt, w') ->
  Forall (fun i => (body i (World (self w) [])).1 = inr tt) l /\
  w' = World (self w)
         (concat (map (fun i => log (body i (World (self w) [])).2) (rev l))
          ++ log w).
Proof.
  intros Hb. revert w. unfold for_.
  induction l as [| i l IH]; intros [o lg] E; simpl in *.
  - injection E as <-. split; [constructor | reflexivity].
  - unfold mbind, M_bind in E. rewrite (Hb i (World o lg)) in E. simpl in E.
    destruct (body i (World o [])) as [[e | []] [o1 l1]] eqn:Ei; simpl in E;
      [discriminate |].
    apply IH in E as [Hall ->]. simpl. split.
    + constructor; [rewrite Ei; reflexivity | exact Hall].
    + rewrite map_app, concat_app. simpl. rewrite Ei. simpl.
      rewrite app_nil_r, app_assoc. reflexivity.
Qed.

(** A loop whose first iteration raises. *)
Lemma for_raises {A : Type} (i : A) (l : list A) (body : A -> M unit)
    (w : world) (e : exn) :
  (body i w).1 = inl e -> (for_ (i :: l) body w).1 = inl e.
Proof.
  intros H. unfold for_. simpl. unfold mbind, M_bind.
  destruct (body i w) as [[e' | []] w1]; simpl in *; congruence.
Qed.

Lemma leading_sets_app (a b : list call) :
  starts_with_set b = false -> a <> [] ->
  leading_sets (a ++ b) = leading_sets a.
Proof.
  intros Hb. induction a as [| c a IH]; intros Hne; [congruence |].
  destruct c; simpl; try reflexivity.
  destruct a as [| c' a'].
  - simpl. destruct b as [| [] b']; simpl in *; congruence.
  - f_equal. apply IH. discriminate.
Qed.

Lemma elements_of_app (a b : list call) :
  starts_with_set b = false ->
  elements_of (a ++ b) = elements_of a ++ elements_of b.
Proof.
  intros Hb. induction a as [| c a IH]; [reflexivity |].
  destruct c; simpl; try exact IH.
  rewrite IH. f_equal. f_equal.
  destruct a as [| c' a'].
  - simpl. destruct b as [| [] b']; simpl in *; congruence.
  - apply leading_sets_app; [exact Hb | discriminate].
Qed.

Lemma starts_with_other_app (a b : list call) :
  starts_with_other a = true -> starts_with_set (a ++ b) = false.
Proof. destruct a as [| [] a']; simpl; congruence. Qed.

Lemma elements_of_flat_map {A : Type} (h : A -> list call) (l : list A) :
  (forall i, starts_with_other (h i) = true) ->
  elements_of (flat_map h l) = flat_map (fun i => elements_of (h i)) l.
Proof.
  intros Hh. induction l as [| i l IH]; [reflexivity |]. simpl.
  rewrite elements_of_app, IH; [reflexivity |].
  destruct l as [| j l']; [reflexivity |]. simpl.
  apply starts_with_other_app, Hh.
Qed.

(** The trace of a log that a loop grew in the middle. *)
Lemma rev_log_loop {A : Type} (g : A -> list call) (l : list A)
    (s p : list call) :
  rev (s ++ concat (map g (rev l)) ++ p)
  = rev p ++ flat_map (fun i => rev (g i)) l ++ rev s.
Proof.
  rewrite !rev_app_distr, <- app_assoc. f_equal. f_equal.
  induction l as [| i l IH]; [reflexivity |]. simpl.
  rewrite map_app, concat_app, rev_app_distr. simpl.
  rewrite app_nil_r, IH. reflexivity.
Qed.

(** ** Lists made by a loop *)

Lemma flat_map_singleton {A B : Type} (f : A -> B) (l : list A) :
  flat_map (fun i => [f i]) l = map f l.
Proof. induction l as [| i l IH]; simpl; congruence. Qed.

Lemma existsb_map_false {A B : Type} (p : B -> bool) (f : A -> B) (l : list A) :
  (forall i, p (f i) = false) -> existsb p (map f l) = false.
Proof. intros H. induction l as [| i l IH]; simpl; [| rewrite H, IH]; reflexivity. Qed.

Lemma filter_map_false {A B : Type} (p : B -> bool) (f : A -> B) (l : list A) :
  (forall i, p (f i) = false) -> List.filter p (map f l) = [].
Proof. intros H. induction l as [| i l IH]; simpl; [| rewrite H, IH]; reflexivity. Qed.

Lemma filter_map_true {A B : Type} (p : B -> bool) (f : A -> B) (l : list A) :
  (forall i, p (f i) = true) -> List.filter p (map f l) = map f l.
Proof. intros H. induction l as [| i l IH]; simpl; [| rewrite H, IH]; reflexivity. Qed.

Lemma omap_map_Some {A B C : Type} (g : B -> option C) (f : A -> B)
    (k : A -> C) (l : list A) :
  (forall i, g (f i) = Some (k i)) -> omap g (map f l) = map k l.
Proof.
  intros H. induction l as [| i l IH]; [reflexivity |].
  cbn. rewrite H. cbn. f_equal. exact IH.
Qed.

Lemma omap_map_None {A B C : Type} (g : B -> option C) (f : A -> B) (l : list A) :
  (forall i, g (f i) = None) -> omap g (map f l) = [].
Proof.
  intros H. induction l as [| i l IH]; [reflexivity |].
  cbn. rewrite H. exact IH.
Qed.

Lemma starts_with_set_flat_map {A : Type} (h : A -> list call) (l : list A)
    (b : list call) :
  (forall i, starts_with_other (h i) = true) -> starts_with_set b = false ->
  starts_with_set (flat_map h l ++ b) = false.
Proof.
  intros Hh Hb. destruct l as [| i l]; [exact Hb |]. simpl.
  rewrite <- app_assoc. apply starts_with_other_app, Hh.
Qed.

(** The elements of a trace with a loop in the middle. *)
Lemma elements_of_loop {A : Type} (h : A -> list call) (l : list A)
    (p s : list call) :
  (forall i, starts_with_other (h i) = true) -> starts_with_set s = false ->
  elements_of (p ++ flat_map h l ++ s)
  = elements_of p ++ flat_map (fun i => elements_of (h i)) l ++ elements_of s.
Proof.
  intros Hh Hs.
  rewrite elements_of_app by (apply starts_with_set_flat_map; assumption).
  rewrite elements_of_app by exact Hs.
  rewrite elements_of_flat_map by exact Hh. reflexivity.
Qed.

(** [range(1, taps + 1)] exists only for an integer [taps]. *)
Lemma range_of_taps (t v : value) (l : list Z) :
  py_add t (VInt 1) = inr v -> py_range1 v = inr l ->
  exists n, as_int t = Some n /\ l = seqZ 1 n.
Proof.
  intros Hv Hl. unfold py_add in Hv.
  destruct t as [| b | z | f | s | tag]; cbn in Hv; try discriminate.
  - injection Hv as <-. cbn in Hl. injection Hl as <-.
    exists (Z.b2z b). split; [reflexivity |]. f_equal. lia.
  - injection Hv as <-. cbn in Hl. injection Hl as <-.
    exists z. split; [reflexivity |]. f_equal. lia.
  - destruct (float_of_int 1); [discriminate |]. injection Hv as <-.
    discriminate.
Qed.

Lemma seqZ_nil_iff (n : Z) : seqZ 1 n = [] <-> n < 1.
Proof.
  split.
  - intros H. destruct (Z.lt_ge_cases n 1) as [Hlt | Hge]; [exact Hlt |].
    apply (f_equal length) in H. rewrite length_seqZ in H. simpl in H. lia.
  - intros H. unfold seqZ.
    replace (Z.to_nat n) with 0%nat by lia. reflexivity.
Qed.

Lemma trace_with_loop {A : Type} (g : A -> list call) (l : list A)
    (s p : list call) (o : PNN) :
  trace (World o (s ++ concat (map g (rev l)) ++ p))
  = cat3 (rev p) (flat_map (fun i => rev (g i)) l) (rev s).
Proof. unfold trace, cat3. simpl. apply rev_log_loop. Qed.

Lemma elements_of_cat3 {A : Type} (h : A -> list call) (l : list A)
    (p s : list call) :
  (forall i, starts_with_other (h i) = true) -> starts_with_set s = false ->
  elements_of (cat3 p (flat_map h l) s)
  = cat3 (elements_of p) (flat_map (fun i => elements_of (h i)) l)
         (elements_of s).
Proof. apply elements_of_loop. Qed.

Lemma existsb_cat3 {A : Type} (p : A -> bool) (a b c : list A) :
  existsb p (cat3 a b c) = existsb p a || (existsb p b || existsb p c).
Proof. unfold cat3. rewrite !existsb_app. reflexivity. Qed.

Lemma filter_cat3 {A : Type} (p : A -> bool) (a b c : list A) :
  List.filter p (cat3 a b c)
  = cat3 (List.filter p a) (List.filter p b) (List.filter p c).
Proof. unfold cat3. rewrite !List.filter_app. reflexivity. Qed.

Lemma map_cat3 {A B : Type} (g : A -> B) (a b c : list A) :
  map g (cat3 a b c) = cat3 (map g a) (map g b) (map g c).
Proof. unfold cat3. rewrite !map_app. reflexivity. Qed.

Lemma omap_cat3 {A B : Type} (g : A -> option B) (a b c : list A) :
  omap g (cat3 a b c) = cat3 (omap g a) (omap g b) (omap g c).
Proof. unfold cat3. rewrite !omap_app. reflexivity. Qed.

Lemma cat3_nil {A : Type} (b : list A) : cat3 [] b [] = b.
Proof. unfold cat3. simpl. apply app_nil_r. Qed.

Lemma cat3_nil_mid {A : Type} (a c : list A) : cat3 a [] c = a ++ c.
Proof. reflexivity. Qed.

Lemma In_cat3_after {A : Type} (x : A) (a b c : list A) :
  In x c -> In x (cat3 a b c).
Proof. intros H. unfold cat3. apply in_or_app. right. apply in_or_app. right. exact H. Qed.

Lemma existsb_flat_map_false {A B : Type} (p : B -> bool) (h : A -> list B)
    (l : list A) :
  (forall i, existsb p (h i) = false) -> existsb p (flat_map h l) = false.
Proof.
  intros H. induction l as [| i l IH]; [reflexivity |]. simpl.
  rewrite existsb_app, H, IH. reflexivity.
Qed.

Lemma filter_flat_map_nil {A B : Type} (p : B -> bool) (h : A -> list B)
    (l : list A) :
  (forall i, List.filter p (h i) = []) -> List.filter p (flat_map h l) = [].
Proof.
  intros H. induction l as [| i l IH]; [reflexivity |]. simpl.
  rewrite List.filter_app, H, IH. reflexivity.
Qed.

Lemma map_filter_flat_map {A B C : Type} (g : B -> C) (p : B -> bool)
    (h : A -> list B) (k : A -> C) (l : list A) :
  (forall i, map g (List.filter p (h i)) = [k i]) ->
  map g (List.filter p (flat_map h l)) = map k l.
Proof.
  intros H. induction l as [| i l IH]; [reflexivity |]. simpl.
  rewrite List.filter_app, map_app, H, IH. reflexivity.
Qed.

Lemma omap_filter_flat_map {A B C : Type} (g : B -> option C) (p : B -> bool)
    (h : A -> list B) (k : A -> C) (l : list A) :
  (forall i, omap g (List.filter p (h i)) = [k i]) ->
  omap g (List.filter p (flat_map h l)) = map k l.
Proof.
  intros H. induction l as [| i l IH]; [reflexivity |]. simpl.
  rewrite List.filter_app, omap_app, H, IH. reflexivity.
Qed.

Lemma omap_filter_flat_map_nil {A B C : Type} (g : B -> option C)
    (p : B -> bool) (h : A -> list B) (l : list A) :
  (forall i, omap g (List.filter p (h i)) = []) ->
  omap g (List.filter p (flat_map h l)) = [].
Proof.
  intros H. induction l as [| i l IH]; [reflexivity |]. simpl.
  rewrite List.filter_app, omap_app, H, IH. reflexivity.
Qed.

(** ** Validation in the constructor and the setters *)

Lemma py_eq_str_true (v : value) (s : string) :
  py_eq_str v s = true <-> v = VStr s.
Proof.
  destruct v; simpl; try (split; [discriminate | intros [=]]).
  rewrite String.eqb_eq. split; [intros -> | intros [= ->]]; reflexivity.
Qed.

Lemma in_None_or_model (v : value) :
  in_None_or v ["parallel"; "series"] = true <-> v = VNone \/ model_variant v.
Proof.
  unfold in_None_or, model_variant. simpl.
  rewrite !orb_true_iff, !py_eq_str_true. clear libm_pow.
  destruct v; simpl; intuition congruence.
Qed.

Lemma in_None_or_OutputType (v : value) :
  in_None_or v ["connected"; "disconnected"; "mixed"] = true
  <-> v = VNone \/ OutputType_variant v.
Proof.
  unfold in_None_or, OutputType_variant. simpl.
  rewrite !orb_true_iff, !py_eq_str_true. clear libm_pow.
  destruct v; simpl; intuition congruence.
Qed.

Lemma assign_given_completes (f : F.field) (x : value) (w : world) :
  (assign_given f x w).1 = inr tt.
Proof. unfold assign_given. destruct (is_None x); reflexivity. Qed.

Lemma assign_given_other (f g : F.field) (x : value) (w : world) :
  g <> f -> get g (self (assign_given f x w).2) = get g (self w).
Proof.
  intros Hne. unfold assign_given.
  destruct (is_None x); simpl; [reflexivity |].
  destruct f, g; try reflexivity; congruence.
Qed.

(** ** C6 *)



(** ** C5 *)




(** ** C9 *)

(** C9: [setAttributes] validates nothing.  For every value [x],
    [setAttributes(model=x)] and [setAttributes(OutputType=x)] return
    normally and store [x], every other attribute and the session staying as
    they were; so neither enumerated-value invariant is preserved by
    [setAttributes]. *)
Theorem setAttributes_no_validation :
  (forall (x : value) (w : world),
     setAttributes [("model", x)] w
     = (inr tt, World (Instance_ (set_field F.model x (self w)) (others (self w)))
                      (log w)) /\
     model (set_field F.model x (self w)) = x) /\
  (forall (x : value) (w : world),
     setAttributes [("OutputType", x)] w
     = (inr tt, World (Instance_ (set_field F.OutputType x (self w))
                                 (others (self w))) (log w)) /\
     OutputType (set_field F.OutputType x (self w)) = x) /\
  ~ (forall kwargs w, model_variant (model (self w)) ->
       model_variant (model (self (setAttributes kwargs w).2))) /\
  ~ (forall kwargs w, OutputType_variant (OutputType (self w)) ->
       OutputType_variant (OutputType (self (setAttributes kwargs w).2))).
Proof.
  split; [| split; [| split]].
  - intros x w. split; reflexivity.
  - intros x w. split; reflexivity.
  - intros H.
    specialize (H [("model", VStr "ring")] (World PNN_default [])).
    destruct H as [H | H]; [left; reflexivity | discriminate H | discriminate H].
  - intros H.
    specialize (H [("OutputType", VInt 3)] (World PNN_default [])).
    destruct H as [H | [H | H]]; [left; reflexivity | discriminate H ..].
Qed.

(** ** C10 *)

Section Names.

Variable inherited : string -> option value.

Lemma getAttributes_cons (a : value) (kwargs : list value) (w : world) :
  getAttributes inherited (a :: kwargs) w
  = match a with
    | VStr name =>
        match getAttributes inherited kwargs w with
        | (inl e, w') => (inl e, w')
        | (inr t, w') =>
            (inr (default VNone (getattr inherited (self w) name) :: t), w')
        end
    | _ => (inl TypeError, w)
    end.
Proof.
  unfold getAttributes. cbn [map tuple_of]. destruct a; reflexivity.
Qed.

Lemma getAttributes_state (kwargs : list value) (w : world) :
  (getAttributes inherited kwargs w).2 = w.
Proof.
  induction kwargs as [| a kwargs IH]; [reflexivity |].
  rewrite getAttributes_cons.
  destruct a; try reflexivity.
  destruct (getAttributes inherited kwargs w) as [[e | t] w']; exact IH.
Qed.

Lemma getAttributes_strings (names : list string) (w : world) :
  getAttributes inherited (VStr <$> names) w
  = (inr (map (fun name => default VNone (getattr inherited (self w) name))
              names), w).
Proof.
  induction names as [| name names IH]; [reflexivity |].
  cbn [fmap list_fmap]. rewrite getAttributes_cons.
  change (list_fmap string value VStr names) with (VStr <$> names).
  rewrite IH. reflexivity.
Qed.

Lemma getAttributes_not_a_string (kwargs : list value) (w : world) :
  (exists a, a ∈ kwargs /\ is_str a = false) ->
  getAttributes inherited kwargs w = (inl TypeError, w).
Proof.
  intros (a & Hin & Ha).
  induction kwargs as [| b kwargs IH]; [apply elem_of_nil in Hin as [] |].
  rewrite getAttributes_cons.
  apply elem_of_cons in Hin as [<- | Hin].
  - destruct a; try reflexivity. discriminate Ha.
  - destruct b; try reflexivity. rewrite (IH Hin). reflexivity.
Qed.

Lemma methods_not_descriptors (name : string) :
  name ∈ methods -> name ∉ type_descriptors.
Proof.
  intros Hm Hd. unfold type_descriptors in Hd.
  repeat (apply elem_of_cons in Hd as [-> | Hd];
          [revert Hm; apply (bool_decide_unpack _); reflexivity |]).
  apply elem_of_nil in Hd as [].
Qed.

Lemma field_name_not_descriptor (f : F.field) :
  field_name f ∉ type_descriptors.
Proof. destruct f; apply (bool_decide_unpack _); reflexivity. Qed.

Lemma field_of_name_field_name (f : F.field) :
  field_of_name (field_name f) = Some f.
Proof. destruct f; reflexivity. Qed.

(** What a name resolves to, case by case. *)
Lemma getattr_cases (o : PNN) (name : string) :
  (forall f, name = field_name f ->
     getattr inherited o name = Some (get f o)) /\
  (name ∉ type_descriptors -> field_of_name name = None ->
   forall v, others o !! name = Some v -> getattr inherited o name = Some v) /\
  (field_of_name name = None -> others o !! name = None ->
   name ∈ methods -> getattr inherited o name = Some (VOpaque name)) /\
  (name ∈ type_descriptors \/
   (field_of_name name = None /\ others o !! name = None /\ name ∉ methods) ->
   getattr inherited o name = inherited name).
Proof.
  unfold getattr. split; [| split; [| split]].
  - intros f ->.
    rewrite (bool_decide_eq_false_2 _ (field_name_not_descriptor f)).
    rewrite field_of_name_field_name. reflexivity.
  - intros Hd Hf v Hv.
    rewrite (bool_decide_eq_false_2 _ Hd), Hf, Hv. reflexivity.
  - intros Hf Ho Hm.
    rewrite (bool_decide_eq_false_2 _ (methods_not_descriptors name Hm)).
    rewrite Hf, Ho, (bool_decide_eq_true_2 _ Hm). reflexivity.
  - intros [Hd | (Hf & Ho & Hm)].
    + rewrite (bool_decide_eq_true_2 _ Hd). reflexivity.
    + rewrite Hf, Ho, (bool_decide_eq_false_2 _ Hm).
      destruct (bool_decide _); reflexivity.
Qed.

End Names.

(** C10, as amended: [getAttributes] changes neither the instance nor the
    session.  It raises [TypeError] when one of the names requested is not a
    string.  When they all are strings it returns a tuple as long as their
    list, whose [i]-th entry is what the [i]-th name resolves to: the value
    in the record for a declared attribute; the value stored for an
    undeclared attribute of the instance; the bound method for the name of
    a method that no stored attribute shadows; and, for [__class__],
    [__dict__], [__weakref__] and for a name that is none of the above, what
    the interpreter supplies under that name, [None] when it supplies
    nothing. *)
Theorem getAttributes_resolves (inherited : string -> option value)
    (kwargs : list value) (w : world) :
  (getAttributes inherited kwargs w).2 = w /\
  ((exists a, a ∈ kwargs /\ is_str a = false) ->
   (getAttributes inherited kwargs w).1 = inl TypeError) /\
  (forall names : list string, kwargs = VStr <$> names ->
   exists t : list value,
     (getAttributes inherited kwargs w).1 = inr t /\
     length t = length names /\
     forall (i : nat) (name : string), names !! i = Some name ->
       (forall f, name = field_name f -> t !! i = Some (get f (self w))) /\
       (name ∉ type_descriptors -> field_of_name name = None ->
        forall v, others (self w) !! name = Some v -> t !! i = Some v) /\
       (field_of_name name = None -> others (self w) !! name = None ->
        name ∈ methods -> t !! i = Some (VOpaque name)) /\
       (name ∈ type_descriptors \/
        (field_of_name name = None /\ others (self w) !! name = None /\
         name ∉ methods) ->
        t !! i = Some (default VNone (inherited name)))).
Proof.
  split; [apply getAttributes_state |]. split.
  - intros H. rewrite (getAttributes_not_a_string inherited kwargs w H).
    reflexivity.
  - intros names ->. rewrite getAttributes_strings. eexists.
    split; [reflexivity |]. split; [apply length_map |].
    intros i name Hi.
    change (map ?g names) with (g <$> names).
    rewrite list_lookup_fmap, Hi. cbn [fmap option_fmap option_map].
    destruct (getattr_cases inherited (self w) name) as (H1 & H2 & H3 & H4).
    split; [| split; [| split]].
    + intros f Hf. rewrite (H1 f Hf). reflexivity.
    + intros Hd Hf v Hv. rewrite (H2 Hd Hf v Hv). reflexivity.
    + intros Hf Ho Hm. rewrite (H3 Hf Ho Hm). reflexivity.
    + intros H. rewrite (H4 H). reflexivity.
Qed.

Lemma getAttributes_resolves_witness :
  (getAttributes (fun _ => None) [VStr "taps"; VStr "mount"; VStr "colour"]
     (World PNN_default [])).1
  = inr [VInt 4; VOpaque "mount"; VNone].
Proof.
  destruct (getAttributes_resolves (fun _ => None)
              [VStr "taps"; VStr "mount"; VStr "colour"]
              (World PNN_default [])) as (_ & _ & H).
  destruct (H ["taps"; "mount"; "colour"] eq_refl) as (t & -> & Hl & Hi).
  destruct t as [| a [| b [| c [| d t]]]]; try discriminate Hl.
  destruct (Hi 0%nat "taps" eq_refl) as (Ha & _).
  destruct (Hi 1%nat "mount" eq_refl) as (_ & _ & Hb & _).
  destruct (Hi 2%nat "colour" eq_refl) as (_ & _ & _ & Hc).
  assert (Hm : "mount" ∈ methods) by (apply (bool_decide_unpack _); reflexivity).
  assert (Hn : "colour" ∉ methods) by (apply (bool_decide_unpack _); reflexivity).
  specialize (Ha F.taps eq_refl).
  specialize (Hb eq_refl eq_refl Hm).
  specialize (Hc (or_intror (conj eq_refl (conj eq_refl Hn)))).
  cbn in Ha, Hb, Hc. congruence.
Defined.

(** C10, counterexample to the claim as stated: [getAttributes('taps', 3)]
    on [PNN()] raises [TypeError], the second name being no string. *)
Lemma getAttributes_raises_on_a_name_that_is_no_string :
  getAttributes (fun _ => None) [VStr "taps"; VInt 3] (World PNN_default [])
  = (inl TypeError, World PNN_default []).
Proof. reflexivity. Qed.

(** ** C8 *)

(** C8: neither [mount] nor [update] modifies the instance: whatever the
    configuration and the session's history, and whether the run returns or
    raises, the instance after the call is the instance before it.  The
    same holds of [getAttributes] and [showParameters]: a call of a method
    that leaves the instance other than it was is a call of one of the five
    setters or of [setAttributes], each of which can change it. *)
Theorem instance_changes_only_through_setters :
  (forall w : world,
     self (mount w).2 = self w /\ self (update w).2 = self w) /\
  (forall (inherited : string -> option value) (c : method_call) (w : world),
     self (after_call inherited c w) <> self w -> setter_style c) /\
  (forall inherited : string -> option value,
     (exists c w, self (after_call inherited (call_setter c) w) <> self w) /\
     (exists kwargs w,
        self (after_call inherited (call_setAttributes kwargs) w) <> self w)).
Proof.
  split; [| split].
  - intros w.
    split; [rewrite (reader_mount w) | rewrite (reader_update w)]; reflexivity.
  - intros inherited c w H. destruct c; cbn [setter_style]; try exact I;
      exfalso; apply H; cbn [after_call].
    + rewrite getAttributes_state. reflexivity.
    + reflexivity.
    + rewrite (reader_update w). reflexivity.
    + rewrite (reader_mount w). reflexivity.
  - intros inherited. split.
    + exists (call_general VNone (VInt 8) VNone VNone VNone),
        (World PNN_default []).
      intros H. apply (f_equal (fun o : PNN => taps o)) in H. discriminate H.
    + exists [("taps", VInt 8)], (World PNN_default []).
      intros H. apply (f_equal (fun o : PNN => taps o)) in H. discriminate H.
Qed.


(** ** Running a script on a symbolic instance *)

Lemma py_eq_str_false (v : value) (s : string) :
  py_eq_str v s = false <-> v <> VStr s.
Proof.
  rewrite <- py_eq_str_true. destruct (py_eq_str v s); split; congruence.
Qed.

Lemma is_True_true (v : value) : is_True v = true <-> v = VBool true.
Proof. destruct v as [| [] | | | |]; simpl; split; congruence. Qed.

Lemma is_True_false (v : value) : is_True v = false <-> v <> VBool true.
Proof. rewrite <- is_True_true. destruct (is_True v); split; congruence. Qed.

Lemma is_False_true (v : value) : is_False v = true <-> v = VBool false.
Proof. destruct v as [| [] | | | |]; simpl; split; congruence. Qed.

Lemma is_False_false (v : value) : is_False v = false <-> v <> VBool false.
Proof. rewrite <- is_False_true. destruct (is_False v); split; congruence. Qed.

Lemma run_end {A : Type} (r r' : result A) (w w' : world) :
  (r, w) = (r', w') -> w' = w.
Proof. intros [= _ <-]. reflexivity. Qed.

(** The term a stuck run is waiting for. *)
Ltac stuck_on t :=
  lazymatch t with
  | match ?s with _ => _ end => stuck_on s
  | (match ?s with _ => _ end) _ => stuck_on s
  | _ => t
  end.

(** Run as far as the instance decides, leaving arithmetic on attributes and
    tests of attributes unevaluated. *)
Ltac eval_in E :=
  lazy -[py_mul py_add py_pow2 py_range1 py_eq_str is_True is_False
         for_ py_str concat map rev app Z.add Z.mul
         fields others model taps DelayUnitLen unitsNextTap WvgLoss FiberLen
         PRBSType PulseAmp RiseTime FallTime MZMILoss ToggleBitOp bitrate
         numofSamples timeWindow OutputType ToggleAWGN NoisePSD
         ToggleOptFilter OptFilterBand PDResponsivity PDDarkCurrent PDTNoise
         TogglePDTNoise TogglePDSNoise] in E.

(** Branches are set aside under a name until the run reaches them, and so is
    the log at that point. *)
Ltac set_aside E :=
  repeat match type of E with
    | context [if_ _ (block ?t) _] =>
        let B := fresh "branch" in remember (block t) as B in E
    | context [if_ _ _ (block ?t)] =>
        let B := fresh "branch" in remember (block t) as B in E
    | context [if_ _ _ (if_ ?c ?t ?e)] =>
        let B := fresh "branch" in remember (if_ c t e) as B in E
    | context [for_range1 _ (fun i => block (@?t i))] =>
        let B := fresh "body" in remember (fun i => block (t i)) as B in E
    end.

Ltac set_aside_log E :=
  lazymatch type of E with
  | context [World _ (?c :: ?L)] =>
      let K := fresh "before" in remember (c :: L) as K in E
  | _ => idtac
  end.

Ltac subst_logs E :=
  repeat match goal with
    | H : ?K = _ :: _ |- _ => is_var K; rewrite H in E; clear H K
    end.

(** One step of a run that returns normally: enter the branch reached, or
    split on the outcome of the next operation or test unless the context
    already tells it. *)
Lemma result_case {A : Type} (s : result A) (P : Prop) :
  (forall e, s = inl e -> P) -> (forall a, s = inr a -> P) -> P.
Proof. destruct s; eauto. Qed.

Lemma bool_case (s : bool) (P : Prop) :
  (s = true -> P) -> (s = false -> P) -> P.
Proof. destruct s; eauto. Qed.

Ltac split_on s E :=
  let Hx := fresh "Hr" in
  let T := type of s in
  lazymatch eval hnf in T with
  | bool => apply (bool_case s); intros Hx; rewrite Hx in E
  | sum _ _ => apply (result_case s); intros ? Hx; rewrite Hx in E
  end.

Ltac step E :=
  lazymatch type of E with
  | (_, _) = _ => fail
  | ?lhs = _ =>
      let s := stuck_on lhs in
      lazymatch s with
      | for_ _ _ _ => fail
      | ?B _ =>
          lazymatch goal with
          | H : B = _ |- _ =>
              rewrite H in E; clear H B; set_aside_log E; set_aside E; eval_in E
          | H : s = _ |- _ => rewrite H in E
          | _ => split_on s E
          end
      | _ =>
          lazymatch goal with
          | H : s = _ |- _ => rewrite H in E
          | _ => split_on s E
          end
      end;
      cbv beta iota delta [self log] in E;
      lazymatch type of E with
      | (inl _, _) = (inr _, _) => discriminate E
      | _ => idtac
      end
  end.

(** The tests met, as facts about the attributes. *)
Ltac facts :=
  repeat match goal with
    | H : is_True _ = true |- _ => apply is_True_true in H
    | H : is_True _ = false |- _ => apply is_True_false in H
    | H : is_False _ = true |- _ => apply is_False_true in H
    | H : is_False _ = false |- _ => apply is_False_false in H
    | H : py_eq_str _ _ = true |- _ => apply py_eq_str_true in H
    | H : py_eq_str _ _ = false |- _ => apply py_eq_str_false in H
    end.

Ltac use_results :=
  repeat match goal with
    | H : ?l = inr _ |- context [?l] => rewrite H
    end.

(** At the end of a run: the elements the trace makes, computed once, and
    with them what the goal observes. *)
Ltac compute_obs :=
  lazy -[fields others model taps DelayUnitLen unitsNextTap WvgLoss FiberLen
         PRBSType PulseAmp RiseTime FallTime MZMILoss ToggleBitOp bitrate
         numofSamples timeWindow OutputType ToggleAWGN NoisePSD
         ToggleOptFilter OptFilterBand PDResponsivity PDDarkCurrent PDTNoise
         TogglePDTNoise TogglePDSNoise Z.add Z.mul
         py_mul py_add py_pow2 py_range1 tap_length iff not].

Ltac finish E :=
  apply run_end in E; subst_logs E;
  lazymatch type of E with
  | ?w = ?W =>
      let Ho := fresh "Ho" in
      eassert (Ho : elements_of (trace w) = _)
        by (rewrite E; compute_obs; reflexivity);
      clear E;
      unfold property_of, creates, created, thermal_noise_set, names_of_type;
      rewrite !Ho; clear Ho; compute_obs
  end.

Lemma tap_length_1 (c : config) : tap_length 1 c = inr (DelayUnitLen c).
Proof. reflexivity. Qed.

Lemma tap_length_2 (c : config) (f v : value) :
  py_add (VInt 1) (unitsNextTap c) = inr f ->
  py_mul f (DelayUnitLen c) = inr v ->
  tap_length 2 c = inr v.
Proof.
  intros Hf Hv. unfold tap_length, tap_factor.
  change (2 =? 1)%Z with false. change (2 =? 2)%Z with true.
  cbv beta iota. rewrite Hf. exact Hv.
Qed.

Lemma tap_length_3 (c : config) (k f v : value) :
  py_mul (VInt 2) (unitsNextTap c) = inr k ->
  py_add (VInt 1) k = inr f ->
  py_mul f (DelayUnitLen c) = inr v ->
  tap_length 3 c = inr v.
Proof.
  intros Hk Hf Hv. unfold tap_length, tap_factor.
  change (3 =? 1)%Z with false. change (3 =? 2)%Z with false.
  change (3 - 1) with 2. cbv beta iota. rewrite Hk, Hf. exact Hv.
Qed.

Lemma tap_length_4 (c : config) (k f v : value) :
  py_mul (VInt 3) (unitsNextTap c) = inr k ->
  py_add (VInt 1) k = inr f ->
  py_mul f (DelayUnitLen c) = inr v ->
  tap_length 4 c = inr v.
Proof.
  intros Hk Hf Hv. unfold tap_length, tap_factor.
  change (4 =? 1)%Z with false. change (4 =? 2)%Z with false.
  change (4 - 1) with 3. cbv beta iota. rewrite Hk, Hf. exact Hv.
Qed.

Ltac clear_branches :=
  repeat match goal with
    | H : ?B = block _ |- _ => clear H; try clear B
    | H : ?B = if_ _ _ _ |- _ => clear H; try clear B
    end.

Ltac split_both s H1 H2 :=
  let Hx := fresh "Hr" in
  let T := type of s in
  lazymatch eval hnf in T with
  | bool => apply (bool_case s); intros Hx; rewrite ?Hx in H1; rewrite ?Hx in H2
  | sum _ _ =>
      apply (result_case s); intros ? Hx; rewrite ?Hx in H1; rewrite ?Hx in H2
  end;
  cbv beta iota delta [self log fst snd] in H1, H2.

(** The loop the run has reached: it either raises, or every iteration
    returns normally and the log grows by their calls. *)
Ltac enter_loop E Hall :=
  lazymatch type of E with
  | ?lhs = _ =>
      let s := stuck_on lhs in
      lazymatch s with
      | for_ ?l ?B ?W =>
          let Ef := fresh "Ef" in
          let rw := fresh "rw" in
          let e := fresh "e" in
          let wl := fresh "wl" in
          remember (for_ l B W) as rw eqn:Ef in E;
          destruct rw as [[e | []] wl]; symmetry in Ef;
          cbv beta iota in E; [discriminate E |];
          apply for_completes in Ef;
          [ destruct Ef as [Hall ->]
          | intros ?;
            match goal with H : B = _ |- _ => rewrite H end;
            cbv beta; solve_reader ];
          match goal with H : B = _ |- _ => rewrite H in Hall, E; clear H B end;
          eval_in Hall; eval_in E
      end
  end.

Ltac before_loop t :=
  lazymatch t with
  | ?c :: ?r =>
      let p := before_loop r in
      lazymatch p with
      | (?s, ?x) => constr:((c :: s, x))
      end
  | concat _ ++ _ => constr:((@nil call, t))
  end.

Ltac compute_parts :=
  lazy -[fields others model taps DelayUnitLen unitsNextTap WvgLoss FiberLen
         PRBSType PulseAmp RiseTime FallTime MZMILoss ToggleBitOp bitrate
         numofSamples timeWindow OutputType ToggleAWGN NoisePSD
         ToggleOptFilter OptFilterBand PDResponsivity PDDarkCurrent PDTNoise
         TogglePDTNoise TogglePDSNoise Z.add Z.mul Z.le Z.lt
         py_mul py_add py_pow2 py_range1 tap_length iff not
         py_str cat3 flat_map map seqZ].

(** At the end of a run with a loop: the elements made before the loop, by
    each iteration, and after the loop. *)
Ltac finish_loop E :=
  apply run_end in E; subst_logs E;
  lazymatch type of E with
  | _ = World _ ?L =>
      let p := before_loop L in
      lazymatch p with
      | (?s, ?x) => change L with (s ++ x) in E
      end
  end;
  lazymatch type of E with
  | ?w = World _ (?s ++ concat (map ?g (rev ?l)) ++ ?p) =>
      let Ho := fresh "Ho" in
      let Ht := fresh "Ht" in
      assert (Ht : trace w = cat3 (rev p) (flat_map (fun i => rev (g i)) l) (rev s))
        by (rewrite E; apply trace_with_loop);
      eassert (Ho : elements_of (trace w) = _)
        by (rewrite Ht;
            rewrite elements_of_cat3 by (intros; reflexivity);
            compute_parts; reflexivity);
      clear E;
      unfold delay_line_set, property_of, creates, created, thermal_noise_set,
        names_of_type;
      rewrite !Ho; clear Ho
  end.

(** ** What [mount] makes in the parallel model *)

Lemma mount_parallel_combined (o : PNN) :
  model o = VStr "parallel" ->
  OutputType o <> VStr "disconnected" ->
  completes mount o ->
  let tr := calls mount o in
  (creates "AWGN_source" tr = true <-> ToggleAWGN o = VBool true) /\
  (creates "Optical Filter" tr = true <-> ToggleOptFilter o <> VBool false) /\
  (thermal_noise_set tr <> [] <-> TogglePDTNoise o = VBool true) /\
  Forall (fun v => py_pow2 (PDTNoise o) = inr v) (thermal_noise_set tr) /\
  (delay_line_set tr o 1 /\ delay_line_set tr o 2 /\
   delay_line_set tr o 3 /\ delay_line_set tr o 4) /\
  names_of_type "Straight Waveguide" tr
  = map (fun i => Some (VStr ("DelayLine_" +:+ py_str i))) [1; 2; 3; 4] /\
  names_of_type "MZI Ideal Cell" tr = repeat None 7.
Proof.
  intros Hm Hd Hc tr. subst tr. apply py_eq_str_false in Hd.
  assert (Hp : py_eq_str (model o) "parallel" = true) by (rewrite Hm; reflexivity).
  unfold completes, calls in *.
  destruct (run mount o) as [r w'] eqn:E. cbn [fst snd] in *. subst r.
  unfold run, mount in E. set_aside E. eval_in E.
  repeat step E.
  all: clear_branches; unfold delay_line_set; finish E.
  all: facts.
  all: repeat split; intros; try discriminate; try congruence;
    try (exfalso; congruence);
    try (repeat constructor; assumption);
    try (eexists; split; [reflexivity |];
         eauto using tap_length_1, tap_length_2, tap_length_3, tap_length_4).
Qed.

Lemma mount_parallel_disconnected (o : PNN) :
  model o = VStr "parallel" ->
  OutputType o = VStr "disconnected" ->
  completes mount o ->
  let tr := calls mount o in
  exists n, as_int (taps o) = Some n /\
    creates "AWGN_source" tr = false /\
    creates "Optical Filter" tr = false /\
    (thermal_noise_set tr <> [] <-> TogglePDTNoise o = VBool true /\ 1 <= n) /\
    Forall (fun v => py_pow2 (PDTNoise o) = inr v) (thermal_noise_set tr) /\
    (delay_line_set tr o 1 /\ delay_line_set tr o 2 /\
     delay_line_set tr o 3 /\ delay_line_set tr o 4) /\
    names_of_type "Straight Waveguide" tr
    = map (fun i => Some (VStr ("DelayLine_" +:+ py_str i))) [1; 2; 3; 4] /\
    names_of_type "PIN Photodetector" tr
    = map (fun i => Some (VStr ("OutPIN_" +:+ py_str i))) (seqZ 1 n) /\
    names_of_type "MZI Ideal Cell" tr = repeat None 7 /\
    Forall (fun i => In (c_connect ("IDEAL_CELL_" +:+ py_str (i + 3)) "port 3"
                                   ("OutPIN_" +:+ py_str i) "input") tr)
           [1; 2; 3; 4].
Proof.
  intros Hm Hd Hc tr. subst tr.
  assert (Hp : py_eq_str (model o) "parallel" = true) by (rewrite Hm; reflexivity).
  assert (Hq : py_eq_str (OutputType o) "disconnected" = true) by (rewrite Hd; reflexivity).
  assert (Hx : py_eq_str (OutputType o) "mixed" = false) by (rewrite Hd; reflexivity).
  unfold completes, calls in *.
  destruct (run mount o) as [r w'] eqn:E. cbn [fst snd] in *. subst r.
  unfold run, mount in E. set_aside E. eval_in E.
  repeat step E.
  all: clear_branches.
  all: enter_loop E Hall.
  all: split_both (is_True (TogglePDTNoise o)) Hall E.
  1, 3: split_both (py_pow2 (PDTNoise o)) Hall E.
  all: match goal with
       | H1 : py_add (taps _) _ = inr ?v, H2 : py_range1 ?v = inr ?l |- _ =>
           destruct (range_of_taps _ _ _ H1 H2) as (n & Hn & ->)
       end; exists n; split; [exact Hn |].
  all: finish_loop E.
  all: facts.
  all: repeat match goal with |- _ /\ _ => split end.
  all: try (repeat constructor; rewrite Ht; apply In_cat3_after;
            apply -> in_rev; cbn [In];
            repeat (first [left; reflexivity | right])).
  all: clear Ht.
  all: try (rewrite existsb_cat3, existsb_flat_map_false by (intros; reflexivity);
            reflexivity).
  all: try (rewrite filter_cat3, map_cat3, filter_flat_map_nil by (intros; reflexivity);
            first [ reflexivity
                  | eexists; split; [reflexivity |];
                    eauto using tap_length_1, tap_length_2, tap_length_3,
                      tap_length_4 ]).
  all: try (rewrite filter_cat3, map_cat3;
            rewrite (map_filter_flat_map _ _ _
                       (fun i => Some (VStr ("OutPIN_" +:+ py_str i))))
              by (intros; reflexivity);
            apply cat3_nil).
  all: rewrite filter_cat3, omap_cat3;
    first [ rewrite omap_filter_flat_map_nil by (intros; reflexivity)
          | erewrite omap_filter_flat_map by (intros; reflexivity) ];
    compute_parts; rewrite cat3_nil.
  all: lazymatch goal with
       | |- Forall _ [] => constructor
       | |- Forall _ (map _ _) =>
           apply List.Forall_forall; intros ? Hin;
           apply in_map_iff in Hin as (? & <- & _); assumption
       | |- _ <-> _ => split
       end.
  all: try (intros Hne; exfalso; apply Hne; reflexivity).
  all: try (intros [Ht Hn1]; congruence).
  all: try (intros [Ht Hn1];
            destruct (seqZ 1 n) eqn:Hs;
            [ apply seqZ_nil_iff in Hs; lia
            | inversion Hall; discriminate ]).
  all: try (intros Hne; split; [assumption |];
            destruct (Z_lt_le_dec n 1) as [Hlt | Hle]; [| exact Hle];
            exfalso; apply Hne;
            rewrite (proj2 (seqZ_nil_iff n) Hlt); reflexivity).
  all: try (intros [_ Hn1] Hmap; apply map_eq_nil in Hmap;
            apply seqZ_nil_iff in Hmap; lia).
Qed.


(** ** What [mount] makes outside the parallel model *)

Lemma mount_not_parallel (o : PNN) :
  model o <> VStr "parallel" ->
  completes mount o ->
  let tr := calls mount o in
  creates "AWGN_source" tr = false /\
  creates "Optical Filter" tr = false /\
  creates "OutPIN" tr = false /\
  thermal_noise_set tr = [] /\
  names_of_type "Straight Waveguide" tr
  = (if py_eq_str (model o) "series" then [None; None; None] else []).
Proof.
  intros Hm Hc tr. subst tr. apply py_eq_str_false in Hm.
  unfold completes, calls in *.
  destruct (run mount o) as [r w'] eqn:E. cbn [fst snd] in *. subst r.
  unfold run, mount in E. set_aside E. eval_in E.
  repeat step E.
  all: clear_branches.
  all: repeat match goal with
              | H : py_eq_str (model _) _ = _ |- _ => rewrite ?H; clear H
              end.
  all: finish E.
  all: repeat split; reflexivity.
Qed.


(** ** What [update] addresses *)

Lemma omap_flat_map_nil {A B C : Type} (g : B -> option C) (h : A -> list B)
    (l : list A) :
  (forall i, omap g (h i) = []) -> omap g (flat_map h l) = [].
Proof.
  intros H. induction l as [| i l IH]; [reflexivity |]. simpl.
  rewrite omap_app, H, IH. reflexivity.
Qed.

(** At the end of a run, for what the goal observes of the calls
    themselves. *)
Ltac finish_trace E :=
  apply run_end in E; subst_logs E;
  lazymatch type of E with
  | ?w = World _ ?L =>
      lazymatch L with
      | context [concat] =>
          let p := before_loop L in
          lazymatch p with
          | (?s, ?x) => change L with (s ++ x) in E
          end;
          let Ho := fresh "Ho" in
          eassert (Ho : trace w = _)
            by (rewrite E, trace_with_loop; compute_parts; reflexivity);
          unfold delay_line_updated, setnamed_values, addresses_delay_line;
          rewrite !Ho; clear Ho E;
          rewrite ?omap_cat3, ?existsb_cat3;
          rewrite ?omap_flat_map_nil by (intros; reflexivity);
          rewrite ?existsb_flat_map_false by (intros; reflexivity)
      | _ =>
          let Ho := fresh "Ho" in
          eassert (Ho : trace w = _) by (rewrite E; compute_obs; reflexivity);
          unfold delay_line_updated, setnamed_values, addresses_delay_line;
          rewrite !Ho; clear Ho E
      end
  end.

Ltac through_loop o E Hall :=
  enter_loop E Hall;
  split_both (is_True (TogglePDTNoise o)) Hall E;
  [ split_both (py_pow2 (PDTNoise o)) Hall E | ];
  repeat step E.

Lemma update_parallel (o : PNN) :
  model o = VStr "parallel" ->
  completes update o ->
  let tr := calls update o in
  delay_line_updated tr o 1 /\ delay_line_updated tr o 2 /\
  delay_line_updated tr o 3 /\ delay_line_updated tr o 4.
Proof.
  intros Hm Hc tr. subst tr.
  assert (Hp : py_eq_str (model o) "parallel" = true) by (rewrite Hm; reflexivity).
  unfold completes, calls in *.
  destruct (run update o) as [r w'] eqn:E. cbn [fst snd] in *. subst r.
  unfold run, update in E. set_aside E. eval_in E.
  repeat step E.
  all: try through_loop o E Hall.
  all: clear_branches.
  all: finish_trace E.
  all: repeat split; eexists; (split; [reflexivity |]);
    eauto using tap_length_1, tap_length_2, tap_length_3, tap_length_4.
Qed.

Lemma update_not_parallel (o : PNN) :
  model o <> VStr "parallel" ->
  completes update o ->
  addresses_delay_line (calls update o) = false.
Proof.
  intros Hm Hc. apply py_eq_str_false in Hm.
  unfold completes, calls in *.
  destruct (run update o) as [r w'] eqn:E. cbn [fst snd] in *. subst r.
  unfold run, update in E. set_aside E. eval_in E.
  repeat step E.
  all: try through_loop o E Hall.
  all: clear_branches.
  all: finish_trace E.
  all: reflexivity.
Qed.

(** * The schematic and its updates *)

(** ** C1 *)

(** C1, at the failing input [PNN(model='series')]: [update] and [mount] both
    run to their end; [update] addresses the element ['OutPIN'] through
    [setnamed], and [mount] under the same configuration creates no element
    of that name. *)
Theorem update_addresses_element_mount_never_made :
  __init__ (Some (VStr "series")) None None None None = inr series_instance /\
  completes mount series_instance /\
  completes update series_instance /\
  In ("OutPIN", "enable thermal noise", VBool false)
     (setnamed_targets (calls update series_instance)) /\
  creates "OutPIN" (calls mount series_instance) = false.
Proof.
  split; [reflexivity |]. split; [vm_compute; reflexivity |].
  split; [vm_compute; reflexivity |]. split.
  - vm_compute. repeat (first [left; reflexivity | right]).
  - vm_compute. reflexivity.
Qed.

(** ** C3 *)

Lemma tap_length_formula (c : config) (i n : Z) :
  2 <= i -> as_int (unitsNextTap c) = Some n ->
  tap_length i c = py_mul (VInt (1 + (i - 1) * n)) (DelayUnitLen c).
Proof.
  intros Hi Hn. unfold tap_length, tap_factor.
  destruct (Z.eqb_spec i 1) as [-> | _]; [lia |].
  destruct (Z.eqb_spec i 2) as [-> | _].
  - replace (1 + (2 - 1) * n) with (1 + n) by lia.
    destruct (unitsNextTap c) as [| b | z | f | s | t]; try discriminate;
      injection Hn as <-; reflexivity.
  - destruct (unitsNextTap c) as [| b | z | f | s | t]; try discriminate;
      injection Hn as <-; reflexivity.
Qed.

Lemma tap_length_first_int (c : config) (n d : Z) :
  DelayUnitLen c = VInt d ->
  tap_length 1 c = py_mul (VInt (1 + (1 - 1) * n)) (DelayUnitLen c).
Proof.
  intros Hd. replace (1 + (1 - 1) * n) with 1 by lia.
  change (tap_length 1 c) with (inr (DelayUnitLen c) : result value).
  rewrite Hd.
  change (py_mul (VInt 1) (VInt d)) with (inr (VInt (1 * d)) : result value).
  rewrite Z.mul_1_l. reflexivity.
Qed.

(** C3: in the ['parallel'] model, a run of [mount] that returns makes one
    element named [DelayLine_i] for each [i] of 1..4 and sets its length to
    that of tap [i], and a run of [update] that returns sets by [setnamed]
    that same length, once, on [DelayLine_i]; when the model is not
    ['parallel'], a run of [update] that returns addresses no delay line.
    The length of tap [i] is (1 + (i-1) * unitsNextTap) * DelayUnitLen: the
    unit length itself for the first tap, which for an integer unit length
    is the value of the formula, and for an integer [unitsNextTap] the
    value of the formula from the second tap on. *)
Theorem delay_line_lengths (o : PNN) :
  (model o = VStr "parallel" ->
   (completes mount o ->
    Forall (delay_line_set (calls mount o) o) [1; 2; 3; 4]) /\
   (completes update o ->
    Forall (delay_line_updated (calls update o) o) [1; 2; 3; 4])) /\
  (model o <> VStr "parallel" -> completes update o ->
   addresses_delay_line (calls update o) = false) /\
  tap_length 1 o = inr (DelayUnitLen o) /\
  (forall n d, as_int (unitsNextTap o) = Some n -> DelayUnitLen o = VInt d ->
     tap_length 1 o = py_mul (VInt (1 + (1 - 1) * n)) (DelayUnitLen o)) /\
  (forall i n, 2 <= i -> as_int (unitsNextTap o) = Some n ->
     tap_length i o = py_mul (VInt (1 + (i - 1) * n)) (DelayUnitLen o)).
Proof.
  split; [| split; [| split; [| split]]].
  - intros Hm. split.
    + intros Hc. destruct (py_eq_str (OutputType o) "disconnected") eqn:Hd.
      * apply py_eq_str_true in Hd.
        destruct (mount_parallel_disconnected o Hm Hd Hc)
          as (n & _ & _ & _ & _ & _ & (H1 & H2 & H3 & H4) & _).
        repeat constructor; assumption.
      * apply py_eq_str_false in Hd.
        destruct (mount_parallel_combined o Hm Hd Hc)
          as (_ & _ & _ & _ & (H1 & H2 & H3 & H4) & _).
        repeat constructor; assumption.
    + intros Hc. destruct (update_parallel o Hm Hc) as (H1 & H2 & H3 & H4).
      repeat constructor; assumption.
  - apply update_not_parallel.
  - reflexivity.
  - intros n d _ Hd. apply (tap_length_first_int o n d Hd).
  - intros i n. apply tap_length_formula.
Qed.

(** ** C4 *)

(** C4, as amended: on every configuration on which [mount] runs to its end,
    the noise toggles select the noise components in the ['parallel'] model
    with an [OutputType] other than ['disconnected']: there [mount] makes an
    element named ['AWGN_source'] exactly when [ToggleAWGN] is [True], for a
    Boolean [ToggleOptFilter] makes an element named ['Optical Filter']
    exactly when it is [True], and sets ['thermal noise'] on a photodetector
    exactly when [TogglePDTNoise] is [True].  In the ['parallel'] model with
    [OutputType] ['disconnected'] it makes neither element, and sets
    ['thermal noise'] exactly when [TogglePDTNoise] is [True] and [taps] is
    at least one; outside the ['parallel'] model it makes neither element
    and sets no ['thermal noise'].  Every ['thermal noise'] set is
    [PDTNoise ** 2]. *)
Theorem noise_toggles (o : PNN) :
  completes mount o ->
  (model o = VStr "parallel" -> OutputType o <> VStr "disconnected" ->
   (creates "AWGN_source" (calls mount o) = true
    <-> ToggleAWGN o = VBool true) /\
   (forall b, ToggleOptFilter o = VBool b ->
      (creates "Optical Filter" (calls mount o) = true <-> b = true)) /\
   (thermal_noise_set (calls mount o) <> []
    <-> TogglePDTNoise o = VBool true)) /\
  (model o = VStr "parallel" -> OutputType o = VStr "disconnected" ->
   creates "AWGN_source" (calls mount o) = false /\
   creates "Optical Filter" (calls mount o) = false /\
   exists n, as_int (taps o) = Some n /\
     (thermal_noise_set (calls mount o) <> []
      <-> TogglePDTNoise o = VBool true /\ 1 <= n)) /\
  (model o <> VStr "parallel" ->
   creates "AWGN_source" (calls mount o) = false /\
   creates "Optical Filter" (calls mount o) = false /\
   thermal_noise_set (calls mount o) = []) /\
  Forall (fun v => py_pow2 (PDTNoise o) = inr v)
         (thermal_noise_set (calls mount o)).
Proof.
  intros Hc. split; [| split; [| split]].
  - intros Hm Hd.
    destruct (mount_parallel_combined o Hm Hd Hc) as (Ha & Hf & Ht & _).
    split; [exact Ha |]. split; [| exact Ht].
    intros b Hb. rewrite Hf, Hb. destruct b; split; congruence.
  - intros Hm Hd.
    destruct (mount_parallel_disconnected o Hm Hd Hc)
      as (n & Hn & Ha & Hf & Ht & _).
    split; [exact Ha |]. split; [exact Hf |]. exists n. split; assumption.
  - intros Hm.
    destruct (mount_not_parallel o Hm Hc) as (Ha & Hf & _ & Ht & _).
    repeat split; assumption.
  - destruct (py_eq_str (model o) "parallel") eqn:Hm.
    + apply py_eq_str_true in Hm.
      destruct (py_eq_str (OutputType o) "disconnected") eqn:Hd.
      * apply py_eq_str_true in Hd.
        destruct (mount_parallel_disconnected o Hm Hd Hc)
          as (n & _ & _ & _ & _ & Hp & _). exact Hp.
      * apply py_eq_str_false in Hd.
        destruct (mount_parallel_combined o Hm Hd Hc)
          as (_ & _ & _ & Hp & _). exact Hp.
    + apply py_eq_str_false in Hm.
      destruct (mount_not_parallel o Hm Hc) as (_ & _ & _ & Ht & _).
      cbv zeta in Ht. rewrite Ht. constructor.
Qed.

(** ** C2 *)

Lemma py_eq_str_refl (s : string) : py_eq_str (VStr s) s = true.
Proof. apply String.eqb_refl. Qed.

(** An element listed under a name is an element made under that name. *)
Lemma names_creates (ty s : string) (tr : list call) :
  In (Some (VStr s)) (names_of_type ty tr) -> creates s tr = true.
Proof.
  unfold names_of_type, creates. intros H.
  apply in_map_iff in H. destruct H as (e & He & Hin).
  apply filter_In in Hin. destruct Hin as [Hin _].
  apply existsb_exists. exists e. split; [exact Hin |].
  unfold named. rewrite He. apply py_eq_str_refl.
Qed.

(** What [taps] reaches in the ['parallel'] model.  A run of [mount] that
    returns makes four delay lines, named [DelayLine_1] to [DelayLine_4],
    and seven MZI cells, whatever [taps] is.  With the ['disconnected']
    output, [taps] is an integer [n], the loop makes the photodetectors
    [OutPIN_1] to [OutPIN_n] in this order, and the four connections of cell
    [IDEAL_CELL_(i+3)], port 3, to [OutPIN_i], for [i] from 1 to 4, follow
    it whatever [n] is. *)
Lemma mount_taps_count_photodetectors_only (o : PNN) :
  model o = VStr "parallel" -> completes mount o ->
  names_of_type "Straight Waveguide" (calls mount o)
  = map (fun i => Some (VStr ("DelayLine_" +:+ py_str i))) [1; 2; 3; 4] /\
  length (names_of_type "MZI Ideal Cell" (calls mount o)) = 7%nat /\
  (OutputType o = VStr "disconnected" ->
   exists n, as_int (taps o) = Some n /\
     names_of_type "PIN Photodetector" (calls mount o)
     = map (fun i => Some (VStr ("OutPIN_" +:+ py_str i))) (seqZ 1 n) /\
     (forall i, 1 <= i <= n ->
        creates ("OutPIN_" +:+ py_str i) (calls mount o) = true) /\
     Forall (fun i => In (c_connect ("IDEAL_CELL_" +:+ py_str (i + 3)) "port 3"
                                    ("OutPIN_" +:+ py_str i) "input")
                         (calls mount o))
            [1; 2; 3; 4]).
Proof.
  intros Hm Hc.
  destruct (py_eq_str (OutputType o) "disconnected") eqn:Hd.
  - apply py_eq_str_true in Hd.
    destruct (mount_parallel_disconnected o Hm Hd Hc)
      as (n & Hn & _ & _ & _ & _ & _ & Hw & Hp & Hz & Hk).
    split; [exact Hw |]. split; [rewrite Hz; reflexivity |].
    intros _. exists n. split; [exact Hn |]. split; [exact Hp |].
    split; [| exact Hk].
    intros i Hi. apply (names_creates "PIN Photodetector"). rewrite Hp.
    apply in_map_iff. exists i. split; [reflexivity |].
    apply list_elem_of_In, elem_of_seqZ. lia.
  - apply py_eq_str_false in Hd.
    destruct (mount_parallel_combined o Hm Hd Hc)
      as (_ & _ & _ & _ & _ & Hw & Hz).
    split; [exact Hw |]. split; [rewrite Hz; reflexivity |].
    intros Hd'. contradiction.
Qed.

(** C2, at the failing input [PNN(model='parallel', taps=2)] followed by
    [output(OutputType='disconnected')]: [mount] runs to its end; for two
    taps it makes four delay lines and seven MZI cells; its loop over the
    taps makes the two photodetectors [OutPIN_1] and [OutPIN_2]; and the
    connections written out after the loop reach for [OutPIN_3] and
    [OutPIN_4], which it has not made. *)
Theorem mount_two_taps_four_delay_lines :
  __init__ (Some (VStr "parallel")) (Some (VInt 2)) None None None
  = inr (initialised (VStr "parallel") (VInt 2) (VFloat 100e-6) (VInt 1) (VInt 0)) /\
  taps two_tap_instance = VInt 2 /\
  OutputType two_tap_instance = VStr "disconnected" /\
  completes mount two_tap_instance /\
  length (names_of_type "Straight Waveguide" (calls mount two_tap_instance))
  = 4%nat /\
  length (names_of_type "MZI Ideal Cell" (calls mount two_tap_instance))
  = 7%nat /\
  names_of_type "PIN Photodetector" (calls mount two_tap_instance)
  = [Some (VStr "OutPIN_1"); Some (VStr "OutPIN_2")] /\
  In (c_connect "IDEAL_CELL_6" "port 3" "OutPIN_3" "input")
     (calls mount two_tap_instance) /\
  creates "OutPIN_3" (calls mount two_tap_instance) = false /\
  In (c_connect "IDEAL_CELL_7" "port 3" "OutPIN_4" "input")
     (calls mount two_tap_instance) /\
  creates "OutPIN_4" (calls mount two_tap_instance) = false.
Proof.
  split; [reflexivity |]. split; [reflexivity |]. split; [reflexivity |].
  split; [vm_compute; reflexivity |].
  split; [vm_compute; reflexivity |].
  split; [vm_compute; reflexivity |].
  split; [vm_compute; reflexivity |].
  split; [vm_compute; repeat (first [left; reflexivity | right]) |].
  split; [vm_compute; reflexivity |].
  split; [| vm_compute; reflexivity].
  vm_compute. repeat (first [left; reflexivity | right]).
Qed.

(** * The setter-style methods *)

Lemma get_set_field_same (f : F.field) (v : value) (c : config) :
  get f (set_field f v c) = v.
Proof. destruct f; reflexivity. Qed.

Lemma get_set_field_other (f g : F.field) (v : value) (c : config) :
  g <> f -> get g (set_field f v c) = get g c.
Proof. intros Hne. destruct f, g; try reflexivity; congruence. Qed.

Lemma config_ext (c1 c2 : config) :
  (forall f, get f c1 = get f c2) -> c1 = c2.
Proof.
  intros H. destruct c1, c2.
  pose proof (fun f => H f) as H'. 
  f_equal;
    [ exact (H F.model) | exact (H F.taps) | exact (H F.DelayUnitLen)
    | exact (H F.unitsNextTap) | exact (H F.WvgLoss) | exact (H F.FiberLen)
    | exact (H F.PRBSType) | exact (H F.PulseAmp) | exact (H F.RiseTime)
    | exact (H F.FallTime) | exact (H F.MZMILoss) | exact (H F.ToggleBitOp)
    | exact (H F.bitrate) | exact (H F.numofSamples) | exact (H F.timeWindow)
    | exact (H F.OutputType) | exact (H F.ToggleAWGN) | exact (H F.NoisePSD)
    | exact (H F.ToggleOptFilter) | exact (H F.OptFilterBand)
    | exact (H F.PDResponsivity) | exact (H F.PDDarkCurrent)
    | exact (H F.PDTNoise) | exact (H F.TogglePDTNoise)
    | exact (H F.TogglePDSNoise) ].
Qed.

Lemma store_given_other (args : list (F.field * value)) (c : config)
    (f : F.field) :
  f ∉ args.*1 -> get f (store_given args c) = get f c.
Proof.
  revert c. induction args as [| [g x] args IH]; intros c Hf; [reflexivity |].
  cbn in Hf. apply not_elem_of_cons in Hf as [Hne Hf]. cbn.
  rewrite IH by exact Hf.
  destruct (is_None x); [reflexivity | apply get_set_field_other, Hne].
Qed.

Lemma store_given_in (args : list (F.field * value)) (c : config)
    (f : F.field) (x : value) :
  NoDup args.*1 -> (f, x) ∈ args ->
  get f (store_given args c) = if is_None x then get f c else x.
Proof.
  revert c. induction args as [| [g y] args IH]; intros c Hnd Hin.
  - apply elem_of_nil in Hin as [].
  - cbn in Hnd. apply NoDup_cons in Hnd as [Hg Hnd].
    apply elem_of_cons in Hin as [[= -> ->] | Hin]; cbn.
    + rewrite store_given_other by exact Hg.
      destruct (is_None y); [reflexivity | apply get_set_field_same].
    + rewrite (IH _ Hnd Hin).
      assert (Hne : f <> g).
      { intros ->. apply Hg. apply list_elem_of_fmap. exists (g, x). auto. }
      destruct (is_None x), (is_None y); try reflexivity;
        apply get_set_field_other, Hne.
Qed.

Lemma arguments_NoDup (c : setter_call) : NoDup (arguments c).*1.
Proof. destruct c; apply (bool_decide_unpack _); reflexivity. Qed.

(** A setter-style method either rejects its first argument, or stores the
    arguments given. *)
Lemma invoke_spec (c : setter_call) (w : world) :
  invoke c w
  = if rejected c then (inl NameError, w)
    else (inr tt,
          World (Instance_ (store_given (arguments c) (self w))
                           (others (self w)))
                (log w)).
Proof.
  destruct w as [[o ot] lg].
  destruct c; cbn -[in_None_or];
    unfold general, transmission, simulation, output, photoreceptor,
      assign_given, assign, pass; cbn -[in_None_or set_field];
    unfold mbind, M_bind, mret, M_ret, raise;
    try (match goal with
         | |- context [in_None_or ?a ?l] =>
             unfold in_None_or; cbn [existsb]; destruct a as [| | | | s |]
         end);
    cbn -[set_field String.eqb];
    repeat match goal with
           | |- context [String.eqb ?a ?b] => destruct (String.eqb a b)
           end;
    cbn -[set_field];
    repeat match goal with
           | |- context [is_None ?x] => destruct (is_None x)
           end;
    reflexivity.
Qed.


(** X2: A call repeated with the same arguments ends as the first did and
    changes nothing more. *)
Theorem setter_call_idempotent (c : setter_call) (w : world) :
  invoke c (invoke c w).2 = invoke c w.
Proof.
  rewrite (invoke_spec c w). destruct (rejected c) eqn:Hr; cbn [snd].
  - rewrite invoke_spec, Hr. reflexivity.
  - rewrite invoke_spec, Hr. cbn [self log others fields].
    do 3 f_equal. apply config_ext. intros f.
    destruct (decide (f ∈ (arguments c).*1)) as [Hin | Hout].
    + apply list_elem_of_fmap in Hin as ([g x] & -> & Hin). cbn [fst].
      rewrite !(store_given_in _ _ g x) by (apply arguments_NoDup || exact Hin).
      destruct (is_None x); reflexivity.
    + rewrite !store_given_other by exact Hout. reflexivity.
Qed.

Lemma given_spec (c : setter_call) (f : F.field) :
  f ∈ given c <-> exists x, (f, x) ∈ arguments c /\ is_None x = false.
Proof.
  unfold given. rewrite list_elem_of_fmap. split.
  - intros ([g x] & -> & Hin). apply list_elem_of_In, filter_In in Hin.
    destruct Hin as [Hin Hx]. exists x.
    split; [apply list_elem_of_In, Hin | apply negb_true_iff, Hx].
  - intros (x & Hin & Hx). exists (f, x). split; [reflexivity |].
    apply list_elem_of_In, filter_In.
    split; [apply list_elem_of_In, Hin | apply negb_true_iff, Hx].
Qed.

(** What a call leaves in an attribute: the argument given for it, and what
    was there when none is given. *)
Lemma store_given_arguments (c : setter_call) (o : config) (f : F.field) :
  (forall x, (f, x) ∈ arguments c -> is_None x = false ->
     get f (store_given (arguments c) o) = x) /\
  (f ∉ given c -> get f (store_given (arguments c) o) = get f o).
Proof.
  split.
  - intros x Hin Hx.
    rewrite (store_given_in _ _ f x) by (apply arguments_NoDup || exact Hin).
    rewrite Hx. reflexivity.
  - intros Hout.
    destruct (decide (f ∈ (arguments c).*1)) as [Hin | Hno].
    + apply list_elem_of_fmap in Hin as ([g x] & -> & Hin). cbn [fst] in *.
      rewrite (store_given_in _ _ g x) by (apply arguments_NoDup || exact Hin).
      destruct (is_None x) eqn:Hx; [reflexivity |].
      exfalso. apply Hout, given_spec. exists x. split; assumption.
    + apply store_given_other, Hno.
Qed.

(** X3: Two calls that give values (arguments other than [None]) to
    different attributes, be they calls of two different setter-style
    methods or of the same one, can be made in either order by a client
    that goes on after a [NameError]: the instance ends up the same. *)
Theorem setter_calls_commute (c1 c2 : setter_call) (w : world) :
  (forall f, f ∈ given c1 -> f ∉ given c2) ->
  session [c1; c2] w = session [c2; c1] w.
Proof.
  intros Hd. cbn [session].
  rewrite (invoke_spec c1 w), (invoke_spec c2 w).
  destruct (rejected c1) eqn:H1, (rejected c2) eqn:H2; cbn [snd];
    rewrite ?invoke_spec, ?H1, ?H2; cbn [snd self log others fields];
    try reflexivity.
  do 2 f_equal. apply config_ext. intros f.
  destruct (decide (f ∈ given c1)) as [Hin1 | Hout1].
  - pose proof (Hd f Hin1) as Hout2.
    apply given_spec in Hin1 as (x & Hin1 & Hx).
    rewrite (proj2 (store_given_arguments c2 _ f) Hout2).
    rewrite !(proj1 (store_given_arguments c1 _ f) x Hin1 Hx). reflexivity.
  - rewrite (proj2 (store_given_arguments c1 _ f) Hout1).
    destruct (decide (f ∈ given c2)) as [Hin2 | Hout2].
    + apply given_spec in Hin2 as (x & Hin2 & Hx).
      rewrite !(proj1 (store_given_arguments c2 _ f) x Hin2 Hx). reflexivity.
    + rewrite !(proj2 (store_given_arguments c2 _ f) Hout2).
      apply (proj2 (store_given_arguments c1 _ f) Hout1).
Qed.

Lemma setter_calls_commute_witness :
  session [call_general VNone (VInt 8) VNone VNone VNone;
           call_general (VStr "series") VNone VNone VNone VNone]
          (World PNN_default [])
  = session [call_general (VStr "series") VNone VNone VNone VNone;
             call_general VNone (VInt 8) VNone VNone VNone]
            (World PNN_default []).
Proof.
  apply (setter_calls_commute
           (call_general VNone (VInt 8) VNone VNone VNone)
           (call_general (VStr "series") VNone VNone VNone VNone)).
  intros f Hf.
  destruct f;
    first [ apply (bool_decide_unpack _); reflexivity
          | exfalso; revert Hf; apply (bool_decide_unpack _); reflexivity ].
Defined.

(** ** Invariants of the setter-style methods *)

Lemma invoke_keeps_variants (c : setter_call) (w : world) :
  model_variant (model (self w)) ->
  OutputType_variant (OutputType (self w)) ->
  model_variant (model (self (invoke c w).2)) /\
  OutputType_variant (OutputType (self (invoke c w).2)).
Proof.
  intros Hm Ho. rewrite invoke_spec.
  destruct (rejected c) eqn:Hr; [split; assumption |].
  cbn [snd self fields].
  change (model_variant (get F.model (store_given (arguments c) (self w))) /\
          OutputType_variant
            (get F.OutputType (store_given (arguments c) (self w)))).
  destruct c as [a ? ? ? ? | ? ? ? ? ? ? ? | ? ? ? | a ? ? ? ? | ? ? ? ? ?];
    cbn [rejected] in Hr.
  - rewrite (store_given_in _ _ F.model a)
      by (apply arguments_NoDup || apply list_elem_of_here).
    rewrite store_given_other
      by (apply (bool_decide_unpack _); reflexivity).
    split; [| exact Ho].
    apply negb_false_iff, in_None_or_model in Hr as [-> | Hv];
      [exact Hm |].
    destruct Hv as [-> | ->]; [left | right]; reflexivity.
  - rewrite !store_given_other by (apply (bool_decide_unpack _); reflexivity).
    split; assumption.
  - rewrite !store_given_other by (apply (bool_decide_unpack _); reflexivity).
    split; assumption.
  - rewrite (store_given_in _ _ F.OutputType a)
      by (apply arguments_NoDup || apply list_elem_of_here).
    rewrite store_given_other
      by (apply (bool_decide_unpack _); reflexivity).
    split; [exact Hm |].
    apply negb_false_iff, in_None_or_OutputType in Hr as [-> | Hv];
      [exact Ho |].
    destruct Hv as [-> | [-> | ->]];
      [left | right; left | right; right]; reflexivity.
  - rewrite !store_given_other by (apply (bool_decide_unpack _); reflexivity).
    split; assumption.
Qed.

Lemma invoke_keeps_not_None (c : setter_call) (w : world) (f : F.field) :
  get f (self w) <> VNone -> get f (self (invoke c w).2) <> VNone.
Proof.
  intros Hf. rewrite invoke_spec. destruct (rejected c); [exact Hf |].
  cbn [snd self fields].
  destruct (decide (f ∈ (arguments c).*1)) as [Hin | Hout].
  - apply list_elem_of_fmap in Hin as ([g x] & -> & Hin). cbn [fst] in *.
    rewrite (store_given_in _ _ g x) by (apply arguments_NoDup || exact Hin).
    destruct x; cbn [is_None]; congruence.
  - rewrite store_given_other by exact Hout. exact Hf.
Qed.

Lemma invoke_keeps_log (c : setter_call) (w : world) :
  log (invoke c w).2 = log w /\ others (self (invoke c w).2) = others (self w).
Proof. rewrite invoke_spec. destruct (rejected c); split; reflexivity. Qed.

(** X4: The enumerated-value invariant of the record.  An instance constructed
    with a model other than [None] has one of the two model variants and
    one of the three output variants, and keeps them through any sequence of
    calls to the five setter-style methods, whatever their arguments and
    whether or not some of the calls raise. *)
Theorem setters_keep_enumerated_values
    (m t d u l : option value) (o : PNN) (cs : list setter_call) :
  __init__ m t d u l = inr o ->
  m <> Some VNone ->
  model_variant (model (self (session cs (World o [])))) /\
  OutputType_variant (OutputType (self (session cs (World o [])))).
Proof.
  intros Hi Hm.
  assert (H0 : model_variant (model o) /\ OutputType_variant (OutputType o)).
  { unfold __init__ in Hi.
    destruct (in_None_or _ _) eqn:Hv in Hi; [| discriminate].
    injection Hi as <-. cbn. split; [| left; reflexivity].
    apply in_None_or_model in Hv as [Hn | Hv]; [| exact Hv].
    destruct m as [m |]; [cbn in Hn; congruence | discriminate]. }
  change o with (self (World o [])) in H0. revert H0.
  generalize (World o []) as w.
  induction cs as [| c cs IH]; intros w [H1 H2]; cbn [session];
    [split; assumption |].
  apply IH, invoke_keeps_variants; assumption.
Qed.

Lemma setters_keep_enumerated_values_witness :
  model_variant
    (model (self (session
       [call_general (VStr "ring") VNone VNone VNone VNone;
        call_general (VStr "series") VNone VNone VNone VNone;
        call_output (VInt 3) VNone VNone VNone VNone]
       (World PNN_default [])))) /\
  OutputType_variant
    (OutputType (self (session
       [call_general (VStr "ring") VNone VNone VNone VNone;
        call_general (VStr "series") VNone VNone VNone VNone;
        call_output (VInt 3) VNone VNone VNone VNone]
       (World PNN_default [])))).
Proof.
  apply (setters_keep_enumerated_values None None None None None PNN_default).
  - reflexivity.
  - discriminate.
Defined.

(** X5: No setter-style method can store [None]: an attribute that is not
    [None] stays so through any sequence of calls to them; and none of them
    issues a call to the session or adds an attribute. *)
Theorem setters_never_store_None (cs : list setter_call) (w : world) :
  (forall f, get f (self w) <> VNone ->
     get f (self (session cs w)) <> VNone) /\
  log (session cs w) = log w /\
  others (self (session cs w)) = others (self w).
Proof.
  revert w. induction cs as [| c cs IH]; intros w; cbn [session].
  - repeat split; auto.
  - destruct (IH (invoke c w).2) as (Hn & Hl & Ho).
    destruct (invoke_keeps_log c w) as [Hl' Ho'].
    split; [| split; congruence].
    intros f Hf. apply Hn, invoke_keeps_not_None, Hf.
Qed.

(** * Attributes by name *)

Lemma field_of_name_Some (name : string) (f : F.field) :
  field_of_name name = Some f -> field_name f = name.
Proof.
  unfold field_of_name. intros H. apply find_some in H as [_ H].
  apply String.eqb_eq, H.
Qed.

Lemma setattr_completes (name : string) (v : value) (w : world) :
  name ∉ type_descriptors ->
  (setattr name v w).1 = inr tt /\ log (setattr name v w).2 = log w.
Proof.
  intros Hn. unfold setattr. rewrite (bool_decide_eq_false_2 _ Hn).
  destruct (field_of_name name); split; reflexivity.
Qed.

Section Lookup_facts.

Variable inherited : string -> option value.

Lemma getattr_setattr_same (name : string) (v : value) (w : world) :
  name ∉ type_descriptors ->
  getattr inherited (self (setattr name v w).2) name = Some v.
Proof.
  intros Hn. unfold setattr, getattr. rewrite (bool_decide_eq_false_2 _ Hn).
  destruct (field_of_name name) as [f |] eqn:Hf; cbn [snd self assign fields others].
  - rewrite get_set_field_same. reflexivity.
  - rewrite lookup_insert_eq. reflexivity.
Qed.

Lemma getattr_setattr_other (name name' : string) (v : value) (w : world) :
  name' <> name ->
  getattr inherited (self (setattr name v w).2) name'
  = getattr inherited (self w) name'.
Proof.
  intros Hne. unfold setattr.
  destruct (bool_decide (name ∈ type_descriptors)); [reflexivity |].
  unfold getattr.
  destruct (bool_decide (name' ∈ type_descriptors)); [reflexivity |].
  destruct (field_of_name name) as [f |] eqn:Hf;
    cbn [snd self assign fields others].
  - destruct (field_of_name name') as [f' |] eqn:Hf'; [| reflexivity].
    rewrite get_set_field_other; [reflexivity |].
    intros ->. apply field_of_name_Some in Hf, Hf'. congruence.
  - destruct (field_of_name name'); [reflexivity |].
    rewrite lookup_insert_ne by congruence. reflexivity.
Qed.

Lemma setAttributes_bound (kw : list (string * value)) (w : world) :
  "self" ∉ kw.*1 ->
  setAttributes kw w = for_ kw (fun '(key, value) => setattr key value) w.
Proof.
  intros H. unfold setAttributes. rewrite (bool_decide_eq_false_2 _ H).
  reflexivity.
Qed.

Lemma store_cons (k : string) (v : value) (kw : list (string * value))
    (w : world) :
  k ∉ type_descriptors ->
  for_ ((k, v) :: kw) (fun '(key, value) => setattr key value) w
  = for_ kw (fun '(key, value) => setattr key value) (setattr k v w).2.
Proof.
  intros Hk. unfold for_. cbn [map block].
  unfold mbind at 1, M_bind at 1.
  destruct (setattr_completes k v w Hk) as [Hc _].
  destruct (setattr k v w) as [[e | []] w1]; [discriminate | reflexivity].
Qed.

Lemma store_spec (kw : list (string * value)) (w : world) :
  NoDup kw.*1 ->
  Forall (fun k => k ∉ type_descriptors) kw.*1 ->
  (for_ kw (fun '(key, value) => setattr key value) w).1 = inr tt /\
  log (for_ kw (fun '(key, value) => setattr key value) w).2 = log w /\
  (forall k v, (k, v) ∈ kw ->
     getattr inherited
       (self (for_ kw (fun '(key, value) => setattr key value) w).2) k
     = Some v) /\
  (forall k, k ∉ kw.*1 ->
     getattr inherited
       (self (for_ kw (fun '(key, value) => setattr key value) w).2) k
     = getattr inherited (self w) k).
Proof.
  revert w. induction kw as [| [k v] kw IH]; intros w Hnd Hok.
  - repeat split; try reflexivity. intros k v Hin.
    apply elem_of_nil in Hin as [].
  - cbn in Hnd, Hok. apply NoDup_cons in Hnd as [Hk Hnd].
    apply Forall_cons in Hok as [Hkd Hok].
    rewrite store_cons by exact Hkd.
    destruct (IH (setattr k v w).2 Hnd Hok) as (Hc & Hl & Hin & Hout).
    split; [exact Hc |].
    split; [rewrite Hl; apply setattr_completes, Hkd |].
    split.
    + intros k' v' Hin'. apply elem_of_cons in Hin' as [[= -> ->] | Hin'].
      * rewrite Hout by exact Hk. apply getattr_setattr_same, Hkd.
      * apply Hin, Hin'.
    + intros k' Hk'. cbn in Hk'. apply not_elem_of_cons in Hk' as [Hne Hk'].
      rewrite Hout by exact Hk'. apply getattr_setattr_other, Hne.
Qed.

End Lookup_facts.

(** X6: Round trip through the two by-name methods.  [setAttributes], given
    keyword arguments none of which is [self], [__class__], [__dict__] or
    [__weakref__], returns normally without a call to the session; and, as
    long as no attribute named [getAttributes] stands in front of the method
    (none is stored on the instance, and none of the keywords is that name),
    [getAttributes] on the same names then returns the values given, in
    order: also for a name that is no declared attribute, and for the name of
    another method, which the stored value shadows.  Every other name
    resolves as it did before. *)
Theorem setAttributes_getAttributes (inherited : string -> option value)
    (kwargs : list (string * value)) (w : world) :
  NoDup kwargs.*1 ->
  "self" ∉ kwargs.*1 ->
  Forall (fun k => k ∉ type_descriptors) kwargs.*1 ->
  "getAttributes" ∉ kwargs.*1 ->
  others (self w) !! "getAttributes" = None ->
  (setAttributes kwargs w).1 = inr tt /\
  log (setAttributes kwargs w).2 = log w /\
  others (self (setAttributes kwargs w).2) !! "getAttributes" = None /\
  (getAttributes inherited (VStr <$> kwargs.*1) (setAttributes kwargs w).2).1
  = inr kwargs.*2 /\
  (forall name, name ∉ kwargs.*1 ->
     getattr inherited (self (setAttributes kwargs w).2) name
     = getattr inherited (self w) name).
Proof.
  intros Hnd Hself Hok Hget Hfree.
  rewrite (setAttributes_bound kwargs w Hself).
  destruct (store_spec inherited kwargs w Hnd Hok) as (Hc & Hl & Hin & Hout).
  split; [exact Hc |]. split; [exact Hl |]. split; [| split; [| exact Hout]].
  - clear Hc Hl Hin Hout Hnd Hself. revert w Hfree.
    induction kwargs as [| [k v] kw IH]; intros w Hfree; [exact Hfree |].
    cbn in Hok, Hget. apply Forall_cons in Hok as [Hkd Hok].
    apply not_elem_of_cons in Hget as [Hne Hget].
    rewrite store_cons by exact Hkd. apply IH; [exact Hok | exact Hget |].
    unfold setattr. rewrite (bool_decide_eq_false_2 _ Hkd).
    destruct (field_of_name k); cbn [snd self others]; [exact Hfree |].
    rewrite lookup_insert_ne by congruence. exact Hfree.
  - rewrite getAttributes_strings. cbn [fst]. f_equal.
    clear Hc Hl Hout Hnd Hok Hself Hget Hfree. revert Hin.
    generalize (self (for_ kwargs (fun '(key, value) => setattr key value) w).2)
      as o.
    intros o Hin.
    induction kwargs as [| [k v] kw IH]; [reflexivity |]. cbn.
    rewrite (Hin k v) by apply list_elem_of_here. cbn. f_equal.
    apply IH. intros k' v' Hin'. apply Hin, list_elem_of_further, Hin'.
Qed.

Lemma setAttributes_getAttributes_witness :
  (getAttributes (fun _ => None) [VStr "mount"; VStr "taps"; VStr "colour"]
     (setAttributes [("mount", VInt 3); ("taps", VStr "many");
                     ("colour", VNone)] (World PNN_default [])).2).1
  = inr [VInt 3; VStr "many"; VNone].
Proof.
  apply (setAttributes_getAttributes (fun _ => None)
           [("mount", VInt 3); ("taps", VStr "many"); ("colour", VNone)]
           (World PNN_default [])).
  - apply (bool_decide_unpack _). reflexivity.
  - apply (bool_decide_unpack _). reflexivity.
  - repeat constructor; apply (bool_decide_unpack _); reflexivity.
  - apply (bool_decide_unpack _). reflexivity.
  - reflexivity.
Defined.

(** X7: [setAttributes] is not atomic.  When one of the keywords, none of
    which is [self], is [__weakref__], or is [__class__] or [__dict__] with
    a value that is [None], a Boolean, a number or a string, the call raises
    at that keyword ([AttributeError] for [__weakref__], [TypeError] for the
    other two); the keyword arguments before it have been stored and stay
    stored, those after it are not looked at. *)
Theorem setAttributes_stops_at_descriptor
    (before after : list (string * value)) (k : string) (v : value)
    (w : world) :
  "self" ∉ (before ++ (k, v) :: after).*1 ->
  Forall (fun k' => k' ∉ type_descriptors) before.*1 ->
  k ∈ type_descriptors ->
  k = "__weakref__" \/ opaque v = false ->
  setAttributes (before ++ (k, v) :: after) w
  = (inl (if String.eqb k "__weakref__" then AttributeError else TypeError),
     (setAttributes before w).2).
Proof.
  intros Hself Hok Hk _.
  assert (Hself' : "self" ∉ before.*1).
  { intros H. apply Hself. rewrite fmap_app. apply elem_of_app. left. exact H. }
  rewrite (setAttributes_bound _ w Hself), (setAttributes_bound _ w Hself').
  clear Hself Hself'. revert w.
  induction before as [| [k' v'] before IH]; intros w.
  - unfold for_, setattr. cbn [app map block].
    unfold mbind, M_bind. rewrite (bool_decide_eq_true_2 _ Hk).
    destruct w. reflexivity.
  - cbn in Hok. apply Forall_cons in Hok as [Hk' Hok].
    cbn [app]. rewrite !store_cons by exact Hk'.
    apply IH; assumption.
Qed.

Lemma setAttributes_stops_at_descriptor_witness :
  setAttributes [("taps", VInt 8); ("__class__", VInt 0); ("model", VStr "series")]
    (World PNN_default [])
  = (inl TypeError, (setAttributes [("taps", VInt 8)] (World PNN_default [])).2).
Proof.
  apply (setAttributes_stops_at_descriptor [("taps", VInt 8)]
           [("model", VStr "series")] "__class__" (VInt 0)
           (World PNN_default [])).
  - apply (bool_decide_unpack _). reflexivity.
  - repeat constructor. apply (bool_decide_unpack _). reflexivity.
  - apply (bool_decide_unpack _). reflexivity.
  - right. reflexivity.
Defined.

(** * What the two procedures send *)

Section Emits.

Variable P : call -> Prop.

Lemma emits_pure {A : Type} (m : M A) :
  (forall w, (m w).2 = w) -> emits P m.
Proof. intros H w. exists []. rewrite H. split; [reflexivity | constructor]. Qed.

Lemma emits_ret {A : Type} (a : A) : emits P (mret a : M A).
Proof. apply emits_pure. reflexivity. Qed.

Lemma emits_lift {A : Type} (r : result A) : emits P (lift r).
Proof. apply emits_pure. reflexivity. Qed.

Lemma emits_self_ (f : config -> value) : emits P (self_ f).
Proof. apply emits_pure. reflexivity. Qed.

Lemma emits_emit (c : call) : P c -> emits P (emit c).
Proof. intros Hc w. exists [c]. split; [reflexivity | repeat constructor; exact Hc]. Qed.

Lemma emits_bind {A B : Type} (m : M A) (k : A -> M B) :
  emits P m -> (forall a, emits P (k a)) -> emits P (m ≫= k).
Proof.
  intros Hm Hk w. unfold mbind, M_bind.
  destruct (Hm w) as (l1 & E1 & H1).
  destruct (m w) as [[e | a] w1]; cbn [snd] in *.
  - exists l1. split; assumption.
  - destruct (Hk a w1) as (l2 & E2 & H2).
    exists (l2 ++ l1). rewrite E2, E1, app_assoc.
    split; [reflexivity | apply Forall_app; split; assumption].
Qed.

Lemma emits_if {A : Type} (b : bool) (t e : M A) :
  emits P t -> emits P e -> emits P (if b then t else e).
Proof. destruct b; auto. Qed.

Lemma emits_block (l : list (M unit)) : Forall (emits P) l -> emits P (block l).
Proof.
  induction 1 as [| s l Hs _ IH]; cbn [block].
  - apply emits_ret.
  - apply emits_bind; auto.
Qed.

Lemma emits_for_ {A : Type} (l : list A) (body : A -> M unit) :
  (forall i, emits P (body i)) -> emits P (for_ l body).
Proof.
  intros H. apply emits_block. apply Forall_map, List.Forall_forall. auto.
Qed.

Lemma emits_binop (op : value -> value -> result value) (e1 e2 : M value) :
  emits P e1 -> emits P e2 -> emits P (binop op e1 e2).
Proof.
  intros H1 H2. unfold binop.
  apply emits_bind; [exact H1 | intros a].
  apply emits_bind; [exact H2 | intros b]. apply emits_lift.
Qed.

Lemma emits_pow2 (e : M value) : emits P e -> emits P (pow2 e).
Proof.
  intros H. unfold pow2. apply emits_bind; [exact H | intros a].
  apply emits_lift.
Qed.

Lemma emits_eq_str (e : M value) (s : string) : emits P e -> emits P (eq_str e s).
Proof.
  intros H. unfold eq_str. apply emits_bind; [exact H | intros a].
  apply emits_ret.
Qed.

Lemma emits_is_ (e : M value) (b : bool) : emits P e -> emits P (is_ e b).
Proof.
  intros H. unfold is_. apply emits_bind; [exact H | intros a].
  apply emits_ret.
Qed.

Lemma emits_if_ (c : M bool) (t e : M unit) :
  emits P c -> emits P t -> emits P e -> emits P (if_ c t e).
Proof.
  intros Hc Ht He. unfold if_. apply emits_bind; [exact Hc | intros b].
  apply emits_if; assumption.
Qed.

Lemma emits_for_range1 (stop : M value) (body : Z -> M unit) :
  emits P stop -> (forall i, emits P (body i)) -> emits P (for_range1 stop body).
Proof.
  intros Hs Hb. unfold for_range1. apply emits_bind; [exact Hs | intros n].
  apply emits_bind; [apply emits_lift | intros l].
  apply emits_for_; exact Hb.
Qed.

Lemma emits_set (p : string) (e : M value) :
  emits P e -> (forall v, P (c_set p v)) -> emits P (process.set p e).
Proof.
  intros H Hp. unfold process.set. apply emits_bind; [exact H | intros v].
  apply emits_emit, Hp.
Qed.

Lemma emits_setnamed (n p : string) (e : M value) :
  emits P e -> (forall v, P (c_setnamed n p v)) ->
  emits P (process.setnamed n p e).
Proof.
  intros H Hp. unfold process.setnamed. apply emits_bind; [exact H | intros v].
  apply emits_emit, Hp.
Qed.

End Emits.

(** One step of the syntax-directed proof that a script issues only calls of
    one kind; [kind] settles that a given call is of the kind. *)
Ltac emits_step kind :=
  lazymatch goal with
  | |- Forall _ [] => constructor
  | |- Forall _ (_ :: _) => constructor
  | |- forall _, _ => intro
  | |- emits _ (block _) => apply emits_block
  | |- emits _ (process.set _ _) => apply emits_set; [| intro; kind]
  | |- emits _ (process.setnamed _ _ _) => apply emits_setnamed; [| intro; kind]
  | |- emits _ process.switchtolayout => apply emits_emit; kind
  | |- emits _ process.deleteall => apply emits_emit; kind
  | |- emits _ (process.addelement _) => apply emits_emit; kind
  | |- emits _ (process.connect _ _ _ _) => apply emits_emit; kind
  | |- emits _ (process.disconnect _ _ _ _) => apply emits_emit; kind
  | |- emits _ (process.flipelement _) => apply emits_emit; kind
  | |- emits _ (process.select _) => apply emits_emit; kind
  | |- emits _ (if_ _ _ _) => apply emits_if_
  | |- emits _ (for_range1 _ _) => apply emits_for_range1
  | |- emits _ (eq_str _ _) => apply emits_eq_str
  | |- emits _ (is_ _ _) => apply emits_is_
  | |- emits _ (add _ _) => apply emits_binop
  | |- emits _ (mul _ _) => apply emits_binop
  | |- emits _ (pow2 _) => apply emits_pow2
  | |- emits _ (self_ _) => apply emits_self_
  | |- emits _ (int _) => apply emits_ret
  | |- emits _ (flt _) => apply emits_ret
  | |- emits _ (str _) => apply emits_ret
  | |- emits _ (boolean _) => apply emits_ret
  | |- emits _ pass => apply emits_ret
  | |- emits _ (mret _) => apply emits_ret
  | |- emits _ (if _ then _ else _) => apply emits_if
  | |- emits _ (_ ≫= _) => apply emits_bind
  end.

Ltac solve_emits := repeat emits_step ltac:(exact I).

(** The calls a run issues when it opens with [opening] and goes on with a
    script whose calls are all of one kind. *)
Lemma issued_after_opening {A : Type} (P : call -> Prop) (rest : M A)
    (opening : list call) (m : M A) (w : world) :
  emits P rest ->
  m w = rest (World (self w) (rev opening ++ log w)) ->
  exists l, issued m w = opening ++ l /\ Forall P l.
Proof.
  intros Hr Hm.
  destruct (Hr (World (self w) (rev opening ++ log w))) as (l & E & Hl).
  exists (rev l). split; [| apply Forall_rev, Hl].
  unfold issued. rewrite Hm, E. cbn [log].
  rewrite (app_assoc l (rev opening) (log w)).
  rewrite length_app, Nat.add_sub, take_app_length.
  rewrite rev_app_distr, rev_involutive. reflexivity.
Qed.

(** X8: [update] only adjusts a schematic that exists: on every configuration,
    and whether it returns or raises, its first call is [switchtolayout] and
    every call after that is a [setnamed]; it never adds, deletes, connects
    or disconnects an element. *)
Theorem update_only_sets_properties (w : world) :
  exists rest,
    issued update w = c_switchtolayout :: rest /\ Forall is_setnamed rest.
Proof.
  unfold update. cbn [block].
  lazymatch goal with
  | |- context [process.switchtolayout ≫= ?k] =>
      apply (issued_after_opening is_setnamed (k tt) [c_switchtolayout]);
        [cbv beta; solve_emits | destruct w; reflexivity]
  end.
Qed.

(** X9: [mount] rebuilds from nothing: on every configuration its first two
    calls are [switchtolayout] and [deleteall], also when it raises further
    on, so that a failed run has already discarded the schematic that was
    there; and no later call of the run deletes the schematic again. *)
Theorem mount_clears_first (w : world) :
  exists rest,
    issued mount w = c_switchtolayout :: c_deleteall :: rest /\
    Forall keeps_schematic rest.
Proof.
  unfold mount. cbn [block].
  lazymatch goal with
  | |- context [(process.switchtolayout ≫= _) ≫= ?k] =>
      apply (issued_after_opening keeps_schematic (k tt)
               [c_switchtolayout; c_deleteall]);
        [cbv beta zeta; solve_emits | destruct w; reflexivity]
  end.
Qed.

(** * The attributes a procedure reads *)

Section Agree.

Variables o1 o2 : PNN.

Lemma agree_ret {A : Type} (a : A) : agree o1 o2 (mret a : M A) (mret a).
Proof. intros l. exists (inr a), l. split; reflexivity. Qed.

Lemma agree_lift {A : Type} (r : result A) : agree o1 o2 (lift r) (lift r).
Proof. intros l. exists r, l. split; reflexivity. Qed.

Lemma agree_emit (c : call) : agree o1 o2 (emit c) (emit c).
Proof. intros l. exists (inr tt), (c :: l). split; reflexivity. Qed.

Lemma agree_self_ (f : config -> value) :
  f o1 = f o2 -> agree o1 o2 (self_ f) (self_ f).
Proof.
  intros H l. exists (inr (f o1)), l. unfold self_. cbn [self].
  rewrite H. split; reflexivity.
Qed.

Lemma agree_bind {A B : Type} (m1 m2 : M A) (k1 k2 : A -> M B) :
  agree o1 o2 m1 m2 -> (forall a, agree o1 o2 (k1 a) (k2 a)) ->
  agree o1 o2 (m1 ≫= k1) (m2 ≫= k2).
Proof.
  intros Hm Hk l. unfold mbind, M_bind.
  destruct (Hm l) as (r & l' & -> & ->).
  destruct r as [e | a].
  - exists (inl e), l'. split; reflexivity.
  - apply Hk.
Qed.

Lemma agree_if {A : Type} (b : bool) (t1 e1 t2 e2 : M A) :
  agree o1 o2 t1 t2 -> agree o1 o2 e1 e2 ->
  agree o1 o2 (if b then t1 else e1) (if b then t2 else e2).
Proof. destruct b; auto. Qed.

Lemma agree_block (l1 l2 : list (M unit)) :
  Forall2 (agree o1 o2) l1 l2 -> agree o1 o2 (block l1) (block l2).
Proof.
  induction 1 as [| s1 s2 l1 l2 Hs _ IH]; cbn [block].
  - apply agree_ret.
  - apply agree_bind; auto.
Qed.

Lemma agree_for_ {A : Type} (l : list A) (body1 body2 : A -> M unit) :
  (forall i, agree o1 o2 (body1 i) (body2 i)) ->
  agree o1 o2 (for_ l body1) (for_ l body2).
Proof.
  intros H. apply agree_block.
  induction l as [| i l IH]; cbn [map]; constructor; auto.
Qed.

Lemma agree_binop (op : value -> value -> result value)
    (a1 b1 a2 b2 : M value) :
  agree o1 o2 a1 a2 -> agree o1 o2 b1 b2 ->
  agree o1 o2 (binop op a1 b1) (binop op a2 b2).
Proof.
  intros Ha Hb. unfold binop.
  apply agree_bind; [exact Ha | intros a].
  apply agree_bind; [exact Hb | intros b]. apply agree_lift.
Qed.

Lemma agree_pow2 (e1 e2 : M value) :
  agree o1 o2 e1 e2 -> agree o1 o2 (pow2 e1) (pow2 e2).
Proof.
  intros H. unfold pow2. apply agree_bind; [exact H | intros a].
  apply agree_lift.
Qed.

Lemma agree_eq_str (e1 e2 : M value) (s : string) :
  agree o1 o2 e1 e2 -> agree o1 o2 (eq_str e1 s) (eq_str e2 s).
Proof.
  intros H. unfold eq_str. apply agree_bind; [exact H | intros a].
  apply agree_ret.
Qed.

Lemma agree_for_range1 (s1 s2 : M value) (body1 body2 : Z -> M unit) :
  agree o1 o2 s1 s2 -> (forall i, agree o1 o2 (body1 i) (body2 i)) ->
  agree o1 o2 (for_range1 s1 body1) (for_range1 s2 body2).
Proof.
  intros Hs Hb. unfold for_range1. apply agree_bind; [exact Hs | intros n].
  apply agree_bind; [apply agree_lift | intros l].
  apply agree_for_; exact Hb.
Qed.

Lemma agree_set (p : string) (e1 e2 : M value) :
  agree o1 o2 e1 e2 -> agree o1 o2 (process.set p e1) (process.set p e2).
Proof.
  intros H. unfold process.set. apply agree_bind; [exact H | intros v].
  apply agree_emit.
Qed.

Lemma agree_setnamed (n p : string) (e1 e2 : M value) :
  agree o1 o2 e1 e2 ->
  agree o1 o2 (process.setnamed n p e1) (process.setnamed n p e2).
Proof.
  intros H. unfold process.setnamed. apply agree_bind; [exact H | intros v].
  apply agree_emit.
Qed.

(** A test of an attribute on which the two instances agree: only the
    branch taken has to agree. *)
Lemma agree_if_eq_str (f : config -> value) (s : string)
    (t1 e1 t2 e2 : M unit) :
  f o1 = f o2 ->
  (py_eq_str (f o1) s = true -> agree o1 o2 t1 t2) ->
  (py_eq_str (f o1) s = false -> agree o1 o2 e1 e2) ->
  agree o1 o2 (if_ (eq_str (self_ f) s) t1 e1) (if_ (eq_str (self_ f) s) t2 e2).
Proof.
  intros Hf Ht He l.
  unfold if_, eq_str, self_, mbind, M_bind, mret, M_ret. cbn [self].
  rewrite <- Hf.
  destruct (py_eq_str (f o1) s); [apply (Ht eq_refl) | apply (He eq_refl)].
Qed.

Lemma agree_if_is (f : config -> value) (b : bool) (t1 e1 t2 e2 : M unit) :
  f o1 = f o2 ->
  ((if b then is_True (f o1) else is_False (f o1)) = true ->
   agree o1 o2 t1 t2) ->
  ((if b then is_True (f o1) else is_False (f o1)) = false ->
   agree o1 o2 e1 e2) ->
  agree o1 o2 (if_ (is_ (self_ f) b) t1 e1) (if_ (is_ (self_ f) b) t2 e2).
Proof.
  intros Hf Ht He l.
  unfold if_, is_, self_, mbind, M_bind, mret, M_ret. cbn [self].
  rewrite <- Hf.
  destruct (if b then is_True (f o1) else is_False (f o1));
    [apply (Ht eq_refl) | apply (He eq_refl)].
Qed.

(** A value computed from a test of an attribute on which the instances
    need not agree. *)
Lemma agree_bind_eq_str {A B : Type} (f : config -> value) (s : string)
    (g : bool -> A) (k1 k2 : A -> M B) :
  agree o1 o2 (k1 (g (py_eq_str (f o1) s))) (k2 (g (py_eq_str (f o2) s))) ->
  agree o1 o2 ((eq_str (self_ f) s ≫= fun b => mret (g b)) ≫= k1)
              ((eq_str (self_ f) s ≫= fun b => mret (g b)) ≫= k2).
Proof. intros H l. apply H. Qed.

Lemma agree_same_run (m : M unit) : agree o1 o2 m m -> same_run m o1 o2.
Proof.
  intros H. destruct (H []) as (r & l' & E1 & E2).
  unfold same_run, calls, run. rewrite E1, E2. split; reflexivity.
Qed.

End Agree.

(** One step of the syntax-directed proof that two runs agree.  [dead]
    closes a branch that the hypotheses on the instance exclude. *)
Ltac agree_step dead :=
  lazymatch goal with
  | |- Forall2 _ [] [] => constructor
  | |- Forall2 _ (_ :: _) (_ :: _) => constructor
  | |- agree _ _ (block _) _ => apply agree_block
  | |- agree _ _ (process.set _ _) _ => apply agree_set
  | |- agree _ _ (process.setnamed _ _ _) _ => apply agree_setnamed
  | |- agree _ _ process.switchtolayout _ => apply agree_emit
  | |- agree _ _ process.deleteall _ => apply agree_emit
  | |- agree _ _ (process.addelement _) _ => apply agree_emit
  | |- agree _ _ (process.connect _ _ _ _) _ => apply agree_emit
  | |- agree _ _ (process.disconnect _ _ _ _) _ => apply agree_emit
  | |- agree _ _ (process.flipelement _) _ => apply agree_emit
  | |- agree _ _ (process.select _) _ => apply agree_emit
  | |- agree _ _ (if_ (eq_str (self_ _) _) _ _) _ =>
      apply agree_if_eq_str;
        [assumption | intros ?; try (exfalso; dead) | intros ?; try (exfalso; dead)]
  | |- agree _ _ (if_ (is_ (self_ _) _) _ _) _ =>
      apply agree_if_is; [assumption | intros ? | intros ?]
  | |- agree _ _ (for_range1 _ _) _ => apply agree_for_range1; [| intros ?]
  | |- agree _ _ (eq_str _ _) _ => apply agree_eq_str
  | |- agree _ _ (add _ _) _ => apply agree_binop
  | |- agree _ _ (mul _ _) _ => apply agree_binop
  | |- agree _ _ (pow2 _) _ => apply agree_pow2
  | |- agree _ _ (self_ _) _ => apply agree_self_; assumption
  | |- agree _ _ (int _) _ => apply agree_ret
  | |- agree _ _ (flt _) _ => apply agree_ret
  | |- agree _ _ (str _) _ => apply agree_ret
  | |- agree _ _ (boolean _) _ => apply agree_ret
  | |- agree _ _ pass _ => apply agree_ret
  | |- agree _ _ (mret _) _ => apply agree_ret
  | |- agree _ _ (_ ≫= _) _ => apply agree_bind; [| intros ?]
  end.

Ltac solve_agree dead := repeat agree_step dead.

(** The attributes two instances agree on, one fact for each. *)
Ltac field_facts o1 o2 H side :=
  let go f :=
    try (let E := fresh "Hf" in
         assert (E : get f o1 = get f o2) by (apply H; side);
         cbn [get] in E) in
  go F.model; go F.taps; go F.DelayUnitLen; go F.unitsNextTap; go F.WvgLoss;
  go F.FiberLen; go F.PRBSType; go F.PulseAmp; go F.RiseTime; go F.FallTime;
  go F.MZMILoss; go F.ToggleBitOp; go F.bitrate; go F.numofSamples;
  go F.timeWindow; go F.OutputType; go F.ToggleAWGN; go F.NoisePSD;
  go F.ToggleOptFilter; go F.OptFilterBand; go F.PDResponsivity;
  go F.PDDarkCurrent; go F.PDTNoise; go F.TogglePDTNoise; go F.TogglePDSNoise.

Ltac decide_list := apply (bool_decide_unpack _); reflexivity.

(** X10: [update] sends nothing that depends on [WvgLoss] or [ToggleBitOp]: two
    instances that differ in these attributes only, or in undeclared ones,
    get the same calls and the same outcome.  A change of the waveguide loss
    or of the bit-operator toggle does not reach the schematic through
    [update]. *)
Theorem update_ignores_WvgLoss_ToggleBitOp (o1 o2 : PNN) :
  (forall f, f ∉ [F.WvgLoss; F.ToggleBitOp] -> get f o1 = get f o2) ->
  same_run update o1 o2.
Proof.
  intros H. apply agree_same_run.
  field_facts o1 o2 H decide_list.
  unfold update. solve_agree fail.
Qed.

(** A branch the hypotheses on the instance exclude. *)
Ltac dead_branch :=
  match goal with
  | Hb : py_eq_str ?x ?s = true, H : ?x <> VStr ?s |- _ =>
      apply py_eq_str_true in Hb; contradiction
  | Hb : py_eq_str ?x ?s = true, Hb' : py_eq_str ?y ?t = true,
    H : ~ (?x = VStr ?s /\ ?y = VStr ?t) |- _ =>
      apply py_eq_str_true in Hb, Hb'; apply H; split; assumption
  end.

(** X11: Outside the ['parallel'] model [mount] reads twelve attributes: the
    model, the three simulation parameters, the seven transmission
    parameters and the delay-unit length.  Two instances that agree on these
    get the same calls and the same outcome, whatever their tap count,
    tap growth, waveguide loss, output type, noise toggles and magnitudes
    and photodetector parameters are. *)
Theorem mount_outside_parallel_reads (o1 o2 : PNN) :
  model o1 <> VStr "parallel" ->
  (forall f,
     f ∈ [F.model; F.bitrate; F.numofSamples; F.timeWindow; F.FiberLen;
          F.PRBSType; F.PulseAmp; F.RiseTime; F.FallTime; F.MZMILoss;
          F.ToggleBitOp; F.DelayUnitLen] ->
     get f o1 = get f o2) ->
  same_run mount o1 o2.
Proof.
  intros Hm H. apply agree_same_run.
  field_facts o1 o2 H decide_list.
  unfold mount. cbv zeta.
  apply agree_bind; [solve_agree fail | intros _].
  apply (agree_bind_eq_str o1 o2 OutputType "mixed"
           (fun mixed : bool => if mixed then 0 + 300 else 0)).
  generalize (if py_eq_str (OutputType o1) "mixed" then 0 + 300 else 0).
  generalize (if py_eq_str (OutputType o2) "mixed" then 0 + 300 else 0).
  intros a2 a1.
  solve_agree ltac:(idtac; dead_branch).
Qed.

(** X12: The tap count is read in one place only.  Two instances that differ in
    [taps] alone get the same calls and the same outcome from [update]
    unless the output type is ['disconnected'], and from [mount] unless the
    model is ['parallel'] and the output type is ['disconnected']. *)
Theorem taps_read_for_disconnected_output_only (o1 o2 : PNN) :
  (forall f, f <> F.taps -> get f o1 = get f o2) ->
  (OutputType o1 <> VStr "disconnected" -> same_run update o1 o2) /\
  (~ (model o1 = VStr "parallel" /\ OutputType o1 = VStr "disconnected") ->
   same_run mount o1 o2).
Proof.
  intros H. field_facts o1 o2 H ltac:(discriminate).
  split; intros Hd; apply agree_same_run.
  - unfold update. solve_agree ltac:(idtac; dead_branch).
  - unfold mount. cbv zeta. solve_agree ltac:(idtac; dead_branch).
Qed.

(** ** C7 *)


(** * When the two procedures run to their end *)

Lemma reader_outcome {A : Type} (m : M A) (o : PNN) (l : list call) :
  reader m -> (m (World o l)).1 = (run m o).1.
Proof. intros H. rewrite (H (World o l)). reflexivity. Qed.

Lemma reader_self {A : Type} (m : M A) (w : world) :
  reader m -> self (m w).2 = self w.
Proof. intros H. rewrite (H w). reflexivity. Qed.

Section Requires.

Variable o : PNN.

Lemma run_bind {A B : Type} (m : M A) (k : A -> M B) :
  reader m -> (forall a, reader (k a)) ->
  (run (m ≫= k) o).1
  = match (run m o).1 with
    | inl e => inl e
    | inr a => (run (k a) o).1
    end.
Proof.
  intros Hm Hk. unfold run, mbind, M_bind.
  pose proof (reader_self m (World o []) Hm) as Hs.
  destruct (m (World o [])) as [[e | a] [o' l']]; cbn [fst snd self] in *.
  - reflexivity.
  - subst o'. apply reader_outcome, Hk.
Qed.

Lemma completes_cons (s : M unit) (l : list (M unit)) :
  reader s -> reader (block l) ->
  (completes (block (s :: l)) o <-> completes s o /\ completes (block l) o).
Proof.
  intros Hs Hl. unfold completes. cbn [block].
  rewrite run_bind by (intros; assumption).
  destruct (run s o).1 as [e | []]; split.
  - discriminate.
  - intros [H _]. discriminate H.
  - intros H. split; [reflexivity | exact H].
  - intros [_ H]. exact H.
Qed.

Lemma requires_nil : requires (block []) o True.
Proof. split; [apply reader_ret | split; [trivial | reflexivity]]. Qed.

Lemma requires_pass : requires pass o True.
Proof. split; [apply reader_ret | split; [trivial | reflexivity]]. Qed.

Lemma requires_plain (s : M unit) :
  reader s -> completes s o -> requires s o True.
Proof. intros Hs Hc. split; [exact Hs | tauto]. Qed.

Lemma requires_cons_plain (s : M unit) (l : list (M unit)) (C : Prop) :
  reader s -> completes s o -> requires (block l) o C ->
  requires (block (s :: l)) o C.
Proof.
  intros Hs Hc [Hl HC]. split.
  - apply reader_bind; [exact Hs | intros _; exact Hl].
  - rewrite completes_cons by assumption. tauto.
Qed.

Lemma requires_cons (s : M unit) (l : list (M unit)) (C1 C2 : Prop) :
  requires s o C1 -> requires (block l) o C2 ->
  requires (block (s :: l)) o (C1 /\ C2).
Proof.
  intros [Hs H1] [Hl H2]. split.
  - apply reader_bind; [exact Hs | intros _; exact Hl].
  - rewrite completes_cons by assumption. tauto.
Qed.

Lemma requires_if_eq_str (f : config -> value) (s : string) (t e : M unit)
    (Ct Ce : Prop) :
  requires t o Ct -> requires e o Ce ->
  requires (if_ (eq_str (self_ f) s) t e) o
           ((f o = VStr s -> Ct) /\ (f o <> VStr s -> Ce)).
Proof.
  intros [Ht H1] [He H2]. split.
  - apply reader_if_; [apply reader_eq_str, reader_self_ | exact Ht | exact He].
  - unfold completes, run, if_, eq_str, self_, mbind, M_bind, mret, M_ret in *.
    cbn [self] in *.
    rewrite <- py_eq_str_false, <- py_eq_str_true.
    destruct (py_eq_str (f o) s); [rewrite H1 | rewrite H2];
      intuition congruence.
Qed.

Lemma requires_if_is (f : config -> value) (b : bool) (t e : M unit)
    (Ct Ce : Prop) :
  requires t o Ct -> requires e o Ce ->
  requires (if_ (is_ (self_ f) b) t e) o
           ((f o = VBool b -> Ct) /\ (f o <> VBool b -> Ce)).
Proof.
  intros [Ht H1] [He H2]. split.
  - apply reader_if_; [apply reader_is_, reader_self_ | exact Ht | exact He].
  - unfold completes, run, if_, is_, self_, mbind, M_bind, mret, M_ret in *.
    cbn [self] in *.
    destruct b.
    + rewrite <- is_True_false, <- is_True_true.
      destruct (is_True (f o)); [rewrite H1 | rewrite H2];
        intuition congruence.
    + rewrite <- is_False_false, <- is_False_true.
      destruct (is_False (f o)); [rewrite H1 | rewrite H2];
        intuition congruence.
Qed.

Lemma requires_emit_value (e : M value) (c : value -> call) :
  reader e ->
  requires (v ← e; emit (c v)) o (returns (run e o).1).
Proof.
  intros He. split.
  - apply reader_bind; [exact He | intros v; apply reader_emit].
  - unfold completes. rewrite run_bind
      by (first [exact He | intros; apply reader_emit]).
    unfold returns. destruct (run e o).1 as [x | v]; split.
    + discriminate.
    + intros [a H]. discriminate H.
    + eauto.
    + reflexivity.
Qed.

Lemma requires_set (p : string) (e : M value) :
  reader e -> requires (process.set p e) o (returns (run e o).1).
Proof. apply (requires_emit_value e (c_set p)). Qed.

Lemma requires_setnamed (n p : string) (e : M value) :
  reader e -> requires (process.setnamed n p e) o (returns (run e o).1).
Proof. apply (requires_emit_value e (c_setnamed n p)). Qed.

Lemma completes_for_ {A : Type} (l : list A) (body : A -> M unit) (C : Prop) :
  (forall i, requires (body i) o C) ->
  (completes (for_ l body) o <-> (l <> [] -> C)).
Proof.
  intros Hb. unfold for_.
  induction l as [| i l IH]; cbn [map].
  - split; [intros _ H; congruence | reflexivity].
  - destruct (Hb i) as [Hr Hc].
    rewrite completes_cons.
    + rewrite Hc, IH. split.
      * intros [H _] _. exact H.
      * intros H. split; [apply H; discriminate | intros _; apply H; discriminate].
    + exact Hr.
    + apply reader_for_. intros j. apply Hb.
Qed.

Lemma requires_for_range1 (stop : M value) (body : Z -> M unit) (C : Prop) :
  reader stop -> (forall i, requires (body i) o C) ->
  requires (for_range1 stop body) o
           (exists v l, (run stop o).1 = inr v /\ py_range1 v = inr l /\
                        (l <> [] -> C)).
Proof.
  intros Hs Hb. split.
  - apply reader_for_range1; [exact Hs | intros i; apply Hb].
  - unfold completes, for_range1.
    rewrite run_bind; [| exact Hs |].
    2: { intros n. apply reader_bind; [apply reader_lift | intros l].
         apply reader_for_. intros i. apply Hb. }
    destruct (run stop o).1 as [x | v].
    { split; [discriminate | intros (v & l & H & _); discriminate H]. }
    rewrite run_bind; [| apply reader_lift |].
    2: { intros l. apply reader_for_. intros i. apply Hb. }
    change (run (lift (py_range1 v)) o).1 with (py_range1 v).
    destruct (py_range1 v) as [x | l] eqn:Er.
    { split; [discriminate | intros (v' & l & [= <-] & H & _); congruence]. }
    change ((run (for_ l body) o).1 = inr tt) with (completes (for_ l body) o).
    rewrite (completes_for_ l body C Hb). split.
    + intros H. exists v, l. auto.
    + intros (v' & l' & [= <-] & Er' & H).
      rewrite Er in Er'. injection Er' as <-. exact H.
Qed.

Lemma requires_iff (m : M unit) (C C' : Prop) :
  requires m o C -> (C <-> C') -> requires m o C'.
Proof. intros [Hr H] HC. split; [exact Hr | rewrite H; exact HC]. Qed.

End Requires.

(** One step of the syntax-directed computation of what a script requires. *)
Ltac requires_step :=
  lazymatch goal with
  | |- requires (block []) _ _ => apply requires_nil
  | |- requires (block (_ :: _)) _ _ =>
      first [ apply requires_cons_plain;
                [ | reflexivity | ]; [solve_reader |]
            | apply requires_cons ]
  | |- requires (if_ (eq_str (self_ _) _) _ _) _ _ => apply requires_if_eq_str
  | |- requires (if_ (is_ (self_ _) _) _ _) _ _ => apply requires_if_is
  | |- requires pass _ _ => apply requires_pass
  | |- requires (process.set _ _) _ _ => apply requires_set; solve_reader
  | |- requires (process.setnamed _ _ _) _ _ =>
      apply requires_setnamed; solve_reader
  | |- requires (for_range1 _ _) _ _ =>
      apply requires_for_range1; [solve_reader | intros ?]
  | |- requires _ _ _ => apply requires_plain; [solve_reader | reflexivity]
  end.

(** What is computed by the expressions of the two procedures. *)
Lemma run_tap_2 (o : PNN) :
  (run (mul (add (int 1) (self_ unitsNextTap)) (self_ DelayUnitLen)) o).1
  = tap_length 2 o.
Proof.
  unfold tap_length, tap_factor, run, mul, add, binop, int, self_, lift,
    mbind, M_bind, mret, M_ret. cbn [self fst snd Z.eqb Pos.eqb].
  destruct (py_add (VInt 1) (unitsNextTap o)); reflexivity.
Qed.

Lemma run_tap_from_3 (o : PNN) (k : Z) :
  (k + 1 =? 1)%Z = false -> (k + 1 =? 2)%Z = false ->
  (run (mul (add (int 1) (mul (int k) (self_ unitsNextTap)))
            (self_ DelayUnitLen)) o).1
  = tap_length (k + 1) o.
Proof.
  intros H1 H2.
  unfold tap_length, tap_factor, run, mul, add, binop, int, self_, lift,
    mbind, M_bind, mret, M_ret. cbn [self fst snd]. rewrite H1, H2.
  replace (k + 1 - 1) with k by lia.
  destruct (py_mul (VInt k) (unitsNextTap o)) as [e | a]; [reflexivity |].
  destruct (py_add (VInt 1) a); reflexivity.
Qed.

(** What the loop over the photodetectors requires of [taps]. *)
Lemma range_of_taps_iff (t : value) (C : Prop) :
  (exists v l, py_add t (VInt 1) = inr v /\ py_range1 v = inr l /\
               (l <> [] -> C))
  <-> exists n, as_int t = Some n /\ (1 <= n -> C).
Proof.
  split.
  - intros (v & l & Hv & Hl & HC).
    destruct (range_of_taps t v l Hv Hl) as (n & Hn & ->).
    exists n. split; [exact Hn |]. intros Hge. apply HC.
    rewrite seqZ_nil_iff. lia.
  - intros (n & Hn & HC).
    exists (VInt (n + 1)), (seqZ 1 n). split; [| split].
    + destruct t; try discriminate; injection Hn as <-; reflexivity.
    + unfold py_range1. cbn [as_int]. do 2 f_equal. lia.
    + intros Hne. apply HC.
      destruct (Z_lt_le_dec n 1) as [Hlt | Hle]; [| exact Hle].
      exfalso. apply Hne, seqZ_nil_iff, Hlt.
Qed.

Ltac name_expressions o :=
  rewrite ?run_tap_2, ?(run_tap_from_3 o 2), ?(run_tap_from_3 o 3)
    by reflexivity;
  change (2 + 1) with 3; change (3 + 1) with 4;
  change (run (add (self_ taps) (int 1)) o).1
    with (py_add (taps o) (VInt 1));
  change (run (pow2 (self_ PDTNoise)) o).1 with (py_pow2 (PDTNoise o));
  change (run (mul (self_ FiberLen) (flt 0.17e-3)) o).1
    with (py_mul (FiberLen o) (VFloat 0.17e-3));
  rewrite ?range_of_taps_iff.

Lemma update_requires (o : PNN) :
  requires update o
    (fiber_gain_ok o /\ photodetectors_ok o /\
     (model o = VStr "parallel" -> delay_lines_ok o)).
Proof.
  eapply requires_iff.
  - unfold update. repeat requires_step.
  - name_expressions o.
    unfold fiber_gain_ok, photodetectors_ok, thermal_noise_ok, delay_lines_ok.
    split.
    + intros ([Hp _] & Hf & [Hd Hn] & _).
      split; [exact Hf |]. split; [split |].
      * intros Ho. destruct (Hd Ho) as (n & Hn' & HC). exists n.
        split; [exact Hn' |]. intros Hge. apply (HC Hge).
      * intros Ho. apply (Hn Ho).
      * intros Hm. destruct (Hp Hm) as (? & ? & ? & _). auto.
    + intros (Hf & [Hd Hn] & Hp).
      split; [split; [intros Hm; destruct (Hp Hm) as (? & ? & ?); auto | trivial] |].
      split; [exact Hf |].
      split.
      * split.
        -- intros Ho. destruct (Hd Ho) as (n & Hn' & HC). exists n.
           split; [exact Hn' |]. intros Hge.
           split; [split; [apply (HC Hge) | trivial] | trivial].
        -- intros Ho. split; [split; [apply (Hn Ho) | trivial] | trivial].
      * unfold returns. repeat split; eauto.
Qed.

Lemma requires_after (o : PNN) (opening : M unit) (k : M unit) (C : Prop) :
  reader opening -> completes opening o -> requires k o C ->
  requires (opening ≫= fun _ => k) o C.
Proof.
  intros Ho Hc [Hk HC]. split.
  - apply reader_bind; [exact Ho | intros _; exact Hk].
  - unfold completes in *. rewrite run_bind by (intros; assumption).
    rewrite Hc. exact HC.
Qed.

Lemma requires_bind_eq_str {A : Type} (o : PNN) (f : config -> value)
    (s : string) (g : bool -> A) (k : A -> M unit) (C : Prop) :
  (forall a, reader (k a)) ->
  requires (k (g (py_eq_str (f o) s))) o C ->
  requires ((eq_str (self_ f) s ≫= fun b => mret (g b)) ≫= k) o C.
Proof.
  intros Hk [_ HC]. split.
  - apply reader_bind; [| exact Hk].
    apply reader_bind; [apply reader_eq_str, reader_self_ |].
    intros b. apply reader_ret.
  - exact HC.
Qed.

Lemma mount_requires (o : PNN) :
  requires mount o
    (fiber_gain_ok o /\
     (model o = VStr "parallel" -> delay_lines_ok o /\ photodetectors_ok o) /\
     (model o = VStr "series" ->
      returns (py_mul (VInt 2) (DelayUnitLen o)))).
Proof.
  eapply requires_iff.
  - unfold mount. cbv zeta.
    apply requires_after; [solve_reader | reflexivity |].
    apply (requires_bind_eq_str o OutputType "mixed"
             (fun mixed : bool => if mixed then 0 + 300 else 0));
      [intros a; solve_reader |].
    repeat requires_step.
  - name_expressions o.
    change (run (mul (int 2) (self_ DelayUnitLen)) o).1
      with (py_mul (VInt 2) (DelayUnitLen o)).
    unfold fiber_gain_ok, photodetectors_ok, thermal_noise_ok, delay_lines_ok.
    split.
    + intros (Hf & _ & [Hp Hs] & _).
      split; [exact Hf |]. split.
      * intros Hm. destruct (Hp Hm) as (H2 & H3 & H4 & [Hd Hn] & _).
        split; [auto |]. split.
        -- intros Ho. destruct (Hd Ho) as [(n & Hn' & HC) _]. exists n.
           split; [exact Hn' |]. intros Hge. apply (HC Hge).
        -- intros Ho. apply (Hn Ho).
      * intros Hm. apply Hs; [congruence | exact Hm].
    + intros (Hf & Hp & Hs).
      split; [exact Hf |]. split; [tauto |]. split; [| trivial]. split.
      * intros Hm. destruct (Hp Hm) as ((H2 & H3 & H4) & [Hd Hn]).
        split; [exact H2 |]. split; [exact H3 |]. split; [exact H4 |].
        split; [| trivial]. split.
        -- intros Ho. destruct (Hd Ho) as (n & Hn' & HC).
           split; [| trivial]. exists n.
           split; [exact Hn' |]. intros Hge.
           split; [split; [apply (HC Hge) | trivial] | trivial].
        -- intros Ho. split; [split; [apply (Hn Ho) | trivial] |]. tauto.
      * intros Hm. split; [| trivial]. intros Hs'. split; [auto | trivial].
Qed.

(** X13: On a configuration whose arithmetic is on [None], Booleans,
    integers, floats and strings, with a delay-unit length that is no
    string, [update] runs to its end exactly when its arithmetic returns:
    the gain of the fiber amplifier; the photodetector settings, which for
    the ['disconnected'] output need [taps] to be an integer and otherwise
    do not read it, and which square [PDTNoise] only when [TogglePDTNoise]
    is [True] (and, for ['disconnected'], [taps] is at least one); and, in
    the ['parallel'] model, the three computed delay-line lengths.  In every
    other case it raises. *)
Theorem update_completes_iff (o : PNN) :
  plain_arithmetic o ->
  (completes update o
   <-> fiber_gain_ok o /\ photodetectors_ok o /\
       (model o = VStr "parallel" -> delay_lines_ok o)).
Proof. intros _. apply update_requires. Qed.

(** X14: On a configuration whose arithmetic is on [None], Booleans,
    integers, floats and strings, with a delay-unit length that is no
    string, [mount] runs to its end exactly when its arithmetic returns: the
    gain of the fiber amplifier; in the ['parallel'] model the three
    computed delay-line lengths and the photodetector settings; in the
    ['series'] model the doubled delay-unit length.  In every other case it
    raises, after it has cleared the schematic. *)
Theorem mount_completes_iff (o : PNN) :
  plain_arithmetic o ->
  (completes mount o
   <-> fiber_gain_ok o /\
       (model o = VStr "parallel" -> delay_lines_ok o /\ photodetectors_ok o) /\
       (model o = VStr "series" ->
        returns (py_mul (VInt 2) (DelayUnitLen o)))).
Proof. intros _. apply mount_requires. Qed.

(** X15: In the ['parallel'] model [update] raises on exactly the configurations
    on which [mount] raises: a configuration that [mount] has built can be
    updated, and one that [update] accepts can be built. *)
Theorem update_completes_as_mount (o : PNN) :
  model o = VStr "parallel" -> (completes mount o <-> completes update o).
Proof.
  intros Hm.
  rewrite (proj2 (mount_requires o)), (proj2 (update_requires o)).
  split.
  - intros (Hf & Hp & _). destruct (Hp Hm) as [Hd Hn]. auto.
  - intros (Hf & Hn & Hd). split; [exact Hf |]. split; [auto |].
    intros Hs. congruence.
Qed.

(** * [update] after [mount] *)

(** At the end of a run: the trace as a list of calls, and what it makes and
    addresses. *)
Ltac observe E Ho Hs :=
  apply run_end in E; subst_logs E;
  lazymatch type of E with
  | ?w = _ =>
      eassert (Ho : elements_of (trace w) = _)
        by (rewrite E; compute_obs; reflexivity);
      eassert (Hs : setnamed_targets (trace w) = _)
        by (rewrite E; compute_obs; reflexivity);
      clear E
  end.

(** X16: In the ['parallel'] model with an output type other than
    ['disconnected'], [update] is a projection of [mount]: when both run to
    their end on a configuration, every [setnamed] of [update] either
    repeats a [setnamed] that [mount] issues on the root element, or
    addresses an element that [mount] makes exactly once under that name,
    and gives the property the value [mount] gave it.  So [update] right
    after [mount] changes nothing in the schematic. *)
Theorem update_projects_mount (o : PNN) :
  model o = VStr "parallel" ->
  OutputType o <> VStr "disconnected" ->
  completes mount o ->
  completes update o ->
  Forall (fun '(n, p, v) =>
            (n = "::Root Element" /\
             In (n, p, v) (setnamed_targets (calls mount o))) \/
            property_of n p (calls mount o) = [Some v])
         (setnamed_targets (calls update o)).
Proof.
  intros Hm Hd Hcm Hcu. apply py_eq_str_false in Hd.
  assert (Hp : py_eq_str (model o) "parallel" = true) by (rewrite Hm; reflexivity).
  unfold completes, calls in *.
  destruct (run mount o) as [r w'] eqn:E. cbn [fst snd] in *. subst r.
  destruct (run update o) as [r w2] eqn:E2. cbn [fst snd] in *. subst r.
  unfold run, mount in E. set_aside E. eval_in E.
  repeat step E.
  all: clear_branches.
  all: observe E Ho Hs.
  all: unfold run, update in E2; set_aside E2; eval_in E2.
  all: repeat step E2.
  all: clear_branches.
  all: (apply run_end in E2; subst_logs E2;
        lazymatch type of E2 with
        | ?w = _ =>
            eassert (Hu : setnamed_targets (trace w) = _)
              by (rewrite E2; compute_obs; reflexivity);
            clear E2
        end).
  all: try match goal with
           | H1 : is_False ?x = true, H2 : is_True ?x = true |- _ =>
               exfalso; apply is_False_true in H1; apply is_True_true in H2;
               congruence
           end.
  all: rewrite Hu; clear Hu.
  all: repeat (apply List.Forall_cons); try apply List.Forall_nil.
  all: first
    [ right; unfold property_of, created; rewrite Ho; compute_obs; reflexivity
    | left; split; [reflexivity |]; rewrite Hs; cbn [In];
      repeat (first [left; reflexivity | right]) ].
Qed.

(** ** Where [update] addresses what [mount] has not made *)

(** At the end of a run of [update]: the trace, in one part or in three. *)
Ltac trace_of E Ho :=
  apply run_end in E; subst_logs E;
  lazymatch type of E with
  | ?w = World _ ?L =>
      lazymatch L with
      | context [concat] =>
          let p := before_loop L in
          lazymatch p with
          | (?s, ?x) => change L with (s ++ x) in E
          end;
          eassert (Ho : trace w = _)
            by (rewrite E, trace_with_loop; compute_parts; reflexivity);
          clear E
      | _ =>
          eassert (Ho : trace w = _) by (rewrite E; compute_obs; reflexivity);
          clear E
      end
  end.

Ltac find_target :=
  cbn [In]; repeat (first [left; reflexivity | right]).

Lemma update_addresses (o : PNN) :
  completes update o ->
  (OutputType o <> VStr "disconnected" ->
   In ("OutPIN", "enable thermal noise", TogglePDTNoise o)
      (setnamed_targets (calls update o))) /\
  (ToggleAWGN o = VBool true ->
   In ("AWGN_source", "power spectral density", NoisePSD o)
      (setnamed_targets (calls update o))) /\
  (ToggleOptFilter o = VBool true ->
   In ("Optical Filter", "bandwidth", OptFilterBand o)
      (setnamed_targets (calls update o))).
Proof.
  intros Hc. unfold completes, calls in *.
  destruct (run update o) as [r w'] eqn:E. cbn [fst snd] in *. subst r.
  unfold run, update in E. set_aside E. eval_in E.
  repeat step E.
  all: try through_loop o E Hall.
  all: clear_branches.
  all: trace_of E Ho.
  all: facts.
  all: unfold setnamed_targets; rewrite Ho; clear Ho.
  all: repeat split; intros; try contradiction.
  all: try (rewrite omap_cat3; apply In_cat3_after).
  all: compute_obs; find_target.
Qed.

(** X17: [update] picks the elements it addresses from the output type and the
    noise toggles alone, [mount] makes them in the ['parallel'] model only,
    and the noise source and the optical filter only for an output type
    other than ['disconnected'].  So, on every configuration on which both
    run to their end: outside the ['parallel'] model with an output type
    other than ['disconnected'], [update] addresses the photodetector
    ['OutPIN'], which [mount] has not made; and outside the ['parallel']
    model, or with the output type ['disconnected'], [update] addresses
    ['AWGN_source'] when [ToggleAWGN] is [True] and ['Optical Filter'] when
    [ToggleOptFilter] is [True], neither of which [mount] has made. *)
Theorem update_addresses_what_mount_omits (o : PNN) :
  completes mount o -> completes update o ->
  (model o <> VStr "parallel" -> OutputType o <> VStr "disconnected" ->
   In ("OutPIN", "enable thermal noise", TogglePDTNoise o)
      (setnamed_targets (calls update o)) /\
   creates "OutPIN" (calls mount o) = false) /\
  (model o <> VStr "parallel" \/ OutputType o = VStr "disconnected" ->
   (ToggleAWGN o = VBool true ->
    In ("AWGN_source", "power spectral density", NoisePSD o)
       (setnamed_targets (calls update o)) /\
    creates "AWGN_source" (calls mount o) = false) /\
   (ToggleOptFilter o = VBool true ->
    In ("Optical Filter", "bandwidth", OptFilterBand o)
       (setnamed_targets (calls update o)) /\
    creates "Optical Filter" (calls mount o) = false)).
Proof.
  intros Hcm Hcu.
  destruct (update_addresses o Hcu) as (Hp & Ha & Hf).
  assert (Hno : model o <> VStr "parallel" \/ OutputType o = VStr "disconnected" ->
                creates "AWGN_source" (calls mount o) = false /\
                creates "Optical Filter" (calls mount o) = false).
  { intros Hout.
    destruct (py_eq_str (model o) "parallel") eqn:Hm.
    - apply py_eq_str_true in Hm. destruct Hout as [Hne | Hd]; [contradiction |].
      destruct (mount_parallel_disconnected o Hm Hd Hcm)
        as (n & _ & H1 & H2 & _). split; assumption.
    - apply py_eq_str_false in Hm.
      destruct (mount_not_parallel o Hm Hcm) as (H1 & H2 & _).
      split; assumption. }
  split.
  - intros Hm Hd. split; [apply Hp, Hd |].
    destruct (mount_not_parallel o Hm Hcm) as (_ & _ & H3 & _). exact H3.
  - intros Hout. destruct (Hno Hout) as [H1 H2].
    split; intros Ht; (split; [auto | assumption]).
Qed.

(** ** [update] after [mount] with the photodetectors of the taps *)







(** * The report of [showParameters] *)

Section Report_facts.

Variables (str_float str_round : float -> string)
          (str_opaque : string -> string).

(** X19: On an instance whose attributes all hold [None], a Boolean, a
    float, a string or an integer of at most 4300 digits, [showParameters]
    prints its twelve lines and returns exactly when its four products
    evaluate: [DelayUnitLen * 1e-6], [FiberLen * 1e-3], [1e-9 * bitrate] and
    [OptFilterBand * 1e-9].  Otherwise it raises, having printed the lines
    before the one whose product fails: none when it is the first product,
    the first four lines when it is the last. *)
Theorem showParameters_completes_iff (o : PNN) :
  (forall f, printable (get f o)) ->
  ((showParameters str_float str_round str_opaque o).2 = inr tt
   <-> returns (py_mul (DelayUnitLen o) (VFloat 1e-6)) /\
       returns (py_mul (FiberLen o) (VFloat 1e-3)) /\
       returns (py_mul (VFloat 1e-9) (bitrate o)) /\
       returns (py_mul (OptFilterBand o) (VFloat 1e-9))) /\
  ((showParameters str_float str_round str_opaque o).2 = inr tt -> length (showParameters str_float str_round str_opaque o).1 = 12%nat) /\
  (forall e, py_mul (DelayUnitLen o) (VFloat 1e-6) = inl e ->
     showParameters str_float str_round str_opaque o = ([], inl e)) /\
  (forall e, returns (py_mul (DelayUnitLen o) (VFloat 1e-6)) ->
     returns (py_mul (FiberLen o) (VFloat 1e-3)) ->
     returns (py_mul (VFloat 1e-9) (bitrate o)) ->
     py_mul (OptFilterBand o) (VFloat 1e-9) = inl e ->
     (showParameters str_float str_round str_opaque o).2 = inl e /\ length (showParameters str_float str_round str_opaque o).1 = 4%nat).
Proof.
  intros _.
  unfold showParameters, report, returns.
  cbn [print_all fstring piece attr enabled].
  destruct (py_mul (DelayUnitLen o) (VFloat 1e-6)) as [e1 | v1].
  { split; [split; [discriminate | intros ([a H] & _); discriminate H] |].
    split; [discriminate |]. split; [intros e [= <-]; reflexivity |].
    intros e [a H]. discriminate H. }
  destruct (py_mul (FiberLen o) (VFloat 1e-3)) as [e2 | v2].
  { split; [split; [discriminate | intros (_ & [a H] & _); discriminate H] |].
    split; [discriminate |]. split; [discriminate |].
    intros e _ [a H]. discriminate H. }
  destruct (py_mul (VFloat 1e-9) (bitrate o)) as [e3 | v3].
  { split; [split; [discriminate | intros (_ & _ & [a H] & _); discriminate H] |].
    split; [discriminate |]. split; [discriminate |].
    intros e _ _ [a H]. discriminate H. }
  destruct (py_mul (OptFilterBand o) (VFloat 1e-9)) as [e4 | v4].
  { destruct v3;
      (split; [split; [discriminate | intros (_ & _ & _ & [a H]); discriminate H] |]);
      (split; [discriminate |]); (split; [discriminate |]);
      intros e _ _ _ [= <-]; split; reflexivity. }
  destruct v3;
    (split; [split; [intros _; eauto 10 | reflexivity] |]);
    (split; [reflexivity |]); split; discriminate.
Qed.

Lemma showParameters_toggle_lines (o : PNN) :
  (showParameters str_float str_round str_opaque o).2 = inr tt ->
  (showParameters str_float str_round str_opaque o).1 !! 9%nat
  = Some ("AWGN post PD: "
          +:+ (if py_eq_True (ToggleAWGN o) then "enabled" else "disabled")) /\
  (showParameters str_float str_round str_opaque o).1 !! 10%nat
  = Some ("Optical Filter: "
          +:+ (if py_eq_True (ToggleOptFilter o) then "enabled"
               else "disabled")).
Proof.
  unfold showParameters, report.
  cbn [print_all fstring piece attr enabled].
  destruct (py_mul (DelayUnitLen o) (VFloat 1e-6)); [discriminate |].
  destruct (py_mul (FiberLen o) (VFloat 1e-3)); [discriminate |].
  destruct (py_mul (VFloat 1e-9) (bitrate o)) as [| v3]; [discriminate |].
  destruct (py_mul (OptFilterBand o) (VFloat 1e-9));
    [destruct v3; discriminate |].
  intros _.
  destruct (py_eq_True (ToggleAWGN o)), (py_eq_True (ToggleOptFilter o));
    destruct v3; split; reflexivity.
Qed.

(** X20: the report and the schematic read the toggles differently.
    [showParameters] reports a toggle as enabled when it [== True], which
    holds of the numbers equal to one; [mount] makes the noise source when
    [ToggleAWGN is True], and the optical filter unless
    [ToggleOptFilter is False].  So, in the ['parallel'] model with an
    output type other than ['disconnected'], when both run to their end:
    for a [ToggleAWGN] that equals [True] without being it, such as [1],
    the report's tenth line is ['AWGN post PD: enabled'] and [mount] makes
    no ['AWGN_source']; for a [ToggleOptFilter] that neither equals [True]
    nor is [False], such as [0] or [None], the eleventh line is
    ['Optical Filter: disabled'] and [mount] makes the ['Optical Filter']. *)
Theorem report_and_schematic_disagree (o : PNN) :
  model o = VStr "parallel" ->
  OutputType o <> VStr "disconnected" ->
  completes mount o ->
  (showParameters str_float str_round str_opaque o).2 = inr tt ->
  (py_eq_True (ToggleAWGN o) = true -> ToggleAWGN o <> VBool true ->
   (showParameters str_float str_round str_opaque o).1 !! 9%nat
   = Some "AWGN post PD: enabled" /\
   creates "AWGN_source" (calls mount o) = false) /\
  (py_eq_True (ToggleOptFilter o) = false -> ToggleOptFilter o <> VBool false ->
   (showParameters str_float str_round str_opaque o).1 !! 10%nat
   = Some "Optical Filter: disabled" /\
   creates "Optical Filter" (calls mount o) = true).
Proof.
  intros Hm Hd Hc Hs.
  destruct (showParameters_toggle_lines o Hs) as [H9 H10].
  destruct (mount_parallel_combined o Hm Hd Hc) as (Ha & Hf & _).
  split.
  - intros He Hn. rewrite He in H9. split; [exact H9 |].
    destruct (creates "AWGN_source" (calls mount o)); [| reflexivity].
    exfalso. apply Hn, Ha. reflexivity.
  - intros He Hn. rewrite He in H10. split; [exact H10 |].
    apply Hf, Hn.
Qed.

End Report_facts.


End Platform.

(** * The properties on examples

    The properties above hold for every C library.  They are read here on
    instances, with [product_pow] where a library is needed. *)

(** ** C3 *)

Lemma delay_line_lengths_witness :
  Forall (delay_line_set (calls (mount product_pow) PNN_default) PNN_default)
         [1; 2; 3; 4] /\
  Forall (delay_line_updated (calls (update product_pow) PNN_default)
                             PNN_default)
         [1; 2; 3; 4] /\
  addresses_delay_line (calls (update product_pow) series_instance) = false.
Proof.
  split; [| split].
  - apply (proj1 (proj1 (delay_line_lengths product_pow PNN_default) eq_refl)).
    vm_compute. reflexivity.
  - apply (proj2 (proj1 (delay_line_lengths product_pow PNN_default) eq_refl)).
    vm_compute. reflexivity.
  - apply (proj1 (proj2 (delay_line_lengths product_pow series_instance))).
    + discriminate.
    + vm_compute. reflexivity.
Defined.

(** ** C4 *)

Lemma noise_toggles_witness :
  creates "AWGN_source" (calls (mount product_pow) noisy_instance) = true /\
  creates "Optical Filter" (calls (mount product_pow) noisy_instance) = true /\
  thermal_noise_set (calls (mount product_pow) noisy_instance) <> [] /\
  Forall (fun v => py_pow2 product_pow (PDTNoise noisy_instance) = inr v)
         (thermal_noise_set (calls (mount product_pow) noisy_instance)).
Proof.
  assert (Hc : completes (mount product_pow) noisy_instance)
    by (vm_compute; reflexivity).
  destruct (noise_toggles product_pow noisy_instance Hc) as (H & _ & _ & Hv).
  destruct H as (Ha & Hf & Ht).
  - reflexivity.
  - discriminate.
  - split; [apply Ha; reflexivity |].
    split; [apply (Hf true); reflexivity |].
    split; [apply Ht; reflexivity | exact Hv].
Defined.

(** C4, counterexample to the claim as stated: after [PNN()] and
    [output(OutputType='disconnected', ToggleAWGN=True)], [ToggleAWGN] is
    [True], [mount] runs to its end, and it makes no element named
    ['AWGN_source']. *)
Lemma mount_disconnected_makes_no_AWGN_source :
  run (output (VStr "disconnected") (VBool true) VNone VNone VNone) PNN_default
  = (inr tt, World disconnected_awgn_instance []) /\
  ToggleAWGN disconnected_awgn_instance = VBool true /\
  completes (mount product_pow) disconnected_awgn_instance /\
  creates "AWGN_source" (calls (mount product_pow) disconnected_awgn_instance)
  = false.
Proof.
  split; [reflexivity |]. split; [reflexivity |].
  split; vm_compute; reflexivity.
Qed.

(** ** C7 *)



(** ** What the two procedures read *)

Lemma update_ignores_WvgLoss_ToggleBitOp_witness :
  same_run (update product_pow) PNN_default
    (self (session
       [call_general VNone VNone VNone VNone (VFloat 3);
        call_transmission VNone VNone VNone VNone VNone VNone (VBool false)]
       (World PNN_default []))) /\
  ~ same_run (mount product_pow) PNN_default
    (self (session
       [call_general VNone VNone VNone VNone (VFloat 3);
        call_transmission VNone VNone VNone VNone VNone VNone (VBool false)]
       (World PNN_default []))).
Proof.
  split.
  - apply update_ignores_WvgLoss_ToggleBitOp.
    intros f Hf.
    destruct f;
      first [ reflexivity
            | exfalso; apply Hf; apply (bool_decide_unpack _); reflexivity ].
  - intros [H _]. apply (f_equal length) in H. vm_compute in H. discriminate H.
Defined.

Lemma mount_outside_parallel_reads_witness :
  same_run (mount product_pow) series_instance
    (self (session
       [call_general VNone (VInt 9) VNone (VStr "x") (VFloat 0.5);
        call_output (VStr "mixed") (VBool true) VNone (VBool true) VNone;
        call_photoreceptor VNone VNone (VStr "loud") (VBool true) VNone]
       (World series_instance []))).
Proof.
  apply mount_outside_parallel_reads.
  - discriminate.
  - intros f Hf.
    destruct f;
      first [ reflexivity
            | exfalso; revert Hf; apply (bool_decide_unpack _); reflexivity ].
Defined.

Lemma taps_read_for_disconnected_output_only_witness :
  same_run (update product_pow) PNN_default
    (self (session [call_general VNone (VStr "many") VNone VNone VNone]
                   (World PNN_default []))) /\
  same_run (mount product_pow) PNN_default
    (self (session [call_general VNone (VStr "many") VNone VNone VNone]
                   (World PNN_default []))).
Proof.
  assert (H : forall f, f <> F.taps ->
            get f PNN_default
            = get f (self (session
                [call_general VNone (VStr "many") VNone VNone VNone]
                (World PNN_default []))))
    by (intros f Hf; destruct f; first [reflexivity | contradiction]).
  destruct (taps_read_for_disconnected_output_only product_pow _ _ H)
    as [Hu Hm].
  split; [apply Hu; discriminate | apply Hm; intros [_ Hd]; discriminate Hd].
Defined.

(** ** When the two procedures run to their end *)

Lemma update_completes_iff_witness :
  completes (update product_pow) noisy_instance.
Proof.
  apply (update_completes_iff product_pow noisy_instance).
  - split; [repeat constructor | reflexivity].
  - split; [eexists; reflexivity |]. split; [split |].
    + intros H. vm_compute in H. discriminate H.
    + intros _ _. eexists. reflexivity.
    + intros _. repeat split; eexists; reflexivity.
Defined.

Lemma mount_completes_iff_witness :
  completes (mount product_pow) noisy_instance.
Proof.
  apply (mount_completes_iff product_pow noisy_instance).
  - split; [repeat constructor | reflexivity].
  - split; [eexists; reflexivity |]. split.
    + intros _. split; [repeat split; eexists; reflexivity |]. split.
      * intros H. vm_compute in H. discriminate H.
      * intros _ _. eexists. reflexivity.
    + intros H. vm_compute in H. discriminate H.
Defined.

Lemma update_completes_as_mount_witness :
  completes (mount product_pow) two_tap_instance
  <-> completes (update product_pow) two_tap_instance.
Proof. apply update_completes_as_mount. reflexivity. Defined.

(** ** [update] after [mount] *)

Lemma update_projects_mount_witness :
  Forall (fun '(n, p, v) =>
            (n = "::Root Element" /\
             In (n, p, v)
                (setnamed_targets (calls (mount product_pow) noisy_instance))) \/
            property_of n p (calls (mount product_pow) noisy_instance)
            = [Some v])
         (setnamed_targets (calls (update product_pow) noisy_instance)).
Proof.
  apply update_projects_mount.
  - reflexivity.
  - discriminate.
  - vm_compute. reflexivity.
  - vm_compute. reflexivity.
Defined.

Lemma update_addresses_what_mount_omits_witness :
  In ("AWGN_source", "power spectral density",
      NoisePSD disconnected_awgn_instance)
     (setnamed_targets (calls (update product_pow) disconnected_awgn_instance)) /\
  creates "AWGN_source" (calls (mount product_pow) disconnected_awgn_instance)
  = false.
Proof.
  assert (Hm : completes (mount product_pow) disconnected_awgn_instance)
    by (vm_compute; reflexivity).
  assert (Hu : completes (update product_pow) disconnected_awgn_instance)
    by (vm_compute; reflexivity).
  destruct (update_addresses_what_mount_omits product_pow _ Hm Hu) as [_ H].
  destruct (H (or_intror eq_refl)) as [Ha _].
  exact (Ha eq_refl).
Defined.


(** ** The report of [showParameters] *)

Lemma showParameters_completes_iff_witness :
  (showParameters (fun _ => "x") (fun _ => "x") (fun _ => "x") PNN_default).2
  = inr tt /\
  length (showParameters (fun _ => "x") (fun _ => "x") (fun _ => "x")
            PNN_default).1 = 12%nat.
Proof.
  assert (Hp : forall f, printable (get f PNN_default))
    by (intros f; destruct f; first [exact I | vm_compute; reflexivity]).
  destruct (showParameters_completes_iff (fun _ => "x") (fun _ => "x")
              (fun _ => "x") PNN_default Hp) as (Hi & Hl & _).
  assert (Hs : (showParameters (fun _ => "x") (fun _ => "x") (fun _ => "x")
                  PNN_default).2 = inr tt)
    by (apply Hi; repeat split; eexists; reflexivity).
  split; [exact Hs | exact (Hl Hs)].
Defined.

Lemma report_and_schematic_disagree_witness :
  ((showParameters (fun _ => "x") (fun _ => "x") (fun _ => "x")
      numeric_toggles_instance).1 !! 9%nat
   = Some "AWGN post PD: enabled" /\
   creates "AWGN_source" (calls (mount product_pow) numeric_toggles_instance)
   = false) /\
  ((showParameters (fun _ => "x") (fun _ => "x") (fun _ => "x")
      numeric_toggles_instance).1 !! 10%nat
   = Some "Optical Filter: disabled" /\
   creates "Optical Filter" (calls (mount product_pow) numeric_toggles_instance)
   = true).
Proof.
  assert (Hc : completes (mount product_pow) numeric_toggles_instance)
    by (vm_compute; reflexivity).
  assert (Hs : (showParameters (fun _ => "x") (fun _ => "x") (fun _ => "x")
                  numeric_toggles_instance).2 = inr tt)
    by (vm_compute; reflexivity).
  destruct (report_and_schematic_disagree product_pow (fun _ => "x")
              (fun _ => "x") (fun _ => "x") numeric_toggles_instance eq_refl
              ltac:(discriminate) Hc Hs) as [Ha Hf].
  split; [apply Ha | apply Hf]; first [reflexivity | discriminate].
Defined.
